(** * PortOne webhook handler: subscription ledger reconciliation

    Shallow embedding of the webhook route (POST, handlePaidScenario,
    handleCancelledScenario) together with the parts of the JavaScript
    runtime the route relies on: Date arithmetic in the local time of a
    zone with daylight-saving transitions,
    Math.floor(Math.random() * 60) on doubles, fetch/axios outcomes and
    the Supabase `payment` table; and of the browser side that reads the
    same table: the subscription status hook (usePaymentStatus, in both
    of its versions), the cancel hook (usePaymentCancel) and the cancel
    button of the my-page. *)

From Stdlib Require Import ZArith List String Bool Lia Permutation Sorted.
Import ListNotations.
Local Open Scope Z_scope.

(* ===================================================================== *)
(** ** JavaScript values used by the route *)
(* ===================================================================== *)

(** `x ? ... : ...` / `x || y` on a string: the empty string is falsy. *)
Definition truthy (s : string) : bool :=
  negb (String.eqb s EmptyString).

(** The same test on an optional property (`undefined` is falsy); the
    result carries the string when the test passes. *)
Definition truthy_opt (o : option string) : option string :=
  match o with
  | Some s => if truthy s then Some s else None
  | None => None
  end.

(** `a || b` on optional strings. *)
Definition or_else (a : option string) (b : string) : string :=
  match truthy_opt a with
  | Some s => s
  | None => b
  end.

(* ===================================================================== *)
(** ** ECMAScript Date (ECMA-262, "Date Objects") *)
(* ===================================================================== *)

Module JSDate.

Definition msPerSecond : Z := 1000.
Definition msPerMinute : Z := 60000.
Definition msPerHour : Z := 3600000.
Definition msPerDay : Z := 86400000.

(** Largest magnitude of a time value: 8.64e15 ms. *)
Definition maxTime : Z := 8640000000000000.

Definition Day (t : Z) : Z := t / msPerDay.
Definition TimeWithinDay (t : Z) : Z := t mod msPerDay.

Definition DaysInYear (y : Z) : Z :=
  if negb (y mod 4 =? 0) then 365
  else if negb (y mod 100 =? 0) then 366
  else if negb (y mod 400 =? 0) then 365
  else 366.

Definition DayFromYear (y : Z) : Z :=
  365 * (y - 1970) + (y - 1969) / 4 - (y - 1901) / 100 + (y - 1601) / 400.

Definition TimeFromYear (y : Z) : Z := msPerDay * DayFromYear y.

(** The largest y with TimeFromYear y <= t: an estimate from the mean
    year length (146097 days per 400 years), corrected by one. *)
Definition YearFromTime (t : Z) : Z :=
  let d := Day t in
  let y := 1970 + (d * 400) / 146097 in
  if DayFromYear (y + 1) <=? d then y + 1
  else if DayFromYear y <=? d then y
  else y - 1.

Definition InLeapYear (t : Z) : Z :=
  if DaysInYear (YearFromTime t) =? 366 then 1 else 0.

Definition DayWithinYear (t : Z) : Z :=
  Day t - DayFromYear (YearFromTime t).

Definition MonthFromTime (t : Z) : Z :=
  let d := DayWithinYear t in
  let l := InLeapYear t in
  if d <? 31 then 0
  else if d <? 59 + l then 1
  else if d <? 90 + l then 2
  else if d <? 120 + l then 3
  else if d <? 151 + l then 4
  else if d <? 181 + l then 5
  else if d <? 212 + l then 6
  else if d <? 243 + l then 7
  else if d <? 273 + l then 8
  else if d <? 304 + l then 9
  else if d <? 334 + l then 10
  else 11.

Definition DateFromTime (t : Z) : Z :=
  let d := DayWithinYear t in
  let l := InLeapYear t in
  match MonthFromTime t with
  | 0 => d + 1
  | 1 => d - 30
  | 2 => d - 58 - l
  | 3 => d - 89 - l
  | 4 => d - 119 - l
  | 5 => d - 150 - l
  | 6 => d - 180 - l
  | 7 => d - 211 - l
  | 8 => d - 242 - l
  | 9 => d - 272 - l
  | 10 => d - 303 - l
  | _ => d - 333 - l
  end.

Definition HourFromTime (t : Z) : Z := (t / msPerHour) mod 24.
Definition MinFromTime (t : Z) : Z := (t / msPerMinute) mod 60.

Definition MakeTime (hour min sec ms : Z) : Z :=
  hour * msPerHour + min * msPerMinute + sec * msPerSecond + ms.

(** Day number of the first day of month [mn] (0..11) of a year whose
    leap flag is [l]. *)
Definition DayOfMonthStart (mn l : Z) : Z :=
  match mn with
  | 0 => 0
  | 1 => 31
  | 2 => 59 + l
  | 3 => 90 + l
  | 4 => 120 + l
  | 5 => 151 + l
  | 6 => 181 + l
  | 7 => 212 + l
  | 8 => 243 + l
  | 9 => 273 + l
  | 10 => 304 + l
  | _ => 334 + l
  end.

(** MakeDay: the day number of the first of month [mn] of year [ym],
    plus [date - 1]. *)
Definition MakeDay (year month date : Z) : Z :=
  let ym := year + month / 12 in
  let mn := month mod 12 in
  let l := if DaysInYear ym =? 366 then 1 else 0 in
  DayFromYear ym + DayOfMonthStart mn l + date - 1.

Definition MakeDate (day time : Z) : Z := day * msPerDay + time.

(** A time value is a finite integer or NaN ([None]). *)
Definition TimeClip (time : Z) : option Z :=
  if Z.abs time <=? maxTime then Some time else None.

(** The local time zone, as the host's zone database describes it: the
    offset from UTC, in milliseconds, in force before the first
    transition, and in order of time each transition (a daylight-saving
    change, a change of the zone's standard time): the instant at which
    it occurs and the offset in force from then on. *)
Record TimeZone : Type := mkTimeZone
  { initialOffset : Z;
    transitions : list (Z * Z) }.

(** A zone without transitions (UTC, KST). *)
Definition fixedOffset (offset : Z) : TimeZone := mkTimeZone offset [].

(** The offset in force at the instant [t]. *)
Fixpoint offsetAt (offset : Z) (changes : list (Z * Z)) (t : Z) : Z :=
  match changes with
  | [] => offset
  | (instant, next) :: rest =>
      if t <? instant then offset else offsetAt next rest t
  end.

(** The offset with which the local time [t] is read.  A local time
    that a transition skips, or that occurs twice around one, is read
    with the offset in force before the transition. *)
Fixpoint offsetOfLocal (offset : Z) (changes : list (Z * Z)) (t : Z) : Z :=
  match changes with
  | [] => offset
  | (instant, next) :: rest =>
      if (t - offset <? instant) || (t - next <? instant) then offset
      else offsetOfLocal next rest t
  end.

(** LocalTZA(t, isUTC) *)
Definition LocalTZA (zone : TimeZone) (t : Z) (isUTC : bool) : Z :=
  if isUTC then offsetAt (initialOffset zone) (transitions zone) t
  else offsetOfLocal (initialOffset zone) (transitions zone) t.

(** The least and the greatest offset of a zone, and their distance. *)
Definition minOffset (zone : TimeZone) : Z :=
  fold_right (fun change m => Z.min (snd change) m)
             (initialOffset zone) (transitions zone).

Definition maxOffset (zone : TimeZone) : Z :=
  fold_right (fun change m => Z.max (snd change) m)
             (initialOffset zone) (transitions zone).

Definition spread (zone : TimeZone) : Z := maxOffset zone - minOffset zone.

(** A Date object, by its time value. *)
Definition Date : Type := option Z.

Section LocalTimeZone.
Variable zone : TimeZone.

Definition LocalTime (t : Z) : Z := t + LocalTZA zone t true.
Definition UTC (t : Z) : Z := t - LocalTZA zone t false.

(** Date.prototype.getDate *)
Definition getDate (d : Date) : option Z :=
  match d with
  | Some t => Some (DateFromTime (LocalTime t))
  | None => None
  end.

(** Date.prototype.setDate; [date] is the argument after ToNumber. *)
Definition setDate (d : Date) (date : option Z) : Date :=
  match d, date with
  | Some t, Some dt =>
      let t := LocalTime t in
      let newDate :=
        MakeDate (MakeDay (YearFromTime t) (MonthFromTime t) dt)
                 (TimeWithinDay t) in
      TimeClip (UTC newDate)
  | _, _ => None
  end.

(** Date.prototype.setHours(hour, min, sec, ms) *)
Definition setHours (d : Date) (hour min sec ms : Z) : Date :=
  match d with
  | Some t =>
      let t := LocalTime t in
      TimeClip (UTC (MakeDate (Day t) (MakeTime hour min sec ms)))
  | None => None
  end.

Definition getHours (t : Z) : Z := HourFromTime (LocalTime t).
Definition getMinutes (t : Z) : Z := MinFromTime (LocalTime t).


(** The instant whose local date and time are those of [t] moved by [k]
    calendar days. *)
Definition addLocalDays (t k : Z) : Z :=
  UTC (LocalTime t + k * msPerDay).

(** The instant at the given time of the local calendar day containing
    [t]. *)
Definition atLocalTime (t h m s ms : Z) : Z :=
  UTC (MakeDate (Day (LocalTime t)) (MakeTime h m s ms)).

(** The offset of the zone does not change over the period: every
    instant and every local time between [from] and [until] has the same
    offset, of less than a day. *)
Definition steady (from until : Z) : Prop :=
  exists offset,
    - msPerDay < offset < msPerDay
    /\ forall t isUTC, from <= t <= until -> LocalTZA zone t isUTC = offset.
End LocalTimeZone.

(** [n + k] on a Number that may be NaN. *)
Definition plus (n : option Z) (k : Z) : option Z :=
  match n with
  | Some v => Some (v + k)
  | None => None
  end.

End JSDate.

(* ===================================================================== *)
(** ** Doubles in the unit interval and Math.floor(Math.random() * 60) *)
(* ===================================================================== *)

(** A non-negative double as the dyadic rational [num / 2 ^ scale]. *)
Record Dyadic : Type := mkDyadic { num : Z; scale : Z }.

(** The doubles r with 0 <= r < 1: at most 53 significant bits, and an
    exponent between that of 1 - 2^-53 and that of the subnormals. *)
Definition unit_double (r : Dyadic) : bool :=
  (0 <=? num r) && (num r <? 2 ^ 53) && (53 <=? scale r) && (scale r <=? 1074).

(** [n / 2 ^ s] rounded to the nearest integer, ties to even. *)
Definition round_half_even (n s : Z) : Z :=
  let q := n / 2 ^ s in
  let r := n mod 2 ^ s in
  let h := 2 ^ (s - 1) in
  if s <=? 0 then n
  else if r <? h then q
  else if h <? r then q + 1
  else if Z.even q then q else q + 1.

(** [r * k] in double precision for a small positive integer [k]: the
    exact product [k * num r / 2 ^ scale r] rounded to 53 significant
    bits. *)
Definition fmul (r : Dyadic) (k : Z) : Dyadic :=
  let n := k * num r in
  let s := Z.max 0 (Z.log2 n - 52) in
  mkDyadic (round_half_even n s) (scale r - s).

(** Math.floor on a non-negative double. *)
Definition Math_floor (x : Dyadic) : Z :=
  if 0 <=? scale x then num x / 2 ^ scale x
  else num x * 2 ^ (- scale x).

(* ===================================================================== *)
(** ** Data model *)
(* ===================================================================== *)

(** An ISO-8601 timestamp string, represented by the time value it
    denotes (toISOString and Date.parse are inverse on time values). *)
Inductive ISOString : Type := ISO8601 (tv : Z).

Definition timeValue (s : ISOString) : Z :=
  match s with ISO8601 tv => tv end.

Module WebhookPayload.
Record t : Type := mk { payment_id : string; status : string }.
End WebhookPayload.

Module Amount.
Record t : Type := mk { total : Z }.
End Amount.

Module Customer.
Record t : Type := mk { id : string }.
End Customer.

(** The payment detail as parsed from the gateway's answer.  [customer]
    is read only when the next schedule is requested, after the row is
    stored; an answer without it is [None]. *)
Module PortonePayment.
Record t : Type := mk
  { id : string;
    paymentId : option string;
    amount : Amount.t;
    orderName : string;
    billingKey : option string;
    customer : option Customer.t }.
End PortonePayment.

(** The columns written by the route; the two schedule columns are
    nullable, the route tests them before use. *)
Module PaymentRecord.
Record t : Type := mk
  { transaction_key : string;
    amount : Z;
    status : string;
    start_at : ISOString;
    end_at : ISOString;
    end_grace_at : ISOString;
    next_schedule_at : option ISOString;
    next_schedule_id : option string }.
End PaymentRecord.

(** A stored row of table `payment`: the written columns plus the
    primary key and `created_at`, both assigned by the store. *)
Module Row.
Record t : Type := mk
  { id : nat;
    created_at : Z;
    fields : PaymentRecord.t }.
End Row.

Module ScheduleItem.
Record t : Type := mk { id : string; paymentId : string }.
End ScheduleItem.

Module PaymentScheduleResponse.
Record t : Type := mk { items : option (list ScheduleItem.t) }.
End PaymentScheduleResponse.

(** Body of POST /payments/{id}/schedule. *)
Module SchedulePayment.
Record t : Type := mk
  { billingKey : string;
    orderName : string;
    customer : Customer.t;
    amount : Amount.t;
    currency : string }.
End SchedulePayment.

Module ScheduleRequest.
Record t : Type := mk
  { payment : SchedulePayment.t;
    timeToPay : ISOString }.
End ScheduleRequest.

(** Body of GET /payment-schedules. *)
Module ScheduleFilter.
Record t : Type := mk
  { billingKey : string;
    from : ISOString;
    until : ISOString }.
End ScheduleFilter.

(* ===================================================================== *)
(** ** HTTP outcomes *)
(* ===================================================================== *)

(** A response: its status and what reading its body gives, as text
    and as parsed JSON; [None] when the read fails (the promise of
    text() or json() rejects). *)
Module Response.
Record t (A : Type) : Type := mk
  { status : Z;
    text : option string;
    json : option A }.
Arguments mk {A}.
Arguments status {A}.
Arguments text {A}.
Arguments json {A}.

(** Response.ok: the status is in the range 200-299. *)
Definition ok {A} (r : t A) : bool :=
  (200 <=? status r) && (status r <=? 299).
End Response.

(** `await fetch(...)`: the promise rejects (network failure) or resolves
    to a response, whatever its status. *)
Inductive FetchResult (A : Type) : Type :=
| FetchRejected (reason : string)
| FetchResolved (response : Response.t A).
Arguments FetchRejected {A}.
Arguments FetchResolved {A}.

(** `await axios.request(...)`: the promise rejects on a network failure
    and on every status outside 2xx, else resolves to the parsed data. *)
Inductive AxiosResult (A : Type) : Type :=
| AxiosRejected (reason : string)
| AxiosResolved (data : A).
Arguments AxiosRejected {A}.
Arguments AxiosResolved {A}.

(** What the route throws, and what its callees throw into it. *)
Inductive Exn : Type :=
| PaymentLookupFailed (status : Z)
| InsertFailed (message : string)
| ExistingPaymentNotFound (message : string)
| CancelInsertFailed (message : string)
| FetchError (reason : string)
| AxiosError (reason : string)
| JsonSyntaxError
| BodyReadError
| PropertyOfUndefined (property : string)
| InvalidTimeValue.

Module NextResponse.
Record t : Type := mk
  { http_status : Z;
    success : bool;
    message : option string;
    payment : option Row.t;
    error : option Exn }.
End NextResponse.

(* ===================================================================== *)
(** ** The environment of one invocation *)
(* ===================================================================== *)

Record World : Type := mkWorld
  { timeZone : JSDate.TimeZone;         (* the process's time zone *)
    Date_now : Z;                       (* new Date() *)
    Math_random : Dyadic;               (* Math.random() *)
    randomUUID : string;                (* crypto.randomUUID() *)
    GET_payments : string -> FetchResult PortonePayment.t;
    POST_schedule : string -> ScheduleRequest.t -> FetchResult unit;
    GET_payment_schedules :
      ScheduleFilter.t -> AxiosResult PaymentScheduleResponse.t;
    DELETE_payment_schedules : list string -> FetchResult unit;
    db_select_error : option string;    (* store failure on select *)
    db_tie_break : Row.t -> Row.t -> bool;
                                        (* of two rows with the same
                                           created_at, the select puts
                                           the first before the second *)
    db_insert_error : option string;    (* store failure on insert *)
    db_now : Z }.                       (* created_at default *)

(** Outbound calls, in the order they are issued. *)
Inductive Call : Type :=
| GetPayment (paymentId : string)
| CreateSchedule (scheduleId : string) (body : ScheduleRequest.t)
| QueryPaymentSchedules (filter : ScheduleFilter.t)
| CancelSchedules (scheduleIds : list string)
| SelectLatestPaid (transaction_key : string)
| InsertPayment (record : PaymentRecord.t).

Inductive LogLine : Type :=
| console_log_line (msg : string)
| console_error_line (msg : string).

Record State : Type := mkState
  { ledger : list Row.t;
    calls : list Call;
    console : list LogLine }.

(* ===================================================================== *)
(** ** State and exception monad *)
(* ===================================================================== *)

Inductive Outcome (A : Type) : Type :=
| Return (a : A)
| Throw (e : Exn).
Arguments Return {A}.
Arguments Throw {A}.

Definition M (A : Type) : Type := State -> Outcome A * State.

Definition ret {A} (a : A) : M A := fun st => (Return a, st).

Definition bind {A B} (m : M A) (k : A -> M B) : M B :=
  fun st =>
    match m st with
    | (Return a, st') => k a st'
    | (Throw e, st') => (Throw e, st')
    end.

Definition throw {A} (e : Exn) : M A := fun st => (Throw e, st).

(** try { body } catch (e) { handler e }: effects of the body persist. *)
Definition try_catch {A} (body : M A) (handler : Exn -> M A) : M A :=
  fun st =>
    match body st with
    | (Return a, st') => (Return a, st')
    | (Throw e, st') => handler e st'
    end.

Declare Scope route_scope.
Delimit Scope route_scope with route.
Notation "x <- m ;; k" := (bind m (fun x => k))
  (at level 61, m at next level, right associativity) : route_scope.
Notation "m ;; k" := (bind m (fun _ => k))
  (at level 61, right associativity) : route_scope.
Local Open Scope route_scope.

Definition console_log (msg : string) : M unit :=
  fun st => (Return tt,
             mkState (ledger st) (calls st) (console st ++ [console_log_line msg])).

Definition console_error (msg : string) : M unit :=
  fun st => (Return tt,
             mkState (ledger st) (calls st) (console st ++ [console_error_line msg])).

Definition issue (c : Call) : M unit :=
  fun st => (Return tt, mkState (ledger st) (calls st ++ [c]) (console st)).

Definition get_ledger : M (list Row.t) :=
  fun st => (Return (ledger st), st).

Definition put_ledger (l : list Row.t) : M unit :=
  fun st => (Return tt, mkState l (calls st) (console st)).

Definition fetch {A} (c : Call) (r : FetchResult A) : M (Response.t A) :=
  issue c ;;
  match r with
  | FetchRejected reason => throw (FetchError reason)
  | FetchResolved response => ret response
  end.

Definition axios_request {A} (c : Call) (r : AxiosResult A) : M A :=
  issue c ;;
  match r with
  | AxiosRejected reason => throw (AxiosError reason)
  | AxiosResolved data => ret data
  end.

(** `await response.json()` *)
Definition json {A} (r : Response.t A) : M A :=
  match Response.json r with
  | Some v => ret v
  | None => throw JsonSyntaxError
  end.

(** `await response.text()` *)
Definition text {A} (r : Response.t A) : M string :=
  match Response.text r with
  | Some s => ret s
  | None => throw BodyReadError
  end.

(** `paymentData.customer.id`: a TypeError when customer is missing. *)
Definition customer_id (paymentData : PortonePayment.t) : M string :=
  match PortonePayment.customer paymentData with
  | Some customer => ret (Customer.id customer)
  | None => throw (PropertyOfUndefined "id")
  end.

(** Date.prototype.toISOString: a RangeError on an invalid date. *)
Definition toISOString (d : JSDate.Date) : M ISOString :=
  match d with
  | Some tv => ret (ISO8601 tv)
  | None => throw InvalidTimeValue
  end.

(** `new Date(isoString)` *)
Definition Date_of_string (s : ISOString) : JSDate.Date :=
  JSDate.TimeClip (timeValue s).

(* ===================================================================== *)
(** ** Table `payment` *)
(* ===================================================================== *)

(** .eq('transaction_key', key).eq('status', 'Paid') *)
Definition is_paid_for (key : string) (r : Row.t) : bool :=
  String.eqb (PaymentRecord.transaction_key (Row.fields r)) key
  && String.eqb (PaymentRecord.status (Row.fields r)) "Paid".

(** .order('created_at', { ascending: false }).limit(1): a row of greatest
    created_at.  The query fixes no order among rows of equal
    created_at: which of two such rows comes first is the store's
    choice, [before]. *)
Fixpoint newest (before : Row.t -> Row.t -> bool) (rows : list Row.t)
  : option Row.t :=
  match rows with
  | [] => None
  | r :: rest =>
      match newest before rest with
      | Some r' =>
          if Row.created_at r' <? Row.created_at r then Some r
          else if Row.created_at r <? Row.created_at r' then Some r'
          else if before r r' then Some r else Some r'
      | None => Some r
      end
  end.

Definition latestPaid (w : World) (key : string) (rows : list Row.t)
  : option Row.t :=
  newest (db_tie_break w) (filter (is_paid_for key) rows).

(** Message of the error .single() reports when no row is returned. *)
Definition PGRST116 : string :=
  "JSON object requested, multiple (or no) rows returned".

Section Route.

Variable w : World.

(** supabase.from('payment').select('*').eq(..).eq(..).order(..)
    .limit(1).single(): the pair { data, error }. *)
Definition supabase_select_latest_paid (key : string)
  : M (option Row.t * option string) :=
  issue (SelectLatestPaid key) ;;
  match db_select_error w with
  | Some e => ret (None, Some e)
  | None =>
      rows <- get_ledger ;;
      match latestPaid w key rows with
      | Some r => ret (Some r, None)
      | None => ret (None, Some PGRST116)
      end
  end.

(** supabase.from('payment').insert(record).select().single(): the
    pair { data, error }; the row is appended or nothing is. *)
Definition supabase_insert (record : PaymentRecord.t)
  : M (option Row.t * option string) :=
  issue (InsertPayment record) ;;
  match db_insert_error w with
  | Some e => ret (None, Some e)
  | None =>
      rows <- get_ledger ;;
      let row := Row.mk (List.length rows) (db_now w) record in
      put_ledger (rows ++ [row]) ;;
      ret (Some row, None)
  end.

Definition getDate := JSDate.getDate (timeZone w).
Definition setDate := JSDate.setDate (timeZone w).
Definition setHours := JSDate.setHours (timeZone w).

(** `new Date()` *)
Definition new_Date : JSDate.Date := JSDate.TimeClip (Date_now w).

(* ------------------------------------------------------------------- *)
(** *** handlePaidScenario *)
(* ------------------------------------------------------------------- *)

Definition handlePaidScenario (paymentId : string) : M NextResponse.t :=
  console_log "결제 정보 조회 중:" ;;
  paymentResponse <- fetch (GetPayment paymentId) (GET_payments w paymentId) ;;
  (if negb (Response.ok paymentResponse) then
     errorText <- text paymentResponse ;;
     console_error "포트원 결제 정보 조회 실패:" ;;
     throw (PaymentLookupFailed (Response.status paymentResponse))
   else ret tt) ;;
  paymentData <- json paymentResponse ;;
  console_log "결제 정보 조회 성공:" ;;

  let now := new_Date in
  startAt <- toISOString now ;;

  let endAt := now in
  let endAt := setDate endAt (JSDate.plus (getDate endAt) 30) in

  let endGraceAt := now in
  let endGraceAt := setDate endGraceAt (JSDate.plus (getDate endGraceAt) 31) in

  let nextScheduleAt := endAt in
  let nextScheduleAt :=
    setDate nextScheduleAt (JSDate.plus (getDate nextScheduleAt) 1) in
  let nextScheduleAt :=
    setHours nextScheduleAt 10 (Math_floor (fmul (Math_random w) 60)) 0 0 in

  let nextScheduleId := randomUUID w in

  console_log "Supabase에 결제 정보 저장 중..." ;;
  end_at <- toISOString endAt ;;
  end_grace_at <- toISOString endGraceAt ;;
  next_schedule_at <- toISOString nextScheduleAt ;;
  inserted <- supabase_insert
    (PaymentRecord.mk
       paymentId
       (Amount.total (PortonePayment.amount paymentData))
       "Paid"
       startAt
       end_at
       end_grace_at
       (Some next_schedule_at)
       (Some nextScheduleId)) ;;
  let '(paymentRecord, insertError) := inserted in
  match insertError with
  | Some message =>
      console_error "Supabase 저장 실패:" ;;
      throw (InsertFailed message)
  | None =>
      console_log "Supabase 저장 성공:" ;;
      match truthy_opt (PortonePayment.billingKey paymentData) with
      | Some billingKey =>
          console_log "다음 달 구독 예약 중..." ;;
          customerId <- customer_id paymentData ;;
          timeToPay <- toISOString nextScheduleAt ;;
          let body :=
            ScheduleRequest.mk
              (SchedulePayment.mk
                 billingKey
                 (PortonePayment.orderName paymentData)
                 (Customer.mk customerId)
                 (Amount.mk (Amount.total (PortonePayment.amount paymentData)))
                 "KRW")
              timeToPay in
          scheduleResponse <-
            fetch (CreateSchedule nextScheduleId body)
                  (POST_schedule w nextScheduleId body) ;;
          if negb (Response.ok scheduleResponse) then
            errorText <- text scheduleResponse ;;
            console_error "포트원 스케줄 등록 실패:"
          else
            console_log "다음 달 구독 예약 성공"
      | None =>
          console_log "billingKey가 없어 구독 예약을 건너뜁니다."
      end ;;
      ret (NextResponse.mk 200 true (Some "웹훅 처리 완료"%string)
                           paymentRecord None)
  end.

(* ------------------------------------------------------------------- *)
(** *** handleCancelledScenario *)
(* ------------------------------------------------------------------- *)

(** paymentData.paymentId || paymentData.id || paymentId *)
Definition actualPaymentId (paymentData : PortonePayment.t)
                           (paymentId : string) : string :=
  let first := or_else (PortonePayment.paymentId paymentData)
                       (PortonePayment.id paymentData) in
  if truthy first then first else paymentId.

(** selectError?.message || '데이터 없음' *)
Definition not_found_detail (selectError : option string) : string :=
  or_else selectError "데이터 없음".

Definition handleCancelledScenario (paymentId : string) : M NextResponse.t :=
  console_log "결제 정보 조회 중:" ;;
  paymentResponse <- fetch (GetPayment paymentId) (GET_payments w paymentId) ;;
  (if negb (Response.ok paymentResponse) then
     errorText <- text paymentResponse ;;
     console_error "포트원 결제 정보 조회 실패:" ;;
     throw (PaymentLookupFailed (Response.status paymentResponse))
   else ret tt) ;;
  paymentData <- json paymentResponse ;;
  console_log "결제 정보 조회 성공:" ;;

  let actualPaymentId := actualPaymentId paymentData paymentId in
  console_log "Supabase에서 기존 결제 정보 조회 중:" ;;
  selected <- supabase_select_latest_paid actualPaymentId ;;
  let '(existing, selectError) := selected in
  match selectError, existing with
  | None, Some existingPayment =>
      console_log "기존 결제 정보 조회 성공:" ;;
      let found := Row.fields existingPayment in
      let cancelRecord :=
        PaymentRecord.mk
          (PaymentRecord.transaction_key found)
          (- PaymentRecord.amount found)
          "Cancel"
          (PaymentRecord.start_at found)
          (PaymentRecord.end_at found)
          (PaymentRecord.end_grace_at found)
          (PaymentRecord.next_schedule_at found)
          (PaymentRecord.next_schedule_id found) in
      console_log "Supabase에 취소 정보 저장 중..." ;;
      inserted <- supabase_insert cancelRecord ;;
      let '(cancelPaymentRecord, insertError) := inserted in
      match insertError with
      | Some message =>
          console_error "Supabase 취소 정보 저장 실패:" ;;
          throw (CancelInsertFailed message)
      | None =>
          console_log "Supabase 취소 정보 저장 성공:" ;;
          match truthy_opt (PortonePayment.billingKey paymentData),
                PaymentRecord.next_schedule_at found,
                truthy_opt (PaymentRecord.next_schedule_id found) with
          | Some billingKey, Some next_schedule_at, Some next_schedule_id =>
              console_log "예약된 결제 스케줄 조회 중..." ;;
              let scheduleDate := Date_of_string next_schedule_at in
              let fromDate := scheduleDate in
              let fromDate :=
                setDate fromDate (JSDate.plus (getDate fromDate) (-1)) in
              let untilDate := scheduleDate in
              let untilDate :=
                setDate untilDate (JSDate.plus (getDate untilDate) 1) in
              try_catch
                (from <- toISOString fromDate ;;
                 until <- toISOString untilDate ;;
                 let filter := ScheduleFilter.mk billingKey from until in
                 data <- axios_request (QueryPaymentSchedules filter)
                                       (GET_payment_schedules w filter) ;;
                 console_log "예약된 결제 스케줄 조회 성공:" ;;
                 let scheduleItems :=
                   match PaymentScheduleResponse.items data with
                   | Some items => items
                   | None => []
                   end in
                 let targetSchedule :=
                   find (fun item =>
                           String.eqb (ScheduleItem.paymentId item)
                                      next_schedule_id)
                        scheduleItems in
                 match targetSchedule with
                 | Some target =>
                     console_log "취소할 스케줄 찾음:" ;;
                     let scheduleIds := [ScheduleItem.id target] in
                     cancelScheduleResponse <-
                       fetch (CancelSchedules scheduleIds)
                             (DELETE_payment_schedules w scheduleIds) ;;
                     if negb (Response.ok cancelScheduleResponse) then
                       errorText <- text cancelScheduleResponse ;;
                       console_error "포트원 스케줄 취소 실패:"
                     else
                       console_log "다음 달 구독 예약 취소 성공"
                 | None =>
                     console_log "취소할 스케줄을 찾을 수 없습니다."
                 end)
                (fun scheduleError =>
                   console_error "스케줄 조회/취소 중 오류:")
          | _, _, _ =>
              console_log
                "billingKey 또는 next_schedule 정보가 없어 스케줄 취소를 건너뜁니다."
          end ;;
          ret (NextResponse.mk 200 true (Some "취소 처리 완료"%string)
                               cancelPaymentRecord None)
      end
  | _, _ =>
      console_error "Supabase 조회 실패:" ;;
      throw (ExistingPaymentNotFound (not_found_detail selectError))
  end.

(* ------------------------------------------------------------------- *)
(** *** POST *)
(* ------------------------------------------------------------------- *)

(** The route handler; [payload] is the parsed request body. *)
Definition POST (payload : WebhookPayload.t) : M NextResponse.t :=
  try_catch
    (console_log "포트원 웹훅 수신:" ;;
     let paymentId := WebhookPayload.payment_id payload in
     if String.eqb (WebhookPayload.status payload) "Paid" then
       handlePaidScenario paymentId
     else if String.eqb (WebhookPayload.status payload) "Cancelled" then
       handleCancelledScenario paymentId
     else
       console_log "알 수 없는 상태:" ;;
       ret (NextResponse.mk 200 true None None None))
    (fun error =>
       console_error "웹훅 처리 중 오류 발생:" ;;
       ret (NextResponse.mk 500 false None None (Some error))).

End Route.

(* ===================================================================== *)
(** ** Vocabulary of the statements *)
(* ===================================================================== *)

(** The payment detail the gateway returns for [paymentId], when the
    lookup resolves with a 2xx status and a JSON body. *)
Definition gateway_detail (w : World) (paymentId : string)
  : option PortonePayment.t :=
  match GET_payments w paymentId with
  | FetchResolved r => if Response.ok r then Response.json r else None
  | FetchRejected _ => None
  end.

(** The clock leaves room, within the range of Date, for the 31 days
    and the hour the Paid flow adds to it and for the changes of the
    zone's offset on the way (none in a zone of fixed offset). *)
Definition clock_in_range (w : World) : bool :=
  let margin := 3 * JSDate.spread (timeZone w) in
  (- JSDate.maxTime + margin <=? Date_now w)
  && (Date_now w + 32 * JSDate.msPerDay + margin <=? JSDate.maxTime).

(** A handler's result as the caller sees it. *)
Definition succeeded (o : Outcome NextResponse.t) : bool :=
  match o with
  | Return r => NextResponse.success r
  | Throw _ => false
  end.

(** The calls issued between two states of one run. *)
Definition issued (before after : State) : list Call :=
  skipn (List.length (calls before)) (calls after).

Definition is_schedule_call (c : Call) : bool :=
  match c with
  | CreateSchedule _ _ | QueryPaymentSchedules _ | CancelSchedules _ => true
  | _ => false
  end.

Definition is_create_schedule (c : Call) : bool :=
  match c with CreateSchedule _ _ => true | _ => false end.

Definition is_cancel_schedules (c : Call) : bool :=
  match c with CancelSchedules _ => true | _ => false end.

Definition is_insert (c : Call) : bool :=
  match c with InsertPayment _ => true | _ => false end.

Definition is_select (c : Call) : bool :=
  match c with SelectLatestPaid _ => true | _ => false end.

(** `scheduleResponse.data.items || []` *)
Definition items_or_empty (data : PaymentScheduleResponse.t)
  : list ScheduleItem.t :=
  match PaymentScheduleResponse.items data with
  | Some items => items
  | None => []
  end.

(** The minute the Paid flow draws. *)
Definition drawn_minute (w : World) : Z :=
  Math_floor (fmul (Math_random w) 60).

(** Closed forms of the dates the Paid flow computes when they are in
    range: the local date of the clock moved by 30 and by 31 calendar
    days; and the day after the first of them, at 10 and the drawn
    minute, local time. *)
Definition paid_end_at (w : World) : Z :=
  JSDate.addLocalDays (timeZone w) (Date_now w) 30.

Definition paid_end_grace_at (w : World) : Z :=
  JSDate.addLocalDays (timeZone w) (Date_now w) 31.

Definition paid_next_schedule_at (w : World) : ISOString :=
  ISO8601 (JSDate.atLocalTime
             (timeZone w)
             (JSDate.addLocalDays (timeZone w) (paid_end_at w) 1)
             10 (drawn_minute w) 0 0).

(** Closed form of the record the Paid flow writes when its dates are
    in range. *)
Definition paid_record (w : World) (paymentId : string)
                       (d : PortonePayment.t) : PaymentRecord.t :=
  PaymentRecord.mk
    paymentId
    (Amount.total (PortonePayment.amount d))
    "Paid"
    (ISO8601 (Date_now w))
    (ISO8601 (paid_end_at w))
    (ISO8601 (paid_end_grace_at w))
    (Some (paid_next_schedule_at w))
    (Some (randomUUID w)).


(** The period over which the Paid flow reads the zone's offset: from
    the day before the clock time to the day after the latest time it
    can schedule. *)
Definition paid_period_steady (w : World) : Prop :=
  JSDate.steady (timeZone w)
                (Date_now w - 1 * JSDate.msPerDay)
                (Date_now w + 33 * JSDate.msPerDay).

(** The body of the schedule request the Paid flow sends. *)
Definition schedule_body (d : PortonePayment.t) (customer : Customer.t)
                         (billingKey : string) (timeToPay : ISOString)
  : ScheduleRequest.t :=
  ScheduleRequest.mk
    (SchedulePayment.mk
       billingKey
       (PortonePayment.orderName d)
       (Customer.mk (Customer.id customer))
       (Amount.mk (Amount.total (PortonePayment.amount d)))
       "KRW")
    timeToPay.

(** The reversal of a Paid record as the Cancelled flow builds it. *)
Definition reversal_of (f : PaymentRecord.t) : PaymentRecord.t :=
  PaymentRecord.mk
    (PaymentRecord.transaction_key f) (- PaymentRecord.amount f) "Cancel"
    (PaymentRecord.start_at f) (PaymentRecord.end_at f)
    (PaymentRecord.end_grace_at f) (PaymentRecord.next_schedule_at f)
    (PaymentRecord.next_schedule_id f).

(** The search window of the Cancelled flow: next_schedule_at minus and
    plus one day, when both dates are valid. *)
Definition schedule_window (w : World) (next_schedule_at : ISOString)
  : option (ISOString * ISOString) :=
  let scheduleDate := Date_of_string next_schedule_at in
  match setDate w scheduleDate (JSDate.plus (getDate w scheduleDate) (-1)),
        setDate w scheduleDate (JSDate.plus (getDate w scheduleDate) 1) with
  | Some from, Some until => Some (ISO8601 from, ISO8601 until)
  | _, _ => None
  end.

(** Closed form of the schedule calls the Cancelled flow issues after
    its insert, for gateway detail [d] and found record [f]. *)
Definition cancel_schedule_calls (w : World) (d : PortonePayment.t)
                                 (f : PaymentRecord.t) : list Call :=
  match truthy_opt (PortonePayment.billingKey d),
        PaymentRecord.next_schedule_at f,
        truthy_opt (PaymentRecord.next_schedule_id f) with
  | Some billingKey, Some next_schedule_at, Some next_schedule_id =>
      match schedule_window w next_schedule_at with
      | Some (from, until) =>
          let filter := ScheduleFilter.mk billingKey from until in
          QueryPaymentSchedules filter ::
          match GET_payment_schedules w filter with
          | AxiosResolved data =>
              match find (fun item =>
                            String.eqb (ScheduleItem.paymentId item)
                                       next_schedule_id)
                         (items_or_empty data) with
              | Some target => [CancelSchedules [ScheduleItem.id target]]
              | None => []
              end
          | AxiosRejected _ => []
          end
      | None => []
      end
  | _, _, _ => []
  end.

Definition paid_response (row : Row.t) : NextResponse.t :=
  NextResponse.mk 200 true (Some "웹훅 처리 완료"%string) (Some row) None.

Definition cancel_response (row : Row.t) : NextResponse.t :=
  NextResponse.mk 200 true (Some "취소 처리 완료"%string) (Some row) None.

Definition failure_response (e : Exn) : NextResponse.t :=
  NextResponse.mk 500 false None None (Some e).

(** What the Paid flow does once the row is stored, for a detail with a
    billing key: the calls it adds and its outcome. *)
Definition paid_schedule_step (w : World) (d : PortonePayment.t)
                              (billingKey : string) (row : Row.t)
  : list Call * Outcome NextResponse.t :=
  match PortonePayment.customer d with
  | None => ([], Throw (PropertyOfUndefined "id"))
  | Some customer =>
      let body :=
        schedule_body d customer billingKey (paid_next_schedule_at w) in
      ([CreateSchedule (randomUUID w) body],
       match POST_schedule w (randomUUID w) body with
       | FetchRejected reason => Throw (FetchError reason)
       | FetchResolved response =>
           if Response.ok response then Return (paid_response row)
           else match Response.text response with
                | Some _ => Return (paid_response row)
                | None => Throw BodyReadError
                end
       end)
  end.

Definition paid_event (paymentId : string) : WebhookPayload.t :=
  WebhookPayload.mk paymentId "Paid".

Definition cancelled_event (paymentId : string) : WebhookPayload.t :=
  WebhookPayload.mk paymentId "Cancelled".

(** The state in which a handler starts: POST has logged the payload. *)
Definition received (st : State) : State :=
  mkState (ledger st) (calls st)
          (console st ++ [console_log_line "포트원 웹훅 수신:"]).

(** The state POST returns in after catching an exception. *)
Definition caught (st : State) : State :=
  mkState (ledger st) (calls st)
          (console st ++ [console_error_line "웹훅 처리 중 오류 발생:"]).

(** The response POST sends for a handler's outcome. *)
Definition respond (o : Outcome NextResponse.t) : NextResponse.t :=
  match o with
  | Return r => r
  | Throw e => failure_response e
  end.

(* ===================================================================== *)
(** ** Concrete invocations *)
(* ===================================================================== *)

(** The first invocation: the gateway reports 9900 KRW with billing key
    bk_1 at 2024-01-01T00:00:00Z, the process runs in UTC, and the
    random source returns the largest double below 1. *)
Module Scenario.
Local Open Scope string_scope.

Definition detail : PortonePayment.t :=
  PortonePayment.mk "pay_1" None (Amount.mk 9900) "Monthly plan"
                    (Some "bk_1") (Some (Customer.mk "cust_1")).

Definition ok200 {A} (body : A) : FetchResult A :=
  FetchResolved (Response.mk 200 (Some EmptyString) (Some body)).

Definition utc : JSDate.TimeZone := JSDate.fixedOffset 0.

(** Of rows with the same created_at this store returns the one stored
    last. *)
Definition stored_last : Row.t -> Row.t -> bool := fun _ _ => false.

Definition schedules : PaymentScheduleResponse.t :=
  PaymentScheduleResponse.mk
    (Some [ScheduleItem.mk "sch_0" "other";
           ScheduleItem.mk "sch_1" "uuid-1";
           ScheduleItem.mk "sch_2" "uuid-1"]).

Definition world : World :=
  mkWorld utc 1704067200000 (mkDyadic (2 ^ 53 - 1) 53) "uuid-1"
          (fun _ => ok200 detail)
          (fun _ _ => ok200 tt)
          (fun _ => AxiosResolved schedules)
          (fun _ => ok200 tt)
          None stored_last None 1704067200123.

Definition empty : State := mkState [] [] [].

(** The state after the Paid event for pay_1 has been handled. *)
Definition paid : State :=
  snd (POST world (paid_event "pay_1") empty).

(** The same invocation for a one-time payment: no billing key. *)
Definition one_time_detail : PortonePayment.t :=
  PortonePayment.mk "pay_1" None (Amount.mk 9900) "Single issue"
                    None (Some (Customer.mk "cust_1")).

Definition one_time_world : World :=
  mkWorld utc 1704067200000 (mkDyadic (2 ^ 53 - 1) 53) "uuid-1"
          (fun _ => ok200 one_time_detail)
          (fun _ _ => ok200 tt)
          (fun _ => AxiosResolved schedules)
          (fun _ => ok200 tt)
          None stored_last None 1704067200123.

(** The state after the Paid event for the one-time payment. *)
Definition one_time_paid : State :=
  snd (POST one_time_world (paid_event "pay_1") empty).

(** The same invocation with the schedule endpoint unreachable: the
    fetch of POST /payments/{id}/schedule rejects. *)
Definition schedule_unreachable_world : World :=
  mkWorld utc 1704067200000 (mkDyadic (2 ^ 53 - 1) 53) "uuid-1"
          (fun _ => ok200 detail)
          (fun _ _ => FetchRejected "fetch failed")
          (fun _ => AxiosResolved schedules)
          (fun _ => ok200 tt)
          None stored_last None 1704067200123.

(** The gateway knows the payment under another id, pay_9, for which
    the ledger has no row. *)
Definition unrecorded_world : World :=
  mkWorld utc 1704067200000 (mkDyadic (2 ^ 53 - 1) 53) "uuid-1"
          (fun _ => ok200 (PortonePayment.mk "pay_1" (Some "pay_9")
                             (Amount.mk 9900) "Monthly plan"
                             (Some "bk_1") (Some (Customer.mk "cust_1"))))
          (fun _ _ => ok200 tt)
          (fun _ => AxiosResolved schedules)
          (fun _ => ok200 tt)
          None stored_last None 1704067200123.

(** The first invocation with the process in KST (UTC+9) and a draw of
    one half. *)
Definition kst_world : World :=
  mkWorld (JSDate.fixedOffset (9 * JSDate.msPerHour)) 1704067200000
          (mkDyadic (2 ^ 52) 53) "uuid-1"
          (fun _ => ok200 detail)
          (fun _ _ => ok200 tt)
          (fun _ => AxiosResolved schedules)
          (fun _ => ok200 tt)
          None stored_last None 1704067200123.

(** The schedule query answers without an `items` array. *)
Definition no_items_world : World :=
  mkWorld utc 1704067200000 (mkDyadic (2 ^ 53 - 1) 53) "uuid-1"
          (fun _ => ok200 detail)
          (fun _ _ => ok200 tt)
          (fun _ => AxiosResolved (PaymentScheduleResponse.mk None))
          (fun _ => ok200 tt)
          None stored_last None 1704067200123.
End Scenario.

(* ===================================================================== *)
(** ** Subscription status hook (usePaymentStatus) *)
(* ===================================================================== *)

(** A row of `payment` as the hook reads it. *)
Module Payment.
Record t : Type := mk
  { transaction_key : option string;
    created_at : option ISOString;
    status : string;
    start_at : ISOString;
    end_grace_at : ISOString }.
End Payment.

Module PaymentStatus.
Record t : Type := mk
  { isSubscribed : bool;
    transactionKey : option string;
    statusMessage : string }.
End PaymentStatus.

(** The pair { data, error } the select resolves to. *)
Module QueryResult.
Record t : Type := mk
  { data : option (list Payment.t);
    error : option string }.
End QueryResult.

(** The three state cells of the hook, and the browser console. *)
Module HookState.
Record t : Type := mk
  { paymentStatus : PaymentStatus.t;
    isLoading : bool;
    error : option string;
    console : list LogLine }.
End HookState.

Definition setPaymentStatus (v : PaymentStatus.t) (s : HookState.t)
  : HookState.t :=
  HookState.mk v (HookState.isLoading s) (HookState.error s)
               (HookState.console s).

Definition setIsLoading (v : bool) (s : HookState.t) : HookState.t :=
  HookState.mk (HookState.paymentStatus s) v (HookState.error s)
               (HookState.console s).

Definition setError (v : option string) (s : HookState.t) : HookState.t :=
  HookState.mk (HookState.paymentStatus s) (HookState.isLoading s) v
               (HookState.console s).

Definition hook_console_error (msg : string) (s : HookState.t) : HookState.t :=
  HookState.mk (HookState.paymentStatus s) (HookState.isLoading s)
               (HookState.error s)
               (HookState.console s ++ [console_error_line msg]).

(** The status the hook reports when there is no active subscription. *)
Definition Free : PaymentStatus.t :=
  PaymentStatus.mk false None "Free".

(** A JavaScript Map with string keys: entries in insertion order; `set`
    on a key already present keeps its position. *)
Definition JSMap (V : Type) : Type := list (string * V).

Fixpoint Map_get {V} (m : JSMap V) (key : string) : option V :=
  match m with
  | [] => None
  | (k, v) :: rest => if String.eqb k key then Some v else Map_get rest key
  end.

Definition Map_has {V} (m : JSMap V) (key : string) : bool :=
  match Map_get m key with
  | Some _ => true
  | None => false
  end.

Fixpoint Map_set {V} (m : JSMap V) (key : string) (v : V) : JSMap V :=
  match m with
  | [] => [(key, v)]
  | (k, v') :: rest =>
      if String.eqb k key then (k, v) :: rest
      else (k, v') :: Map_set rest key v
  end.

Definition Map_values {V} (m : JSMap V) : list V := map snd m.

(** `a <= b` and `a > b` on Date objects: false when either is invalid. *)
Definition date_le (a b : JSDate.Date) : bool :=
  match a, b with
  | Some x, Some y => x <=? y
  | _, _ => false
  end.

Definition date_gt (a b : JSDate.Date) : bool :=
  match a, b with
  | Some x, Some y => y <? x
  | _, _ => false
  end.

(** `new Date(payment.created_at || 0)` *)
Definition Date_of_created_at (c : option ISOString) : JSDate.Date :=
  match c with
  | Some s => Date_of_string s
  | None => JSDate.TimeClip 0
  end.

(** The filter callback: status "Paid" and start_at <= now <= end_grace_at. *)
Definition isActive (now : JSDate.Date) (payment : Payment.t) : bool :=
  if negb (String.eqb (Payment.status payment) "Paid") then false
  else
    let startAt := Date_of_string (Payment.start_at payment) in
    let endGraceAt := Date_of_string (Payment.end_grace_at payment) in
    date_le startAt now && date_le now endGraceAt.

(** What the try block ends with. *)
Inductive TryResult : Type :=
| Completed
| Threw (message : string).

(** The hook as first written: the rows arrive newest first, and the
    first row seen for a key is kept. *)
Module StatusHook.

(** The grouping loop. *)
Fixpoint groupLoop (payments : list Payment.t)
                   (groupedPayments : JSMap Payment.t) : JSMap Payment.t :=
  match payments with
  | [] => groupedPayments
  | payment :: rest =>
      match truthy_opt (Payment.transaction_key payment) with
      | None => groupLoop rest groupedPayments
      | Some key =>
          if negb (Map_has groupedPayments key) then
            groupLoop rest (Map_set groupedPayments key payment)
          else
            groupLoop rest groupedPayments
      end
  end.

Definition fetchPaymentStatus (query : QueryResult.t) (now : Z)
                              (s : HookState.t) : HookState.t :=
  let s := setIsLoading true s in
  let s := setError None s in
  let '(result, s) :=
    match QueryResult.error query with
    | Some message =>
        (Threw (String.append "결제 정보 조회 실패: " message), s)
    | None =>
        match QueryResult.data query with
        | None => (Completed, setPaymentStatus Free s)
        | Some [] => (Completed, setPaymentStatus Free s)
        | Some payments =>
            let groupedPayments := groupLoop payments [] in
            let now := JSDate.TimeClip now in
            let activePayments :=
              filter (isActive now) (Map_values groupedPayments) in
            match activePayments with
            | latestPayment :: _ =>
                (Completed,
                 setPaymentStatus
                   (PaymentStatus.mk
                      true (Payment.transaction_key latestPayment) "구독중")
                   s)
            | [] => (Completed, setPaymentStatus Free s)
            end
        end
    end in
  let s :=
    match result with
    | Completed => s
    | Threw message =>
        let s := hook_console_error "구독 상태 조회 중 오류:" s in
        let s := setError (Some message) s in
        setPaymentStatus Free s
    end in
  setIsLoading false s.

End StatusHook.

(** The hook as rewritten: a later row replaces the kept one when its
    created_at is strictly newer. *)
Module StatusHookDated.

Fixpoint groupLoop (payments : list Payment.t)
                   (groupedPayments : JSMap Payment.t) : JSMap Payment.t :=
  match payments with
  | [] => groupedPayments
  | payment :: rest =>
      match truthy_opt (Payment.transaction_key payment) with
      | None => groupLoop rest groupedPayments
      | Some key =>
          if negb (Map_has groupedPayments key) then
            groupLoop rest (Map_set groupedPayments key payment)
          else
            match Map_get groupedPayments key with
            | Some existing =>
                let existingDate :=
                  Date_of_created_at (Payment.created_at existing) in
                let currentDate :=
                  Date_of_created_at (Payment.created_at payment) in
                if date_gt currentDate existingDate then
                  groupLoop rest (Map_set groupedPayments key payment)
                else
                  groupLoop rest groupedPayments
            | None => groupLoop rest groupedPayments
            end
      end
  end.

Definition fetchPaymentStatus (query : QueryResult.t) (now : Z)
                              (s : HookState.t) : HookState.t :=
  let s := setIsLoading true s in
  let s := setError None s in
  let '(result, s) :=
    match QueryResult.error query with
    | Some message =>
        (Threw (String.append "결제 정보 조회 실패: " message), s)
    | None =>
        match QueryResult.data query with
        | None => (Completed, setPaymentStatus Free s)
        | Some [] => (Completed, setPaymentStatus Free s)
        | Some payments =>
            let groupedPayments := groupLoop payments [] in
            let now := JSDate.TimeClip now in
            let activePayments :=
              filter (isActive now) (Map_values groupedPayments) in
            match activePayments with
            | latestPayment :: _ =>
                (Completed,
                 setPaymentStatus
                   (PaymentStatus.mk
                      true (Payment.transaction_key latestPayment) "구독중")
                   s)
            | [] => (Completed, setPaymentStatus Free s)
            end
        end
    end in
  let s :=
    match result with
    | Completed => s
    | Threw message =>
        let s := hook_console_error "구독 상태 조회 중 오류:" s in
        let s := setError (Some message) s in
        setPaymentStatus Free s
    end in
  setIsLoading false s.

End StatusHookDated.

(* ===================================================================== *)
(** ** Subscription cancel hook (usePaymentCancel) and the my-page *)
(* ===================================================================== *)

(** What the user sees and what the page sends, in order. *)
Inductive UIEvent : Type :=
| ConfirmDialog (message : string)
| CancelRequest (transactionKey : string)
| AlertDialog (message : string)
| RouterPush (path : string)
| BrowserConsoleError (message : string).

(** The parsed body of the cancel API's answer; [success] is the
    truthiness of the property. *)
Module CancelResult.
Record t : Type := mk
  { success : bool;
    error : option string }.
End CancelResult.

Record Browser : Type := mkBrowser
  { confirm : string -> bool;
    POST_payments_cancel : string -> FetchResult CancelResult.t }.

Module PaymentCancelHook.

(** The catch block of handleCancelSubscription. *)
Definition caughtEvents : list UIEvent :=
  [BrowserConsoleError "구독 취소 처리 중 오류:";
   AlertDialog "구독 취소 처리 중 오류가 발생했습니다."].

Definition handleCancelSubscription (b : Browser) (transactionKey : string)
  : bool * list UIEvent :=
  let question := "구독을 취소하시겠습니까?"%string in
  if negb (confirm b question) then
    (false, [ConfirmDialog question])
  else
    let sent := [ConfirmDialog question; CancelRequest transactionKey] in
    match POST_payments_cancel b transactionKey with
    | FetchRejected _ => (false, sent ++ caughtEvents)
    | FetchResolved cancelApiResponse =>
        match Response.json cancelApiResponse with
        | None => (false, sent ++ caughtEvents)
        | Some cancelResult =>
            if negb (CancelResult.success cancelResult) then
              (false,
               sent ++
               [AlertDialog
                  (String.append
                     "구독 취소에 실패했습니다: "
                     (or_else (CancelResult.error cancelResult)
                              "알 수 없는 오류"))])
            else
              (true,
               sent ++ [AlertDialog "구독이 취소되었습니다.";
                        RouterPush "/magazines"])
        end
    end.

End PaymentCancelHook.

Module Mypage.

(** The click handler of the cancel button. *)
Definition handleCancelSubscription (b : Browser)
                                    (paymentStatus : PaymentStatus.t)
  : list UIEvent :=
  match truthy_opt (PaymentStatus.transactionKey paymentStatus) with
  | None => [AlertDialog "구독 정보를 찾을 수 없습니다."]
  | Some transactionKey =>
      snd (PaymentCancelHook.handleCancelSubscription b transactionKey)
  end.

End Mypage.

(* ===================================================================== *)
(** ** Vocabulary of the statements about the hooks *)
(* ===================================================================== *)

(** The first row of [payments] whose transaction_key is [key]. *)
Definition has_key (key : string) (payment : Payment.t) : bool :=
  match truthy_opt (Payment.transaction_key payment) with
  | Some k => String.eqb k key
  | None => false
  end.

Definition first_with_key (key : string) (payments : list Payment.t)
  : option Payment.t :=
  find (has_key key) payments.

(** The Date the dated hook compares. *)
Definition createdDate (payment : Payment.t) : JSDate.Date :=
  Date_of_created_at (Payment.created_at payment).

(** No row is strictly newer than a row before it:
    .order("created_at", { ascending: false }). *)
Definition newest_first (payments : list Payment.t) : Prop :=
  StronglySorted
    (fun a b => date_gt (createdDate b) (createdDate a) = false) payments.

(** A stored row as the hook's select returns it. *)
Definition payment_of_row (r : Row.t) : Payment.t :=
  Payment.mk
    (Some (PaymentRecord.transaction_key (Row.fields r)))
    (Some (ISO8601 (Row.created_at r)))
    (PaymentRecord.status (Row.fields r))
    (PaymentRecord.start_at (Row.fields r))
    (PaymentRecord.end_grace_at (Row.fields r)).

(** [data] is a result of select("*").order("created_at", descending)
    on the rows: all of them, newest first. *)
Definition reads (rows : list Row.t) (data : list Payment.t) : Prop :=
  Permutation data (map payment_of_row rows) /\ newest_first data.

Definition initialHookState : HookState.t :=
  HookState.mk Free true None [].

(** The status the first hook sets when the select returns rows. *)
Definition statusOf (payments : list Payment.t) (now : Z) : PaymentStatus.t :=
  match filter (isActive (JSDate.TimeClip now))
               (Map_values (StatusHook.groupLoop payments [])) with
  | latestPayment :: _ =>
      PaymentStatus.mk true (Payment.transaction_key latestPayment) "구독중"
  | [] => Free
  end.

(** The status the dated hook sets when the select returns rows. *)
Definition statusOfDated (payments : list Payment.t) (now : Z)
  : PaymentStatus.t :=
  match filter (isActive (JSDate.TimeClip now))
               (Map_values (StatusHookDated.groupLoop payments [])) with
  | latestPayment :: _ =>
      PaymentStatus.mk true (Payment.transaction_key latestPayment) "구독중"
  | [] => Free
  end.

(** What the dated loop maintains: keys are unique; the entry of a key
    is a row of that key, among the rows seen, that none of them is
    strictly newer than; every key seen has an entry. *)
Definition dated_invariant (m : JSMap Payment.t) (seen : list Payment.t)
  : Prop :=
  NoDup (map fst m)
  /\ (forall key e,
        Map_get m key = Some e ->
        has_key key e = true /\ In e seen
        /\ forall q, In q seen -> has_key key q = true ->
                     date_gt (createdDate q) (createdDate e) = false)
  /\ (forall key q, In q seen -> has_key key q = true ->
                    Map_get m key <> None).

(* ===================================================================== *)
(** ** Further concrete invocations *)
(* ===================================================================== *)

Module Cases.
Local Open Scope string_scope.

(** The gateway answers the lookup with 404. *)
Definition lookup_404_world : World :=
  mkWorld Scenario.utc 1704067200000 (mkDyadic (2 ^ 53 - 1) 53) "uuid-1"
          (fun _ => FetchResolved (Response.mk 404 (Some "not found") None))
          (fun _ _ => Scenario.ok200 tt)
          (fun _ => AxiosResolved Scenario.schedules)
          (fun _ => Scenario.ok200 tt)
          None Scenario.stored_last None 1704067200123.

(** The store rejects inserts. *)
Definition store_rejects_world : World :=
  mkWorld Scenario.utc 1704067200000 (mkDyadic (2 ^ 53 - 1) 53) "uuid-1"
          (fun _ => Scenario.ok200 Scenario.detail)
          (fun _ _ => Scenario.ok200 tt)
          (fun _ => AxiosResolved Scenario.schedules)
          (fun _ => Scenario.ok200 tt)
          None Scenario.stored_last (Some "permission denied") 1704067200123.

(** The Cancelled event arrives one hour after the Paid one. *)
Definition later_world : World :=
  mkWorld Scenario.utc 1704070800000 (mkDyadic (2 ^ 53 - 1) 53) "uuid-2"
          (fun _ => Scenario.ok200 Scenario.detail)
          (fun _ _ => Scenario.ok200 tt)
          (fun _ => AxiosResolved Scenario.schedules)
          (fun _ => Scenario.ok200 tt)
          None Scenario.stored_last None 1704070800456.

(** The row the first invocation wrote. *)
Definition paid_row : Row.t :=
  Row.mk 0 1704067200123
    (PaymentRecord.mk "pay_1" 9900 "Paid"
       (ISO8601 1704067200000) (ISO8601 1706659200000)
       (ISO8601 1706745600000) (Some (ISO8601 1706785140000))
       (Some "uuid-1")).

(** The ledger after the Paid event, and after the later Cancelled
    event, as the status hook reads them: newest first. *)
Definition paid_read : list Payment.t :=
  rev (map payment_of_row (ledger Scenario.paid)).

Definition cancelled : State :=
  snd (POST later_world (cancelled_event "pay_1") Scenario.paid).

Definition cancelled_read : list Payment.t :=
  rev (map payment_of_row (ledger cancelled)).

(** Two hours after the Paid event. *)
Definition reading_time : Z := 1704074400000.

(** Rows of two keys, not in order of creation. *)
Definition unordered_read : list Payment.t :=
  [Payment.mk (Some "pay_1") (Some (ISO8601 1704067200123)) "Paid"
              (ISO8601 1704067200000) (ISO8601 1706745600000);
   Payment.mk (Some "pay_2") (Some (ISO8601 1704067300000)) "Paid"
              (ISO8601 1704067300000) (ISO8601 1706745700000);
   Payment.mk (Some "pay_1") (Some (ISO8601 1704070800456)) "Cancel"
              (ISO8601 1704067200000) (ISO8601 1706745600000)].

(** America/New_York through 2024: standard time (UTC-5) until
    2024-03-10T07:00:00Z, daylight time (UTC-4) until
    2024-11-03T06:00:00Z, standard time after. *)
Definition new_york : JSDate.TimeZone :=
  JSDate.mkTimeZone
    (-5 * JSDate.msPerHour)
    [(1710054000000, -4 * JSDate.msPerHour);
     (1730613600000, -5 * JSDate.msPerHour)].

(** The Paid event arrives at 2024-02-20T12:00:00Z, 07:00 in New York:
    daylight time begins within the next 30 days. *)
Definition new_york_world : World :=
  mkWorld new_york 1708430400000 (mkDyadic (2 ^ 53 - 1) 53) "uuid-1"
          (fun _ => Scenario.ok200 Scenario.detail)
          (fun _ _ => Scenario.ok200 tt)
          (fun _ => AxiosResolved Scenario.schedules)
          (fun _ => Scenario.ok200 tt)
          None Scenario.stored_last None 1708430400123.

(** The Paid event arrives at 2024-06-01T12:00:00Z in New York: no
    change of offset before November. *)
Definition new_york_summer_world : World :=
  mkWorld new_york 1717243200000 (mkDyadic (2 ^ 53 - 1) 53) "uuid-1"
          (fun _ => Scenario.ok200 Scenario.detail)
          (fun _ _ => Scenario.ok200 tt)
          (fun _ => AxiosResolved Scenario.schedules)
          (fun _ => Scenario.ok200 tt)
          None Scenario.stored_last None 1717243200123.

(** The schedule endpoint answers 500 and the body cannot be read. *)
Definition schedule_unreadable_world : World :=
  mkWorld Scenario.utc 1704067200000 (mkDyadic (2 ^ 53 - 1) 53) "uuid-1"
          (fun _ => Scenario.ok200 Scenario.detail)
          (fun _ _ => FetchResolved (Response.mk 500 None None))
          (fun _ => AxiosResolved Scenario.schedules)
          (fun _ => Scenario.ok200 tt)
          None Scenario.stored_last None 1704067200123.

(** The gateway's detail has a billing key and no customer. *)
Definition anonymous_detail : PortonePayment.t :=
  PortonePayment.mk "pay_1" None (Amount.mk 9900) "Monthly plan"
                    (Some "bk_1") None.

Definition anonymous_world : World :=
  mkWorld Scenario.utc 1704067200000 (mkDyadic (2 ^ 53 - 1) 53) "uuid-1"
          (fun _ => Scenario.ok200 anonymous_detail)
          (fun _ _ => Scenario.ok200 tt)
          (fun _ => AxiosResolved Scenario.schedules)
          (fun _ => Scenario.ok200 tt)
          None Scenario.stored_last None 1704067200123.

(** The user confirms and the cancel API answers { success: true }. *)
Definition agreeing_browser : Browser :=
  mkBrowser (fun _ => true)
            (fun _ => Scenario.ok200 (CancelResult.mk true None)).

End Cases.

(* ===================================================================== *)
(** ** Facts about Date arithmetic *)
(* ===================================================================== *)

Module JSDateFacts.
Import JSDate.

(** YearFromTime returns the year whose first day is at or before the
    day of [t] and whose successor starts after it. *)
Lemma YearFromTime_spec (t : Z) :
  DayFromYear (YearFromTime t) <= Day t < DayFromYear (YearFromTime t + 1).
Proof.
  unfold YearFromTime; cbv zeta.
  generalize (Day t); intro d.
  destruct (Z.leb_spec (DayFromYear (1970 + d * 400 / 146097 + 1)) d) as [H1|H1].
  - unfold DayFromYear in *. Z.div_mod_to_equations. lia.
  - destruct (Z.leb_spec (DayFromYear (1970 + d * 400 / 146097)) d) as [H2|H2].
    + lia.
    + replace (1970 + d * 400 / 146097 - 1 + 1)
        with (1970 + d * 400 / 146097) by lia.
      split; [|lia].
      unfold DayFromYear in *. Z.div_mod_to_equations. lia.
Qed.

Lemma MonthFromTime_range (t : Z) : 0 <= MonthFromTime t <= 11.
Proof.
  unfold MonthFromTime; cbv zeta.
  repeat match goal with
         | |- context [if ?b then _ else _] => destruct b
         end; lia.
Qed.

Lemma DateFromTime_eq (t : Z) :
  DateFromTime t
  = DayWithinYear t - DayOfMonthStart (MonthFromTime t) (InLeapYear t) + 1.
Proof.
  unfold DateFromTime; cbv zeta.
  pose proof (MonthFromTime_range t) as Hm.
  assert (Hc : MonthFromTime t = 0 \/ MonthFromTime t = 1 \/
               MonthFromTime t = 2 \/ MonthFromTime t = 3 \/
               MonthFromTime t = 4 \/ MonthFromTime t = 5 \/
               MonthFromTime t = 6 \/ MonthFromTime t = 7 \/
               MonthFromTime t = 8 \/ MonthFromTime t = 9 \/
               MonthFromTime t = 10 \/ MonthFromTime t = 11) by lia.
  repeat (destruct Hc as [Hc|Hc];
          [rewrite Hc; cbv beta iota delta [DayOfMonthStart]; lia|]).
  rewrite Hc; cbv beta iota delta [DayOfMonthStart]; lia.
Qed.

(** The day number rebuilt from the calendar fields of [t], with the
    day of the month moved by [k], is the day of [t] moved by [k]. *)
Lemma MakeDay_of_fields (t k : Z) :
  MakeDay (YearFromTime t) (MonthFromTime t) (DateFromTime t + k) = Day t + k.
Proof.
  unfold MakeDay; cbv zeta.
  pose proof (MonthFromTime_range t) as Hm.
  rewrite (Z.div_small (MonthFromTime t) 12) by lia.
  rewrite (Z.mod_small (MonthFromTime t) 12) by lia.
  rewrite Z.add_0_r, DateFromTime_eq.
  unfold DayWithinYear, InLeapYear. lia.
Qed.

Lemma Day_TimeWithinDay (t : Z) : Day t * msPerDay + TimeWithinDay t = t.
Proof.
  unfold Day, TimeWithinDay.
  pose proof (Z.div_mod t msPerDay) as H. unfold msPerDay in *. lia.
Qed.

(** Every offset the zone reports is one of its offsets. *)
Lemma offsetAt_In (offset : Z) (changes : list (Z * Z)) (t : Z) :
  In (offsetAt offset changes t) (offset :: map snd changes).
Proof.
  revert offset.
  induction changes as [|[instant next] rest IH]; intros offset; cbn.
  - auto.
  - destruct (t <? instant); [auto|]. right. apply IH.
Qed.

Lemma offsetOfLocal_In (offset : Z) (changes : list (Z * Z)) (t : Z) :
  In (offsetOfLocal offset changes t) (offset :: map snd changes).
Proof.
  revert offset.
  induction changes as [|[instant next] rest IH]; intros offset; cbn.
  - auto.
  - destruct ((t - offset <? instant) || (t - next <? instant)); [auto|].
    right. apply IH.
Qed.

Lemma offsets_bounds (offset : Z) (changes : list (Z * Z)) (x : Z) :
  In x (offset :: map snd changes) ->
  fold_right (fun change m => Z.min (snd change) m) offset changes <= x
  <= fold_right (fun change m => Z.max (snd change) m) offset changes.
Proof.
  induction changes as [|[instant next] rest IH]; cbn.
  - intros [->|[]]. lia.
  - intros [H|[H|H]].
    + specialize (IH (or_introl H)). lia.
    + lia.
    + specialize (IH (or_intror H)). lia.
Qed.

Lemma LocalTZA_bounds (zone : TimeZone) (t : Z) (isUTC : bool) :
  minOffset zone <= LocalTZA zone t isUTC <= maxOffset zone.
Proof.
  unfold LocalTZA, minOffset, maxOffset. apply offsets_bounds.
  destruct isUTC; [apply offsetAt_In | apply offsetOfLocal_In].
Qed.

Lemma spread_nonneg (zone : TimeZone) : 0 <= spread zone.
Proof.
  pose proof (LocalTZA_bounds zone 0 true). unfold spread. lia.
Qed.

Lemma fixedOffset_LocalTZA (offset t : Z) (isUTC : bool) :
  LocalTZA (fixedOffset offset) t isUTC = offset.
Proof. destruct isUTC; reflexivity. Qed.

(** A zone of fixed offset is steady over every period. *)
Lemma fixedOffset_steady (offset from until : Z) :
  - msPerDay < offset < msPerDay -> steady (fixedOffset offset) from until.
Proof.
  intros H. exists offset. split; [exact H|].
  intros t isUTC _. apply fixedOffset_LocalTZA.
Qed.

(** d.setDate(d.getDate() + k) moves a valid date by k calendar days of
    local time. *)
Lemma setDate_getDate_plus (zone : TimeZone) (t k : Z) :
  setDate zone (Some t) (plus (getDate zone (Some t)) k)
  = TimeClip (addLocalDays zone t k).
Proof.
  unfold setDate, getDate, plus, addLocalDays; cbv zeta.
  rewrite MakeDay_of_fields. do 2 f_equal.
  unfold MakeDate.
  pose proof (Day_TimeWithinDay (LocalTime zone t)) as H. lia.
Qed.

(** Moving by k calendar days moves by k days, up to the change of the
    zone's offset in between. *)
Lemma addLocalDays_bounds (zone : TimeZone) (t k : Z) :
  t + k * msPerDay - spread zone <= addLocalDays zone t k
  <= t + k * msPerDay + spread zone.
Proof.
  unfold addLocalDays, UTC, LocalTime, spread.
  pose proof (LocalTZA_bounds zone t true).
  pose proof (LocalTZA_bounds zone (t + LocalTZA zone t true + k * msPerDay)
                              false).
  lia.
Qed.

Lemma steady_addLocalDays (zone : TimeZone) (from until t k : Z) :
  steady zone from until ->
  from + msPerDay <= t <= until - msPerDay ->
  from + msPerDay <= t + k * msPerDay <= until - msPerDay ->
  addLocalDays zone t k = t + k * msPerDay.
Proof.
  intros (offset & Ho & Hsame) Ht Hk.
  unfold addLocalDays, UTC, LocalTime.
  rewrite (Hsame t true) by lia.
  rewrite (Hsame (t + offset + k * msPerDay) false) by lia.
  lia.
Qed.

Lemma TimeClip_in_range (t : Z) :
  - maxTime <= t <= maxTime -> TimeClip t = Some t.
Proof.
  intros H. unfold TimeClip.
  destruct (Z.leb_spec (Z.abs t) maxTime); [reflexivity | lia].
Qed.

Lemma setHours_eq (zone : TimeZone) (t h m s ms : Z) :
  setHours zone (Some t) h m s ms = TimeClip (atLocalTime zone t h m s ms).
Proof. reflexivity. Qed.

Lemma Day_bounds (t : Z) : t - msPerDay < Day t * msPerDay <= t.
Proof.
  pose proof (Day_TimeWithinDay t) as H.
  pose proof (Z.mod_pos_bound t msPerDay eq_refl) as Hb.
  unfold TimeWithinDay in *. lia.
Qed.

(** The given time of the local day of [t] is within a day of [t], up to
    the change of the zone's offset in between. *)
Lemma atLocalTime_bounds (zone : TimeZone) (t h m s ms : Z) :
  t - msPerDay - spread zone + MakeTime h m s ms
  < atLocalTime zone t h m s ms
  <= t + spread zone + MakeTime h m s ms.
Proof.
  unfold atLocalTime, UTC, MakeDate, spread.
  pose proof (Day_bounds (LocalTime zone t)) as Hd.
  unfold LocalTime in *.
  pose proof (LocalTZA_bounds zone t true).
  pose proof (LocalTZA_bounds zone
                (Day (t + LocalTZA zone t true) * msPerDay + MakeTime h m s ms)
                false).
  lia.
Qed.


End JSDateFacts.

(* ===================================================================== *)
(** ** Facts about Math.floor(Math.random() * 60) *)
(* ===================================================================== *)

Lemma round_half_even_bounds (n s : Z) :
  0 <= n -> 0 <= s ->
  0 <= round_half_even n s /\ round_half_even n s * 2 ^ s <= n + 2 ^ s / 2.
Proof.
  intros Hn Hs. unfold round_half_even; cbv zeta.
  destruct (Z.leb_spec s 0) as [H0|H0].
  - assert (s = 0) by lia; subst s. cbn. lia.
  - assert (Hp : 0 < 2 ^ (s - 1)) by (apply Z.pow_pos_nonneg; lia).
    assert (E : 2 ^ s = 2 * 2 ^ (s - 1)).
    { replace s with (Z.succ (s - 1)) at 1 by lia.
      apply Z.pow_succ_r; lia. }
    rewrite E. generalize dependent (2 ^ (s - 1)); intros h Hp _.
    replace (2 * h / 2) with h by (symmetry; rewrite Z.mul_comm; apply Z.div_mul; lia).
    pose proof (Z.div_mod n (2 * h)) as Hdm.
    pose proof (Z.mod_pos_bound n (2 * h)) as Hmb.
    assert (Hq : 0 <= n / (2 * h)) by (apply Z.div_pos; lia).
    repeat match goal with
           | |- context [if ?b then _ else _] =>
               lazymatch b with
               | Z.ltb ?x ?y => destruct (Z.ltb_spec x y)
               | _ => destruct b
               end
           end; nia.
Qed.

(** The minute passed to setHours lies in 0..59 for every double the
    random source can return. *)
Lemma random_minute_range (r : Dyadic) :
  unit_double r = true -> 0 <= Math_floor (fmul r 60) <= 59.
Proof.
  unfold unit_double. intros H.
  repeat (apply andb_prop in H; destruct H as [H ?]).
  assert (Hn : 0 <= num r < 2 ^ 53) by lia.
  assert (Hsc : 53 <= scale r <= 1074) by lia.
  clear - Hn Hsc.
  unfold Math_floor, fmul; cbn [num scale].
  set (n := 60 * num r).
  assert (Hn0 : 0 <= n <= 60 * 2 ^ 53 - 60) by (subst n; lia).
  set (s := Z.max 0 (Z.log2 n - 52)).
  assert (Hs : 0 <= s <= 6).
  { subst s. split; [lia|].
    destruct (Z.eq_dec n 0) as [->|Hnz]; [cbn; lia|].
    assert (Z.log2 n < 59); [|lia].
    apply Z.log2_lt_pow2; [lia|]. change (2 ^ 59) with (64 * 2 ^ 53). lia. }
  clearbody s. clearbody n.
  destruct (round_half_even_bounds n s) as [Hr0 Hr1]; [lia | lia |].
  generalize dependent (round_half_even n s); intros m Hm0 Hm1.
  destruct (Z.leb_spec 0 (scale r - s)) as [_|]; [|lia].
  assert (Hpow : 0 < 2 ^ (scale r - s)) by (apply Z.pow_pos_nonneg; lia).
  assert (Hle : 2 ^ (53 - s) <= 2 ^ (scale r - s))
    by (apply Z.pow_le_mono_r; lia).
  split; [apply Z.div_pos; lia|].
  assert (m / 2 ^ (scale r - s) < 60); [|lia].
  apply Z.div_lt_upper_bound; [lia|].
  assert (m < 60 * 2 ^ (53 - s)); [|nia].
  assert (Hcases : s = 0 \/ s = 1 \/ s = 2 \/ s = 3 \/ s = 4 \/ s = 5 \/ s = 6)
    by lia.
  clear Hle Hpow.
  repeat (destruct Hcases as [Hc|Hcases];
          [subst s; cbn in Hm1 |- *; lia|]).
  subst s; cbn in Hm1 |- *; lia.
Qed.

(* ===================================================================== *)
(** ** Symbolic execution of the route *)
(* ===================================================================== *)

Ltac run :=
  unfold supabase_insert, supabase_select_latest_paid, fetch, axios_request,
    json, text, customer_id, toISOString;
  unfold console_log, console_error, issue, get_ledger, put_ledger;
  unfold try_catch, bind, ret, throw;
  cbn [ledger calls console fst snd negb].

(** Case analysis on the next test the flow performs whose subject is
    not itself the result of a test; a hypothesis that settles the test
    is used instead. *)
Ltac use_or_split :=
  match goal with
  | |- context [match ?x with _ => _ end] =>
      lazymatch x with
      | context [match _ with _ => _ end] => fail
      | _ => first [ match goal with H : x = _ |- _ => rewrite H end
                   | destruct x eqn:? ]
      end
  end.

Ltac explore := run; repeat (use_or_split; run).

Ltac date_range :=
  unfold JSDate.maxTime, JSDate.msPerDay in *; lia.

Lemma issued_app (st st' : State) (new : list Call) :
  calls st' = calls st ++ new -> issued st st' = new.
Proof.
  intros H. unfold issued. rewrite H. clear H.
  induction (calls st) as [|c l IH]; [reflexivity | exact IH].
Qed.

Lemma gateway_detail_inv (w : World) (pid : string) (d : PortonePayment.t) :
  gateway_detail w pid = Some d ->
  exists r, GET_payments w pid = FetchResolved r
            /\ negb (Response.ok r) = false /\ Response.json r = Some d.
Proof.
  unfold gateway_detail.
  destruct (GET_payments w pid) as [|r]; [discriminate|].
  destruct (Response.ok r) eqn:E; [|discriminate]. intros H.
  exists r. rewrite E. auto.
Qed.

(** POST with tag "Paid" runs the Paid flow and turns an exception into
    the failure response. *)
Lemma POST_Paid (w : World) (pid : string) (st : State) :
  POST w (paid_event pid) st
  = match handlePaidScenario w pid (received st) with
    | (Return r, st') => (Return r, st')
    | (Throw e, st') => (Return (failure_response e), caught st')
    end.
Proof.
  unfold POST, paid_event. cbn [WebhookPayload.status WebhookPayload.payment_id].
  change (String.eqb "Paid" "Paid") with true. cbv iota.
  unfold try_catch at 1, bind at 1, console_log at 1. fold (received st).
  destruct (handlePaidScenario w pid (received st)) as [[r|e] st']; reflexivity.
Qed.

Lemma POST_Cancelled (w : World) (pid : string) (st : State) :
  POST w (cancelled_event pid) st
  = match handleCancelledScenario w pid (received st) with
    | (Return r, st') => (Return r, st')
    | (Throw e, st') => (Return (failure_response e), caught st')
    end.
Proof.
  unfold POST, cancelled_event.
  cbn [WebhookPayload.status WebhookPayload.payment_id].
  change (String.eqb "Cancelled" "Paid") with false.
  change (String.eqb "Cancelled" "Cancelled") with true. cbv iota.
  unfold try_catch at 1, bind at 1, console_log at 1. fold (received st).
  destruct (handleCancelledScenario w pid (received st)) as [[r|e] st'];
    reflexivity.
Qed.

(** The dates of the Paid flow when the clock is in range. *)
Lemma paid_dates (w : World) :
  clock_in_range w = true ->
  unit_double (Math_random w) = true ->
  new_Date w = Some (Date_now w) /\
  setDate w (Some (Date_now w)) (JSDate.plus (getDate w (Some (Date_now w))) 30)
    = Some (paid_end_at w) /\
  setDate w (Some (Date_now w)) (JSDate.plus (getDate w (Some (Date_now w))) 31)
    = Some (paid_end_grace_at w) /\
  (toISOString
     (setHours w
        (setDate w (Some (paid_end_at w))
           (JSDate.plus (getDate w (Some (paid_end_at w))) 1))
        10 (Math_floor (fmul (Math_random w) 60)) 0 0)
   = ret (paid_next_schedule_at w)).
Proof.
  unfold clock_in_range. cbv zeta. intros H Hr.
  apply andb_prop in H. destruct H as [H1 H2].
  apply Z.leb_le in H1, H2.
  pose proof (random_minute_range _ Hr) as Hm.
  pose proof (JSDateFacts.spread_nonneg (timeZone w)) as Hs.
  pose proof (JSDateFacts.addLocalDays_bounds (timeZone w) (Date_now w) 30)
    as B30.
  pose proof (JSDateFacts.addLocalDays_bounds (timeZone w) (Date_now w) 31)
    as B31.
  pose proof (JSDateFacts.addLocalDays_bounds (timeZone w) (paid_end_at w) 1)
    as B1.
  pose proof (JSDateFacts.atLocalTime_bounds (timeZone w)
                (JSDate.addLocalDays (timeZone w) (paid_end_at w) 1)
                10 (Math_floor (fmul (Math_random w) 60)) 0 0) as Bt.
  unfold new_Date, setDate, getDate, setHours, paid_end_grace_at,
    paid_next_schedule_at, drawn_minute, paid_end_at in *.
  rewrite !JSDateFacts.setDate_getDate_plus.
  unfold JSDate.MakeTime, JSDate.msPerHour, JSDate.msPerMinute,
    JSDate.msPerSecond in Bt.
  rewrite !JSDateFacts.TimeClip_in_range by date_range.
  rewrite JSDateFacts.setHours_eq.
  rewrite JSDateFacts.TimeClip_in_range by date_range.
  repeat split.
Qed.

(** The Paid flow, when the gateway returns the detail, the dates are in
    range and the store accepts the row: the row written, the calls
    issued and the outcome. *)
Lemma paid_run (w : World) (pid : string) (d : PortonePayment.t) (st : State) :
  gateway_detail w pid = Some d ->
  clock_in_range w = true ->
  unit_double (Math_random w) = true ->
  db_insert_error w = None ->
  let rec := paid_record w pid d in
  let row := Row.mk (List.length (ledger st)) (db_now w) rec in
  exists o st',
    handlePaidScenario w pid st = (o, st') /\
    ledger st' = ledger st ++ [row] /\
    match truthy_opt (PortonePayment.billingKey d) with
    | Some bk =>
        calls st' = calls st ++ [GetPayment pid; InsertPayment rec]
                             ++ fst (paid_schedule_step w d bk row)
        /\ o = snd (paid_schedule_step w d bk row)
    | None =>
        calls st' = calls st ++ [GetPayment pid; InsertPayment rec]
        /\ o = Return (paid_response row)
    end.
Proof.
  intros Hd Hc Hu Hi rec row.
  destruct (gateway_detail_inv _ _ _ Hd) as (r & Hr & Hok & Hj).
  destruct (paid_dates w Hc Hu) as (E0 & E1 & E2 & E3).
  unfold handlePaidScenario.
  rewrite Hr, E0, E1, E2, E3.
  run. rewrite Hok, Hj, Hi. run.
  destruct (truthy_opt (PortonePayment.billingKey d)) as [bk|].
  - unfold paid_schedule_step.
    destruct (PortonePayment.customer d) as [customer|].
    + cbv zeta. fold (schedule_body d customer bk (paid_next_schedule_at w)).
      destruct (POST_schedule w (randomUUID w)
                  (schedule_body d customer bk (paid_next_schedule_at w)))
        as [reason|resp].
      * eexists _, _. split; [reflexivity|]. cbn [ledger calls fst snd].
        rewrite <- !app_assoc. repeat split.
      * destruct (Response.ok resp); cbn [negb];
          [|destruct (Response.text resp)];
          (eexists _, _; split; [reflexivity|]; cbn [ledger calls fst snd];
           rewrite <- !app_assoc; repeat split).
    + eexists _, _. split; [reflexivity|]. cbn [ledger calls fst snd].
      rewrite <- !app_assoc. repeat split.
  - eexists _, _. split; [reflexivity|]. cbn [ledger calls].
    rewrite <- !app_assoc. repeat split.
Qed.

Lemma POST_Paid_obs (w : World) (pid : string) (st : State)
                    (o : Outcome NextResponse.t) (st' : State) :
  handlePaidScenario w pid (received st) = (o, st') ->
  exists st'',
    POST w (paid_event pid) st = (Return (respond o), st'')
    /\ ledger st'' = ledger st' /\ calls st'' = calls st'.
Proof.
  intros H. rewrite POST_Paid, H.
  destruct o as [r|e]; eexists; repeat split.
Qed.

Lemma POST_Cancelled_obs (w : World) (pid : string) (st : State)
                         (o : Outcome NextResponse.t) (st' : State) :
  handleCancelledScenario w pid (received st) = (o, st') ->
  exists st'',
    POST w (cancelled_event pid) st = (Return (respond o), st'')
    /\ ledger st'' = ledger st' /\ calls st'' = calls st'.
Proof.
  intros H. rewrite POST_Cancelled, H.
  destruct o as [r|e]; eexists; repeat split.
Qed.

(* ===================================================================== *)
(** ** The Paid flow *)
(* ===================================================================== *)





(** Whenever the Paid flow returns a success response it has appended
    one Paid row for the webhook's payment id, through one insert. *)
Lemma paid_success_inv (w : World) (pid : string) (st : State)
                       (o : Outcome NextResponse.t) (st' : State) :
  handlePaidScenario w pid st = (o, st') ->
  succeeded o = true ->
  exists row new,
    ledger st' = ledger st ++ [row]
    /\ Row.id row = List.length (ledger st)
    /\ PaymentRecord.transaction_key (Row.fields row) = pid
    /\ PaymentRecord.status (Row.fields row) = "Paid"%string
    /\ calls st' = calls st ++ new
    /\ filter is_insert new = [InsertPayment (Row.fields row)].
Proof.
  unfold handlePaidScenario. explore.
  all: intros H Hs; inversion H; subst; clear H; try discriminate Hs.
  all: cbn [ledger calls]; rewrite <- ?app_assoc.
  all: eexists _, _; repeat split.
Qed.

Lemma POST_Paid_success_inv (w : World) (pid : string) (st : State) :
  succeeded (fst (POST w (paid_event pid) st)) = true ->
  exists row new,
    ledger (snd (POST w (paid_event pid) st)) = ledger st ++ [row]
    /\ Row.id row = List.length (ledger st)
    /\ PaymentRecord.transaction_key (Row.fields row) = pid
    /\ PaymentRecord.status (Row.fields row) = "Paid"%string
    /\ calls (snd (POST w (paid_event pid) st)) = calls st ++ new
    /\ filter is_insert new = [InsertPayment (Row.fields row)].
Proof.
  rewrite POST_Paid.
  destruct (handlePaidScenario w pid (received st)) as [[r|e] st'] eqn:H;
    cbn [fst snd succeeded failure_response NextResponse.success];
    [|discriminate].
  intros Hs. exact (paid_success_inv _ _ _ _ _ H Hs).
Qed.

(** C9: for every Paid event whose payment detail has a (non-empty)
    billingKey and the customer whose id the call carries, once the
    ledger insert has succeeded the handler issues
    exactly one createSchedule call: POST /payments/{id}/schedule with
    the freshly minted next_schedule_id as id, carrying the detail's
    billingKey, orderName, customer id and amount total, currency "KRW",
    and timeToPay equal to the next_schedule_at written to the ledger. *)
Theorem C9_paid_creates_one_schedule
    (w : World) (paymentId : string) (d : PortonePayment.t)
    (billingKey : string) (customer : Customer.t) (st : State) :
  gateway_detail w paymentId = Some d ->
  PortonePayment.billingKey d = Some billingKey ->
  truthy billingKey = true ->
  PortonePayment.customer d = Some customer ->
  clock_in_range w = true ->
  unit_double (Math_random w) = true ->
  db_insert_error w = None ->
  let st' := snd (POST w (paid_event paymentId) st) in
  exists row next_schedule_at next_schedule_id,
    ledger st' = ledger st ++ [row]
    /\ PaymentRecord.next_schedule_at (Row.fields row) = Some next_schedule_at
    /\ PaymentRecord.next_schedule_id (Row.fields row) = Some next_schedule_id
    /\ next_schedule_id = randomUUID w
    /\ issued st st'
       = [GetPayment paymentId;
          InsertPayment (Row.fields row);
          CreateSchedule next_schedule_id
            (ScheduleRequest.mk
               (SchedulePayment.mk
                  billingKey
                  (PortonePayment.orderName d)
                  (Customer.mk (Customer.id customer))
                  (Amount.mk (Amount.total (PortonePayment.amount d)))
                  "KRW")
               next_schedule_at)]
    /\ List.length (filter is_create_schedule (issued st st')) = 1%nat.
Proof.
  intros Hd Hbk Ht Hcust Hc Hu Hi st'.
  destruct (paid_run w paymentId d (received st) Hd Hc Hu Hi)
    as (o & st1 & Hrun & Hl & Hcalls).
  assert (Hk : truthy_opt (PortonePayment.billingKey d) = Some billingKey)
    by (rewrite Hbk; cbn; rewrite Ht; reflexivity).
  rewrite Hk in Hcalls. destruct Hcalls as [Hcalls _].
  unfold paid_schedule_step in Hcalls. rewrite Hcust in Hcalls.
  cbn [fst app] in Hcalls.
  destruct (POST_Paid_obs _ _ _ _ _ Hrun) as (st2 & HP & Hl2 & Hc2).
  assert (Hst : st' = st2) by (subst st'; rewrite HP; reflexivity).
  rewrite Hst.
  assert (Hiss : issued st st2
                 = [GetPayment paymentId;
                    InsertPayment (paid_record w paymentId d);
                    CreateSchedule (randomUUID w)
                      (schedule_body d customer billingKey
                                     (paid_next_schedule_at w))]).
  { apply issued_app. rewrite Hc2, Hcalls. reflexivity. }
  eexists _, (paid_next_schedule_at w), (randomUUID w).
  rewrite Hl2, Hl, Hiss. cbn [ledger received].
  repeat split.
Qed.

Lemma C9_paid_creates_one_schedule_witness :
  exists row next_schedule_at next_schedule_id,
    ledger Scenario.paid = [row]
    /\ PaymentRecord.next_schedule_at (Row.fields row) = Some next_schedule_at
    /\ PaymentRecord.next_schedule_id (Row.fields row) = Some next_schedule_id
    /\ next_schedule_id = "uuid-1"%string
    /\ issued Scenario.empty Scenario.paid
       = [GetPayment "pay_1";
          InsertPayment (Row.fields row);
          CreateSchedule next_schedule_id
            (ScheduleRequest.mk
               (SchedulePayment.mk
                  "bk_1" "Monthly plan" (Customer.mk "cust_1")
                  (Amount.mk 9900) "KRW")
               next_schedule_at)]
    /\ List.length
         (filter is_create_schedule (issued Scenario.empty Scenario.paid))
       = 1%nat.
Proof.
  exact (C9_paid_creates_one_schedule
           Scenario.world "pay_1" Scenario.detail "bk_1"
           (Customer.mk "cust_1") Scenario.empty
           eq_refl eq_refl eq_refl eq_refl eq_refl eq_refl eq_refl).
Defined.

(** C5: handling the identical "Paid" event twice performs two ledger
    inserts and leaves two distinct Paid rows for the payment id, for
    every pair of invocations that both succeed. *)
Theorem C5_paid_replay_appends_two_rows
    (w1 w2 : World) (paymentId : string) (st : State) :
  succeeded (fst (POST w1 (paid_event paymentId) st)) = true ->
  succeeded (fst (POST w2 (paid_event paymentId)
                       (snd (POST w1 (paid_event paymentId) st)))) = true ->
  let st1 := snd (POST w1 (paid_event paymentId) st) in
  let st2 := snd (POST w2 (paid_event paymentId) st1) in
  exists row1 row2,
    ledger st2 = ledger st ++ [row1; row2]
    /\ Row.id row1 <> Row.id row2
    /\ PaymentRecord.transaction_key (Row.fields row1) = paymentId
    /\ PaymentRecord.transaction_key (Row.fields row2) = paymentId
    /\ PaymentRecord.status (Row.fields row1) = "Paid"%string
    /\ PaymentRecord.status (Row.fields row2) = "Paid"%string
    /\ filter is_insert (issued st st2)
       = [InsertPayment (Row.fields row1); InsertPayment (Row.fields row2)].
Proof.
  intros H1 H2 st1 st2.
  destruct (POST_Paid_success_inv _ _ _ H1)
    as (row1 & new1 & Hl1 & Hid1 & Hk1 & Hs1 & Hc1 & Hf1).
  destruct (POST_Paid_success_inv _ _ _ H2)
    as (row2 & new2 & Hl2 & Hid2 & Hk2 & Hs2 & Hc2 & Hf2).
  fold st1 in Hl1, Hc1, Hl2, Hc2, Hid2. fold st2 in Hl2, Hc2.
  exists row1, row2.
  assert (Hiss : issued st st2 = new1 ++ new2).
  { apply issued_app. rewrite Hc2, Hc1, app_assoc. reflexivity. }
  rewrite Hiss, filter_app, Hf1, Hf2, Hl2, Hl1, <- app_assoc.
  repeat split; try assumption.
  rewrite Hid1, Hid2, Hl1, length_app. cbn. lia.
Qed.

Lemma C5_paid_replay_appends_two_rows_witness :
  let st2 := snd (POST Scenario.world (paid_event "pay_1") Scenario.paid) in
  exists row1 row2,
    ledger st2 = [row1; row2]
    /\ Row.id row1 <> Row.id row2
    /\ PaymentRecord.transaction_key (Row.fields row1) = "pay_1"%string
    /\ PaymentRecord.transaction_key (Row.fields row2) = "pay_1"%string
    /\ PaymentRecord.status (Row.fields row1) = "Paid"%string
    /\ PaymentRecord.status (Row.fields row2) = "Paid"%string
    /\ filter is_insert (issued Scenario.empty st2)
       = [InsertPayment (Row.fields row1); InsertPayment (Row.fields row2)].
Proof.
  exact (C5_paid_replay_appends_two_rows
           Scenario.world Scenario.world "pay_1" Scenario.empty
           eq_refl eq_refl).
Defined.

(* ===================================================================== *)
(** ** The ledger query *)
(* ===================================================================== *)

Lemma newest_In (before : Row.t -> Row.t -> bool) (rows : list Row.t)
                (r : Row.t) :
  newest before rows = Some r -> In r rows.
Proof.
  revert r. induction rows as [|a rows IH]; intros r; cbn; [discriminate|].
  destruct (newest before rows) as [r'|].
  - destruct (Row.created_at r' <? Row.created_at a);
      [|destruct (Row.created_at a <? Row.created_at r');
        [|destruct (before a r')]];
      intros H; inversion H; subst; auto.
  - intros H; inversion H; auto.
Qed.

Lemma newest_nonempty (before : Row.t -> Row.t -> bool) (rows : list Row.t) :
  rows <> [] -> exists r, newest before rows = Some r.
Proof.
  destruct rows as [|a rows]; [congruence|]. intros _. cbn.
  destruct (newest before rows) as [r'|]; [|eauto].
  destruct (_ <? _); [eauto|]. destruct (_ <? _); [eauto|].
  destruct (before a r'); eauto.
Qed.

Lemma newest_greatest (before : Row.t -> Row.t -> bool) (rows : list Row.t)
                      (r : Row.t) :
  newest before rows = Some r ->
  forall r', In r' rows -> Row.created_at r' <= Row.created_at r.
Proof.
  revert r. induction rows as [|a rows IH]; intros r; cbn; [discriminate|].
  destruct (newest before rows) as [r0|] eqn:E.
  - destruct (Z.ltb_spec (Row.created_at r0) (Row.created_at a)) as [Hlt|Hge];
      [|destruct (Z.ltb_spec (Row.created_at a) (Row.created_at r0))
          as [Hlt'|Hge']; [|destruct (before a r0)]];
      intros H r' Hin; pose proof (IH r0 eq_refl) as IH0;
      inversion H; subst; destruct Hin as [->|Hin]; try lia;
      specialize (IH0 r' Hin); lia.
  - intros H r' [->|Hin]; inversion H; subst; [lia|].
    destruct rows as [|b rows]; [contradiction|].
    destruct (newest_nonempty before (b :: rows)) as (x & Hx); [discriminate|].
    congruence.
Qed.

(** Whatever the store's choice among equal rows, the created_at of the
    row returned is the same. *)
Lemma newest_created_at (before before' : Row.t -> Row.t -> bool)
                        (rows : list Row.t) (r r' : Row.t) :
  newest before rows = Some r -> newest before' rows = Some r' ->
  Row.created_at r' = Row.created_at r.
Proof.
  intros H H'.
  pose proof (newest_greatest _ _ _ H r' (newest_In _ _ _ H')).
  pose proof (newest_greatest _ _ _ H' r (newest_In _ _ _ H)).
  lia.
Qed.

(** The query returns a Paid row of the key, of greatest created_at
    among the Paid rows of the key. *)
Lemma latestPaid_spec (w : World) (key : string) (rows : list Row.t)
                      (r : Row.t) :
  latestPaid w key rows = Some r ->
  In r rows
  /\ PaymentRecord.transaction_key (Row.fields r) = key
  /\ PaymentRecord.status (Row.fields r) = "Paid"%string
  /\ forall r', In r' rows -> is_paid_for key r' = true ->
                Row.created_at r' <= Row.created_at r.
Proof.
  unfold latestPaid. intros H.
  pose proof (newest_In _ _ _ H) as Hin. apply filter_In in Hin.
  destruct Hin as [Hin Hp]. unfold is_paid_for in Hp.
  apply andb_prop in Hp. destruct Hp as [Hk Hs].
  apply String.eqb_eq in Hk, Hs.
  repeat split; try assumption.
  intros r' Hin' Hp'. apply (newest_greatest _ _ _ H).
  apply filter_In. split; assumption.
Qed.

(** The query returns a row whenever the key has a Paid row. *)
Lemma latestPaid_exists (w : World) (key : string) (rows : list Row.t)
                        (r : Row.t) :
  In r rows -> is_paid_for key r = true ->
  exists found, latestPaid w key rows = Some found.
Proof.
  intros Hin Hp. apply newest_nonempty.
  assert (H : In r (filter (is_paid_for key) rows))
    by (apply filter_In; split; assumption).
  intros E. rewrite E in H. exact H.
Qed.

(** The query returns no row when the key has no Paid row. *)
Lemma latestPaid_none (w : World) (key : string) (rows : list Row.t) :
  (forall r, In r rows -> is_paid_for key r = false) ->
  latestPaid w key rows = None.
Proof.
  intros H. unfold latestPaid.
  replace (filter (is_paid_for key) rows) with (@nil Row.t); [reflexivity|].
  symmetry. induction rows as [|a rows IH]; [reflexivity|].
  cbn. rewrite (H a (or_introl eq_refl)).
  apply IH. intros r Hr. apply H. right. exact Hr.
Qed.

(* ===================================================================== *)
(** ** The Cancelled flow *)
(* ===================================================================== *)

(** The Cancelled flow, when the gateway returns the detail, the query
    finds a Paid row and the store accepts the reversal: the row
    written, the calls issued and the outcome, whatever the schedule
    endpoints answer. *)
Lemma cancelled_run (w : World) (pid : string) (d : PortonePayment.t)
                    (found : Row.t) (st : State) :
  gateway_detail w pid = Some d ->
  db_select_error w = None ->
  latestPaid w (actualPaymentId d pid) (ledger st) = Some found ->
  db_insert_error w = None ->
  let row := Row.mk (List.length (ledger st)) (db_now w)
                    (reversal_of (Row.fields found)) in
  exists o st',
    handleCancelledScenario w pid st = (o, st')
    /\ o = Return (cancel_response row)
    /\ ledger st' = ledger st ++ [row]
    /\ calls st'
       = calls st
         ++ [GetPayment pid;
             SelectLatestPaid (actualPaymentId d pid);
             InsertPayment (Row.fields row)]
         ++ cancel_schedule_calls w d (Row.fields found).
Proof.
  intros Hd Hs Hf Hi row.
  destruct (gateway_detail_inv _ _ _ Hd) as (r & Hr & Hok & Hj).
  subst row.
  unfold handleCancelledScenario, cancel_schedule_calls,
    schedule_window, items_or_empty, cancel_response, reversal_of.
  explore.
  all: eexists _, _; (split; [reflexivity|]);
    cbn [ledger calls Row.fields]; rewrite <- ?app_assoc.
  all: repeat split.
Qed.

(** The same run seen from POST. *)
Lemma POST_cancelled_run (w : World) (pid : string) (d : PortonePayment.t)
                         (found : Row.t) (st : State) :
  gateway_detail w pid = Some d ->
  db_select_error w = None ->
  latestPaid w (actualPaymentId d pid) (ledger st) = Some found ->
  db_insert_error w = None ->
  let row := Row.mk (List.length (ledger st)) (db_now w)
                    (reversal_of (Row.fields found)) in
  let result := POST w (cancelled_event pid) st in
  fst result = Return (cancel_response row)
  /\ ledger (snd result) = ledger st ++ [row]
  /\ issued st (snd result)
     = [GetPayment pid;
        SelectLatestPaid (actualPaymentId d pid);
        InsertPayment (Row.fields row)]
       ++ cancel_schedule_calls w d (Row.fields found).
Proof.
  intros Hd Hs Hf Hi row result.
  destruct (cancelled_run w pid d found (received st) Hd Hs Hf Hi)
    as (o & st' & Hrun & Ho & Hl & Hc).
  destruct (POST_Cancelled_obs _ _ _ _ _ Hrun) as (st'' & HP & Hl'' & Hc'').
  subst result. rewrite HP. cbn [fst snd]. rewrite Ho. cbn [respond].
  split; [reflexivity|]. split; [rewrite Hl'', Hl; reflexivity|].
  apply issued_app. rewrite Hc'', Hc. reflexivity.
Qed.

Lemma cancel_schedule_calls_no_insert (w : World) (d : PortonePayment.t)
                                      (f : PaymentRecord.t) :
  filter is_insert (cancel_schedule_calls w d f) = []
  /\ filter is_select (cancel_schedule_calls w d f) = [].
Proof.
  unfold cancel_schedule_calls.
  repeat match goal with
         | |- context [match ?x with _ => _ end] => destruct x
         end; split; reflexivity.
Qed.

(** C2: for every "Cancelled" event for which the ledger query finds a
    most recent Paid row of amount A under the resolved canonical key,
    the handler inserts exactly one reversal row with the same
    transaction_key, amount -A, status Cancel, and start_at, end_at,
    end_grace_at, next_schedule_at, next_schedule_id equal to those of
    the found row, and returns that row to the caller. *)
Theorem C2_cancelled_reversal_row
    (w : World) (paymentId : string) (d : PortonePayment.t)
    (found : Row.t) (st : State) :
  gateway_detail w paymentId = Some d ->
  db_select_error w = None ->
  latestPaid w (actualPaymentId d paymentId) (ledger st) = Some found ->
  db_insert_error w = None ->
  let result := POST w (cancelled_event paymentId) st in
  exists row response,
    fst result = Return response
    /\ NextResponse.success response = true
    /\ NextResponse.payment response = Some row
    /\ ledger (snd result) = ledger st ++ [row]
    /\ filter is_insert (issued st (snd result))
       = [InsertPayment (Row.fields row)]
    /\ PaymentRecord.transaction_key (Row.fields row)
       = PaymentRecord.transaction_key (Row.fields found)
    /\ PaymentRecord.transaction_key (Row.fields row)
       = actualPaymentId d paymentId
    /\ PaymentRecord.amount (Row.fields row)
       = - PaymentRecord.amount (Row.fields found)
    /\ PaymentRecord.status (Row.fields row) = "Cancel"%string
    /\ PaymentRecord.start_at (Row.fields row)
       = PaymentRecord.start_at (Row.fields found)
    /\ PaymentRecord.end_at (Row.fields row)
       = PaymentRecord.end_at (Row.fields found)
    /\ PaymentRecord.end_grace_at (Row.fields row)
       = PaymentRecord.end_grace_at (Row.fields found)
    /\ PaymentRecord.next_schedule_at (Row.fields row)
       = PaymentRecord.next_schedule_at (Row.fields found)
    /\ PaymentRecord.next_schedule_id (Row.fields row)
       = PaymentRecord.next_schedule_id (Row.fields found).
Proof.
  intros Hd Hs Hf Hi result.
  destruct (POST_cancelled_run w paymentId d found st Hd Hs Hf Hi)
    as (Ho & Hl & Hc).
  fold result in Ho, Hl, Hc.
  destruct (latestPaid_spec _ _ _ _ Hf) as (_ & Hkey & _).
  destruct (cancel_schedule_calls_no_insert w d (Row.fields found)) as [Hn _].
  eexists _, _. split; [exact Ho|].
  rewrite Hl, Hc, filter_app, Hn.
  cbn [cancel_response NextResponse.success NextResponse.payment Row.fields
       reversal_of PaymentRecord.transaction_key PaymentRecord.amount
       PaymentRecord.status PaymentRecord.start_at PaymentRecord.end_at
       PaymentRecord.end_grace_at PaymentRecord.next_schedule_at
       PaymentRecord.next_schedule_id].
  repeat split. exact Hkey.
Qed.

Lemma C2_cancelled_reversal_row_witness :
  let result := POST Scenario.world (cancelled_event "pay_1") Scenario.paid in
  exists row response,
    fst result = Return response
    /\ NextResponse.success response = true
    /\ NextResponse.payment response = Some row
    /\ ledger (snd result) = ledger Scenario.paid ++ [row]
    /\ filter is_insert (issued Scenario.paid (snd result))
       = [InsertPayment (Row.fields row)]
    /\ PaymentRecord.transaction_key (Row.fields row) = "pay_1"%string
    /\ PaymentRecord.transaction_key (Row.fields row) = "pay_1"%string
    /\ PaymentRecord.amount (Row.fields row) = - 9900
    /\ PaymentRecord.status (Row.fields row) = "Cancel"%string
    /\ PaymentRecord.start_at (Row.fields row) = ISO8601 1704067200000
    /\ PaymentRecord.end_at (Row.fields row) = ISO8601 1706659200000
    /\ PaymentRecord.end_grace_at (Row.fields row) = ISO8601 1706745600000
    /\ PaymentRecord.next_schedule_at (Row.fields row)
       = Some (ISO8601 1706785140000)
    /\ PaymentRecord.next_schedule_id (Row.fields row)
       = Some "uuid-1"%string.
Proof.
  exact (C2_cancelled_reversal_row
           Scenario.world "pay_1" Scenario.detail
           (Row.mk 0 1704067200123
              (PaymentRecord.mk "pay_1" 9900 "Paid"
                 (ISO8601 1704067200000) (ISO8601 1706659200000)
                 (ISO8601 1706745600000) (Some (ISO8601 1706785140000))
                 (Some "uuid-1"%string)))
           Scenario.paid eq_refl eq_refl eq_refl eq_refl).
Defined.

(** When the query finds no Paid row, or the store fails on the query,
    the flow throws before any insert. *)
Lemma cancelled_not_found (w : World) (pid : string) (d : PortonePayment.t)
                          (st : State) :
  gateway_detail w pid = Some d ->
  latestPaid w (actualPaymentId d pid) (ledger st) = None ->
  exists detail st',
    handleCancelledScenario w pid st
    = (Throw (ExistingPaymentNotFound detail), st')
    /\ ledger st' = ledger st
    /\ calls st' = calls st ++ [GetPayment pid;
                                SelectLatestPaid (actualPaymentId d pid)].
Proof.
  intros Hd Hnone.
  destruct (gateway_detail_inv _ _ _ Hd) as (r & Hr & Hok & Hj).
  unfold handleCancelledScenario. explore.
  all: eexists _, _; (split; [reflexivity|]);
    cbn [ledger calls]; rewrite <- ?app_assoc; split; reflexivity.
Qed.

(** C3: for every "Cancelled" event whose resolved canonical key has no
    ledger row with status Paid, the handler fails with the not-found
    error, surfaced as the failure response, and performs no ledger
    insert: the ledger is unchanged. *)
Theorem C3_cancelled_without_paid_row_fails
    (w : World) (paymentId : string) (d : PortonePayment.t) (st : State) :
  gateway_detail w paymentId = Some d ->
  (forall r, In r (ledger st) ->
             is_paid_for (actualPaymentId d paymentId) r = false) ->
  let result := POST w (cancelled_event paymentId) st in
  exists detail,
    fst result = Return (failure_response (ExistingPaymentNotFound detail))
    /\ succeeded (fst result) = false
    /\ ledger (snd result) = ledger st
    /\ filter is_insert (issued st (snd result)) = [].
Proof.
  intros Hd Hnone result.
  destruct (cancelled_not_found w paymentId d (received st) Hd)
    as (detail & st' & Hrun & Hl & Hc).
  { apply latestPaid_none. exact Hnone. }
  destruct (POST_Cancelled_obs _ _ _ _ _ Hrun) as (st'' & HP & Hl'' & Hc'').
  exists detail. subst result. rewrite HP. cbn [fst snd respond].
  split; [reflexivity|]. split; [reflexivity|].
  split; [rewrite Hl'', Hl; reflexivity|].
  rewrite (issued_app st st'' [GetPayment paymentId;
                               SelectLatestPaid (actualPaymentId d paymentId)]);
    [reflexivity|].
  rewrite Hc'', Hc. reflexivity.
Qed.

Lemma C3_cancelled_without_paid_row_fails_witness :
  let result := POST Scenario.unrecorded_world (cancelled_event "pay_1")
                     Scenario.paid in
  exists detail,
    fst result = Return (failure_response (ExistingPaymentNotFound detail))
    /\ succeeded (fst result) = false
    /\ ledger (snd result) = ledger Scenario.paid
    /\ filter is_insert (issued Scenario.paid (snd result)) = [].
Proof.
  apply (C3_cancelled_without_paid_row_fails
           Scenario.unrecorded_world "pay_1"
           (PortonePayment.mk "pay_1" (Some "pay_9"%string)
              (Amount.mk 9900) "Monthly plan"
              (Some "bk_1"%string) (Some (Customer.mk "cust_1")))
           Scenario.paid eq_refl).
  intros r Hin. vm_compute in Hin. destruct Hin as [<-|[]]. reflexivity.
Defined.

(** Whatever happens after the gateway lookup, the Cancelled flow issues
    one ledger query, for the resolved key. *)
Lemma cancelled_select_key (w : World) (pid : string) (d : PortonePayment.t)
                           (st : State) :
  gateway_detail w pid = Some d ->
  exists o st' new,
    handleCancelledScenario w pid st = (o, st')
    /\ calls st' = calls st ++ [GetPayment pid;
                                SelectLatestPaid (actualPaymentId d pid)] ++ new
    /\ filter is_select new = [].
Proof.
  intros Hd.
  destruct (gateway_detail_inv _ _ _ Hd) as (r & Hr & Hok & Hj).
  unfold handleCancelledScenario. explore.
  all: eexists _, _, _; (split; [reflexivity|]);
    cbn [ledger calls]; rewrite <- ?app_assoc; cbn [app];
    (split; [reflexivity|]); reflexivity.
Qed.

(** C7: in the Cancelled flow the canonical ledger lookup key is the
    detail's paymentId when that field is present (holds a non-empty
    string, the test `||` applies), else the detail's id when non-empty,
    else the webhook's payment_id; the one ledger query the flow issues
    is for exactly this key. *)
Theorem C7_cancelled_canonical_key
    (w : World) (paymentId : string) (d : PortonePayment.t) (st : State) :
  gateway_detail w paymentId = Some d ->
  let key := actualPaymentId d paymentId in
  (forall p, PortonePayment.paymentId d = Some p -> truthy p = true ->
             key = p)
  /\ (truthy_opt (PortonePayment.paymentId d) = None ->
      truthy (PortonePayment.id d) = true ->
      key = PortonePayment.id d)
  /\ (truthy_opt (PortonePayment.paymentId d) = None ->
      truthy (PortonePayment.id d) = false ->
      key = paymentId)
  /\ filter is_select
       (issued st (snd (POST w (cancelled_event paymentId) st)))
     = [SelectLatestPaid key].
Proof.
  intros Hd key. subst key. unfold actualPaymentId, or_else.
  split; [|split; [|split]].
  - intros p Hp Ht. rewrite Hp. cbn. rewrite Ht. cbn. rewrite Ht. reflexivity.
  - intros Hn Ht. rewrite Hn, Ht. reflexivity.
  - intros Hn Ht. rewrite Hn, Ht. reflexivity.
  - destruct (cancelled_select_key w paymentId d (received st) Hd)
      as (o & st' & new & Hrun & Hc & Hnew).
    destruct (POST_Cancelled_obs _ _ _ _ _ Hrun) as (st'' & HP & _ & Hc'').
    rewrite HP. cbn [snd].
    rewrite (issued_app st st''
               ([GetPayment paymentId;
                 SelectLatestPaid (actualPaymentId d paymentId)] ++ new)).
    + cbn. rewrite Hnew. reflexivity.
    + rewrite Hc'', Hc. reflexivity.
Qed.

Lemma C7_cancelled_canonical_key_witness :
  let key := actualPaymentId Scenario.detail "pay_1" in
  (forall p, PortonePayment.paymentId Scenario.detail = Some p ->
             truthy p = true -> key = p)
  /\ (truthy_opt (PortonePayment.paymentId Scenario.detail) = None ->
      truthy (PortonePayment.id Scenario.detail) = true ->
      key = PortonePayment.id Scenario.detail)
  /\ (truthy_opt (PortonePayment.paymentId Scenario.detail) = None ->
      truthy (PortonePayment.id Scenario.detail) = false ->
      key = "pay_1"%string)
  /\ filter is_select
       (issued Scenario.paid
          (snd (POST Scenario.world (cancelled_event "pay_1") Scenario.paid)))
     = [SelectLatestPaid key].
Proof.
  exact (C7_cancelled_canonical_key
           Scenario.world "pay_1" Scenario.detail Scenario.paid eq_refl).
Defined.

Lemma truthy_opt_Some (o : option string) (s : string) :
  truthy_opt o = Some s -> o = Some s /\ truthy s = true.
Proof.
  destruct o as [s'|]; cbn; [|discriminate].
  destruct (truthy s') eqn:E; [|discriminate].
  intros H; inversion H; subst. auto.
Qed.

(** Array.prototype.find returns the first element passing the test. *)
Lemma find_first {A} (f : A -> bool) (l : list A) (x : A) :
  find f l = Some x ->
  exists before after,
    l = before ++ x :: after
    /\ f x = true
    /\ forall y, In y before -> f y = false.
Proof.
  induction l as [|a l IH]; cbn; [discriminate|].
  destruct (f a) eqn:E.
  - intros H; inversion H; subst. exists [], l. repeat split; auto.
    intros y [].
  - intros H. destruct (IH H) as (before & after & -> & Hx & Hb).
    exists (a :: before), after. repeat split; auto.
    intros y [->|Hy]; auto.
Qed.

(** C10: whenever the Cancelled flow invokes cancelSchedules, the
    argument is the singleton list of the gateway schedule id of the
    first item of the schedule-query response whose paymentId equals the
    found Paid entry's next_schedule_id; when the response lacks an
    items array or no item matches, cancelSchedules is not invoked; in
    every case the handler returns success. *)
Theorem C10_cancel_schedules_argument
    (w : World) (paymentId : string) (d : PortonePayment.t)
    (found : Row.t) (st : State) :
  gateway_detail w paymentId = Some d ->
  db_select_error w = None ->
  latestPaid w (actualPaymentId d paymentId) (ledger st) = Some found ->
  db_insert_error w = None ->
  let result := POST w (cancelled_event paymentId) st in
  let sent := issued st (snd result) in
  let matches (next_schedule_id : string) (item : ScheduleItem.t) :=
    String.eqb (ScheduleItem.paymentId item) next_schedule_id in
  succeeded (fst result) = true
  /\ (forall scheduleIds,
        In (CancelSchedules scheduleIds) sent ->
        exists query data next_schedule_id target before after,
          In (QueryPaymentSchedules query) sent
          /\ GET_payment_schedules w query = AxiosResolved data
          /\ PaymentRecord.next_schedule_id (Row.fields found)
             = Some next_schedule_id
          /\ items_or_empty data = before ++ target :: after
          /\ ScheduleItem.paymentId target = next_schedule_id
          /\ (forall item, In item before ->
                           ScheduleItem.paymentId item <> next_schedule_id)
          /\ scheduleIds = [ScheduleItem.id target]
          /\ filter is_cancel_schedules sent = [CancelSchedules scheduleIds])
  /\ (forall query data,
        In (QueryPaymentSchedules query) sent ->
        GET_payment_schedules w query = AxiosResolved data ->
        (PaymentScheduleResponse.items data = None
         \/ forall next_schedule_id,
              PaymentRecord.next_schedule_id (Row.fields found)
              = Some next_schedule_id ->
              find (matches next_schedule_id) (items_or_empty data) = None) ->
        filter is_cancel_schedules sent = []).
Proof.
  intros Hd Hs Hf Hi result sent matches.
  destruct (POST_cancelled_run w paymentId d found st Hd Hs Hf Hi)
    as (Ho & _ & Hc).
  fold result in Ho, Hc. fold sent in Hc.
  split; [rewrite Ho; reflexivity|].
  rewrite Hc. clear Hc Ho. unfold cancel_schedule_calls.
  destruct (truthy_opt (PortonePayment.billingKey d)) as [bk|];
    [|split; [intros ids [H|[H|[H|[]]]]; discriminate H | reflexivity]].
  destruct (PaymentRecord.next_schedule_at (Row.fields found)) as [nsa|];
    [|split; [intros ids [H|[H|[H|[]]]]; discriminate H | reflexivity]].
  destruct (truthy_opt (PaymentRecord.next_schedule_id (Row.fields found)))
    as [nsid|] eqn:Hn;
    [|split; [intros ids [H|[H|[H|[]]]]; discriminate H | reflexivity]].
  apply truthy_opt_Some in Hn. destruct Hn as [Hn _].
  destruct (schedule_window w nsa) as [[from until]|];
    [|split; [intros ids [H|[H|[H|[]]]]; discriminate H | reflexivity]].
  cbv zeta.
  set (flt := ScheduleFilter.mk bk from until).
  destruct (GET_payment_schedules w flt) as [reason|data] eqn:Hq;
    [split; [intros ids [H|[H|[H|[H|[]]]]]; discriminate H | reflexivity]|].
  destruct (find _ (items_or_empty data)) as [target|] eqn:Hfind.
  - split.
    + intros ids [H|[H|[H|[H|[H|[]]]]]]; try discriminate H.
      inversion H; subst ids.
      destruct (find_first _ _ _ Hfind) as (before & after & Hl & Ht & Hb).
      exists flt, data, nsid, target, before, after.
      split; [cbn; auto|].
      split; [exact Hq|]. split; [exact Hn|]. split; [exact Hl|].
      split; [apply String.eqb_eq; exact Ht|].
      split; [intros item Hin; apply String.eqb_neq; exact (Hb item Hin)|].
      split; reflexivity.
    + intros flt' data' [H|[H|[H|[H|[H|[]]]]]]; try discriminate H.
      inversion H; subst flt'. rewrite Hq. intros Hd'; inversion Hd'; subst data'.
      intros [Hnone|Hnomatch].
      * unfold items_or_empty in Hfind. rewrite Hnone in Hfind. discriminate.
      * specialize (Hnomatch nsid Hn). unfold matches in Hnomatch.
        rewrite Hnomatch in Hfind. discriminate.
  - split; [intros ids [H|[H|[H|[H|[]]]]]; discriminate H | reflexivity].
Qed.

Lemma C10_cancel_schedules_argument_witness :
  let result := POST Scenario.world (cancelled_event "pay_1") Scenario.paid in
  let sent := issued Scenario.paid (snd result) in
  let matches (next_schedule_id : string) (item : ScheduleItem.t) :=
    String.eqb (ScheduleItem.paymentId item) next_schedule_id in
  succeeded (fst result) = true
  /\ (forall scheduleIds,
        In (CancelSchedules scheduleIds) sent ->
        exists query data next_schedule_id target before after,
          In (QueryPaymentSchedules query) sent
          /\ GET_payment_schedules Scenario.world query = AxiosResolved data
          /\ Some "uuid-1"%string = Some next_schedule_id
          /\ items_or_empty data = before ++ target :: after
          /\ ScheduleItem.paymentId target = next_schedule_id
          /\ (forall item, In item before ->
                           ScheduleItem.paymentId item <> next_schedule_id)
          /\ scheduleIds = [ScheduleItem.id target]
          /\ filter is_cancel_schedules sent = [CancelSchedules scheduleIds])
  /\ (forall query data,
        In (QueryPaymentSchedules query) sent ->
        GET_payment_schedules Scenario.world query = AxiosResolved data ->
        (PaymentScheduleResponse.items data = None
         \/ forall next_schedule_id,
              Some "uuid-1"%string = Some next_schedule_id ->
              find (matches next_schedule_id) (items_or_empty data) = None) ->
        filter is_cancel_schedules sent = []).
Proof.
  exact (C10_cancel_schedules_argument
           Scenario.world "pay_1" Scenario.detail
           (Row.mk 0 1704067200123
              (PaymentRecord.mk "pay_1" 9900 "Paid"
                 (ISO8601 1704067200000) (ISO8601 1706659200000)
                 (ISO8601 1706745600000) (Some (ISO8601 1706785140000))
                 (Some "uuid-1"%string)))
           Scenario.paid eq_refl eq_refl eq_refl eq_refl).
Defined.

(* ===================================================================== *)
(** ** Payments without a billing key *)
(* ===================================================================== *)

Lemma paid_no_schedule_calls (w : World) (pid : string) (d : PortonePayment.t)
                             (st : State) :
  gateway_detail w pid = Some d ->
  truthy_opt (PortonePayment.billingKey d) = None ->
  exists o st' new,
    handlePaidScenario w pid st = (o, st')
    /\ calls st' = calls st ++ new
    /\ filter is_schedule_call new = [].
Proof.
  intros Hd Hbk.
  destruct (gateway_detail_inv _ _ _ Hd) as (r & Hr & Hok & Hj).
  unfold handlePaidScenario. explore.
  all: eexists _, _, _; (split; [reflexivity|]);
    cbn [ledger calls]; rewrite <- ?app_assoc;
    (split; [reflexivity|]); reflexivity.
Qed.

Lemma cancelled_no_schedule_calls (w : World) (pid : string)
                                  (d : PortonePayment.t) (st : State) :
  gateway_detail w pid = Some d ->
  truthy_opt (PortonePayment.billingKey d) = None ->
  exists o st' new,
    handleCancelledScenario w pid st = (o, st')
    /\ calls st' = calls st ++ new
    /\ filter is_schedule_call new = [].
Proof.
  intros Hd Hbk.
  destruct (gateway_detail_inv _ _ _ Hd) as (r & Hr & Hok & Hj).
  unfold handleCancelledScenario. explore.
  all: eexists _, _, _; (split; [reflexivity|]);
    cbn [ledger calls]; rewrite <- ?app_assoc;
    (split; [reflexivity|]); reflexivity.
Qed.

(** C6: for every event whose gateway payment detail lacks a billingKey
    (the field is absent or empty), the Paid flow issues no
    createSchedule call and the Cancelled flow issues no schedule query
    and no schedule cancellation; the Paid flow still succeeds when its
    dates are in range and the store accepts the row, the Cancelled flow
    when the query finds a Paid row and the store accepts the
    reversal. *)
Theorem C6_no_billing_key_no_schedule_calls
    (w : World) (paymentId : string) (d : PortonePayment.t) (st : State) :
  gateway_detail w paymentId = Some d ->
  truthy_opt (PortonePayment.billingKey d) = None ->
  let paid := POST w (paid_event paymentId) st in
  let cancelled := POST w (cancelled_event paymentId) st in
  filter is_schedule_call (issued st (snd paid)) = []
  /\ filter is_schedule_call (issued st (snd cancelled)) = []
  /\ (clock_in_range w = true ->
      unit_double (Math_random w) = true ->
      db_insert_error w = None ->
      succeeded (fst paid) = true
      /\ exists row, ledger (snd paid) = ledger st ++ [row])
  /\ (db_select_error w = None ->
      latestPaid w (actualPaymentId d paymentId) (ledger st) <> None ->
      db_insert_error w = None ->
      succeeded (fst cancelled) = true
      /\ exists row, ledger (snd cancelled) = ledger st ++ [row]).
Proof.
  intros Hd Hbk paid cancelled. subst paid cancelled.
  split; [|split; [|split]].
  - destruct (paid_no_schedule_calls w paymentId d (received st) Hd Hbk)
      as (o & st' & new & Hrun & Hc & Hnew).
    destruct (POST_Paid_obs _ _ _ _ _ Hrun) as (st'' & HP & _ & Hc'').
    rewrite HP. cbn [snd].
    rewrite (issued_app st st'' new); [exact Hnew|].
    rewrite Hc'', Hc. reflexivity.
  - destruct (cancelled_no_schedule_calls w paymentId d (received st) Hd Hbk)
      as (o & st' & new & Hrun & Hc & Hnew).
    destruct (POST_Cancelled_obs _ _ _ _ _ Hrun) as (st'' & HP & _ & Hc'').
    rewrite HP. cbn [snd].
    rewrite (issued_app st st'' new); [exact Hnew|].
    rewrite Hc'', Hc. reflexivity.
  - intros Hc Hu Hi.
    destruct (paid_run w paymentId d (received st) Hd Hc Hu Hi)
      as (o & st' & Hrun & Hl & Ho).
    rewrite Hbk in Ho. destruct Ho as [_ Ho].
    destruct (POST_Paid_obs _ _ _ _ _ Hrun) as (st'' & HP & Hl'' & _).
    rewrite HP. cbn [fst snd]. rewrite Ho, Hl'', Hl.
    split; [reflexivity | eexists; reflexivity].
  - intros Hs Hf Hi.
    destruct (latestPaid w (actualPaymentId d paymentId) (ledger st))
      as [found|] eqn:E; [|congruence].
    destruct (POST_cancelled_run w paymentId d found st Hd Hs E Hi)
      as (Ho & Hl & _).
    rewrite Ho, Hl. split; [reflexivity | eexists; reflexivity].
Qed.

Lemma C6_no_billing_key_no_schedule_calls_witness :
  let paid :=
    POST Scenario.one_time_world (paid_event "pay_1") Scenario.one_time_paid in
  let cancelled :=
    POST Scenario.one_time_world (cancelled_event "pay_1")
         Scenario.one_time_paid in
  filter is_schedule_call (issued Scenario.one_time_paid (snd paid)) = []
  /\ filter is_schedule_call (issued Scenario.one_time_paid (snd cancelled)) = []
  /\ (succeeded (fst paid) = true
      /\ exists row,
           ledger (snd paid) = ledger Scenario.one_time_paid ++ [row])
  /\ (succeeded (fst cancelled) = true
      /\ exists row,
           ledger (snd cancelled) = ledger Scenario.one_time_paid ++ [row]).
Proof.
  destruct (C6_no_billing_key_no_schedule_calls
              Scenario.one_time_world "pay_1" Scenario.one_time_detail
              Scenario.one_time_paid eq_refl eq_refl) as (H1 & H2 & H3 & H4).
  split; [exact H1|]. split; [exact H2|].
  split; [exact (H3 eq_refl eq_refl eq_refl)|].
  apply H4; [reflexivity | | reflexivity].
  intros H. vm_compute in H. discriminate H.
Defined.

(* ===================================================================== *)
(** ** The dispatcher *)
(* ===================================================================== *)

(** C8: for every inbound event whose status tag is neither "Paid" nor
    "Cancelled", the dispatcher returns the success response
    { success: true } and has no side effect: no gateway or store call
    is issued and the ledger is unchanged. *)
Theorem C8_unknown_status_is_noop
    (w : World) (payload : WebhookPayload.t) (st : State) :
  WebhookPayload.status payload <> "Paid"%string ->
  WebhookPayload.status payload <> "Cancelled"%string ->
  fst (POST w payload st) = Return (NextResponse.mk 200 true None None None)
  /\ ledger (snd (POST w payload st)) = ledger st
  /\ calls (snd (POST w payload st)) = calls st
  /\ issued st (snd (POST w payload st)) = [].
Proof.
  intros Hp Hc.
  apply String.eqb_neq in Hp, Hc.
  unfold POST. rewrite Hp, Hc. run.
  repeat split. apply issued_app. cbn [calls]. rewrite app_nil_r. reflexivity.
Qed.

Lemma C8_unknown_status_is_noop_witness :
  let result := POST Scenario.world (WebhookPayload.mk "pay_1" "Failed")
                     Scenario.paid in
  fst result = Return (NextResponse.mk 200 true None None None)
  /\ ledger (snd result) = ledger Scenario.paid
  /\ calls (snd result) = calls Scenario.paid
  /\ issued Scenario.paid (snd result) = [].
Proof.
  apply (C8_unknown_status_is_noop
           Scenario.world (WebhookPayload.mk "pay_1" "Failed") Scenario.paid);
    cbn; discriminate.
Defined.

(* ===================================================================== *)
(** ** Failures of the schedule endpoints *)
(* ===================================================================== *)

(** Paid flow: a response of the schedule endpoint, whatever its status,
    leaves the handler's success response unchanged, provided the body
    of a response outside 2xx can be read. *)
Lemma paid_schedule_status_swallowed
    (w : World) (paymentId : string) (d : PortonePayment.t)
    (billingKey : string) (customer : Customer.t)
    (response : Response.t unit) (st : State) :
  gateway_detail w paymentId = Some d ->
  clock_in_range w = true ->
  unit_double (Math_random w) = true ->
  db_insert_error w = None ->
  truthy_opt (PortonePayment.billingKey d) = Some billingKey ->
  PortonePayment.customer d = Some customer ->
  POST_schedule w (randomUUID w)
                (schedule_body d customer billingKey (paid_next_schedule_at w))
  = FetchResolved response ->
  Response.ok response = true \/ Response.text response <> None ->
  succeeded (fst (POST w (paid_event paymentId) st)) = true.
Proof.
  intros Hd Hc Hu Hi Hbk Hcust Hresp Hbody.
  destruct (paid_run w paymentId d (received st) Hd Hc Hu Hi)
    as (o & st' & Hrun & _ & Ho).
  rewrite Hbk in Ho. unfold paid_schedule_step in Ho.
  rewrite Hcust in Ho. cbv zeta in Ho. rewrite Hresp in Ho.
  destruct Ho as [_ Ho]. cbn [snd] in Ho.
  destruct (POST_Paid_obs _ _ _ _ _ Hrun) as (st'' & HP & _).
  rewrite HP, Ho.
  destruct (Response.ok response); [reflexivity|].
  destruct (Response.text response); [reflexivity|].
  destruct Hbody as [H|H]; [discriminate | congruence].
Qed.

(** Paid flow: a rejected fetch of the schedule endpoint is not caught
    in the handler; the row is already in the ledger and POST answers
    with the failure response. *)
Lemma paid_schedule_rejection_surfaces
    (w : World) (paymentId : string) (d : PortonePayment.t)
    (billingKey reason : string) (customer : Customer.t) (st : State) :
  gateway_detail w paymentId = Some d ->
  clock_in_range w = true ->
  unit_double (Math_random w) = true ->
  db_insert_error w = None ->
  truthy_opt (PortonePayment.billingKey d) = Some billingKey ->
  PortonePayment.customer d = Some customer ->
  POST_schedule w (randomUUID w)
                (schedule_body d customer billingKey (paid_next_schedule_at w))
  = FetchRejected reason ->
  fst (POST w (paid_event paymentId) st)
  = Return (failure_response (FetchError reason))
  /\ exists row, ledger (snd (POST w (paid_event paymentId) st))
                 = ledger st ++ [row].
Proof.
  intros Hd Hc Hu Hi Hbk Hcust Hresp.
  destruct (paid_run w paymentId d (received st) Hd Hc Hu Hi)
    as (o & st' & Hrun & Hl & Ho).
  rewrite Hbk in Ho. unfold paid_schedule_step in Ho.
  rewrite Hcust in Ho. cbv zeta in Ho. rewrite Hresp in Ho.
  destruct Ho as [_ Ho]. cbn [snd] in Ho.
  destruct (POST_Paid_obs _ _ _ _ _ Hrun) as (st'' & HP & Hl'' & _).
  rewrite HP, Ho. cbn [fst snd respond]. split; [reflexivity|].
  rewrite Hl'', Hl. eexists; reflexivity.
Qed.

(** Cancelled flow: once the reversal is inserted the handler succeeds,
    whatever the schedule query and the schedule cancellation do. *)
Lemma cancelled_schedule_failures_swallowed
    (w : World) (paymentId : string) (d : PortonePayment.t)
    (found : Row.t) (st : State) :
  gateway_detail w paymentId = Some d ->
  db_select_error w = None ->
  latestPaid w (actualPaymentId d paymentId) (ledger st) = Some found ->
  db_insert_error w = None ->
  succeeded (fst (POST w (cancelled_event paymentId) st)) = true.
Proof.
  intros Hd Hs Hf Hi.
  destruct (POST_cancelled_run w paymentId d found st Hd Hs Hf Hi) as (Ho & _).
  rewrite Ho. reflexivity.
Qed.

(** C4, at the input where it fails: the Paid event for pay_1 with the
    schedule endpoint unreachable.  The ledger insert succeeds exactly
    as in the run without failure and the same createSchedule call is
    attempted, but the handler's result is the failure response, where
    the run without failure reports success. *)
Theorem C4_schedule_creation_rejection_fails_webhook :
  let healthy := POST Scenario.world (paid_event "pay_1") Scenario.empty in
  let failing := POST Scenario.schedule_unreachable_world
                      (paid_event "pay_1") Scenario.empty in
  ledger (snd failing) = ledger (snd healthy)
  /\ List.length (ledger (snd failing)) = 1%nat
  /\ issued Scenario.empty (snd failing) = issued Scenario.empty (snd healthy)
  /\ succeeded (fst healthy) = true
  /\ succeeded (fst failing) = false
  /\ fst failing = Return (failure_response (FetchError "fetch failed")).
Proof.
  vm_compute. repeat split.
Qed.

(* ===================================================================== *)
(** ** The end-to-end examples of the specification *)
(* ===================================================================== *)

(** Paid event for pay_1 at 2024-01-01T00:00:00Z in UTC: the row ends at
    2024-01-31T00:00:00Z, its grace at 2024-02-01T00:00:00Z, the next
    charge is at 2024-02-01T10:59:00Z. *)
Example paid_example_row :
  ledger Scenario.paid
  = [Row.mk 0 1704067200123
       (PaymentRecord.mk "pay_1" 9900 "Paid"
          (ISO8601 1704067200000) (ISO8601 1706659200000)
          (ISO8601 1706745600000) (Some (ISO8601 1706785140000))
          (Some "uuid-1"%string))].
Proof. vm_compute. reflexivity. Qed.

(** The same event with the process in KST: end_at + 1 day is
    2024-02-01 09:00 local, and the next charge is at 10:30 local of
    that day, 2024-02-01T01:30:00Z. *)
Example paid_example_kst :
  map (fun row => PaymentRecord.next_schedule_at (Row.fields row))
      (ledger (snd (POST Scenario.kst_world (paid_event "pay_1")
                         Scenario.empty)))
  = [Some (ISO8601 1706751000000)]
  /\ JSDate.getHours (JSDate.fixedOffset (9 * JSDate.msPerHour))
                     1706751000000 = 10
  /\ JSDate.getMinutes (JSDate.fixedOffset (9 * JSDate.msPerHour))
                       1706751000000 = 30
  /\ JSDate.HourFromTime 1706751000000 = 1.
Proof. vm_compute. repeat split. Qed.

(** The same flow at 2024-02-20T12:00:00Z in New York, 07:00 local:
    the period ends at 07:00 local on 2024-03-21, which is
    2024-03-21T11:00:00Z in daylight time; the grace a calendar day
    later; the next charge at 10:59 local on 2024-03-22,
    2024-03-22T14:59:00Z. *)
Example paid_example_new_york :
  map Row.fields
      (ledger (snd (POST Cases.new_york_world (paid_event "pay_1")
                         Scenario.empty)))
  = [PaymentRecord.mk "pay_1" 9900 "Paid"
       (ISO8601 1708430400000) (ISO8601 1711018800000)
       (ISO8601 1711105200000) (Some (ISO8601 1711119540000))
       (Some "uuid-1"%string)].
Proof. vm_compute. reflexivity. Qed.

(** Local times around the transitions of 2024 in New York: 02:30 on
    2024-03-10 is skipped and read as 07:30Z, 01:30 on 2024-11-03 occurs
    twice and is read as the first, 05:30Z; the instant of the first
    transition is 03:00 local, the millisecond before it 01:59:59.999. *)
Example new_york_transitions :
  JSDate.UTC Cases.new_york 1710037800000 = 1710055800000
  /\ JSDate.UTC Cases.new_york 1730597400000 = 1730611800000
  /\ JSDate.LocalTime Cases.new_york 1710054000000 = 1710039600000
  /\ JSDate.LocalTime Cases.new_york 1710053999999 = 1710035999999.
Proof. vm_compute. repeat split. Qed.

(** From 2024-06-01 the offset in New York stays the same for the
    period of the Paid flow. *)
Example new_york_summer_is_steady :
  paid_period_steady Cases.new_york_summer_world.
Proof.
  exists (-4 * JSDate.msPerHour). split; [split; reflexivity|].
  intros t isUTC Ht.
  change (Date_now Cases.new_york_summer_world) with 1717243200000 in Ht.
  unfold JSDate.msPerDay in Ht.
  unfold JSDate.LocalTZA, timeZone, Cases.new_york_summer_world,
    Cases.new_york, JSDate.initialOffset, JSDate.transitions,
    JSDate.offsetAt, JSDate.offsetOfLocal, JSDate.msPerHour.
  destruct isUTC.
  - destruct (Z.ltb_spec t 1710054000000); [lia|].
    destruct (Z.ltb_spec t 1730613600000); [reflexivity | lia].
  - destruct (Z.ltb_spec (t - -5 * 3600000) 1710054000000); [lia|].
    destruct (Z.ltb_spec (t - -4 * 3600000) 1710054000000); [lia|].
    cbn [orb].
    destruct (Z.ltb_spec (t - -4 * 3600000) 1730613600000);
      [reflexivity | lia].
Qed.

(** The schedule endpoint answers 500 with a body that cannot be read:
    the row is stored and the webhook answers with the failure. *)
Example paid_example_unreadable_answer :
  let result := POST Cases.schedule_unreadable_world (paid_event "pay_1")
                     Scenario.empty in
  fst result = Return (failure_response BodyReadError)
  /\ List.length (ledger (snd result)) = 1%nat.
Proof. vm_compute. split; reflexivity. Qed.

(** A detail with a billing key and no customer: the row is stored, no
    schedule call is made and the webhook answers with the failure. *)
Example paid_example_without_customer :
  let result := POST Cases.anonymous_world (paid_event "pay_1")
                     Scenario.empty in
  fst result = Return (failure_response (PropertyOfUndefined "id"))
  /\ List.length (ledger (snd result)) = 1%nat
  /\ filter is_schedule_call (issued Scenario.empty (snd result)) = [].
Proof. vm_compute. repeat split. Qed.

(** Of two Paid rows with the same created_at the query returns the
    one the store puts first. *)
Example store_choice_among_equal_rows :
  let fields := PaymentRecord.mk "pay_1" 9900 "Paid"
                  (ISO8601 0) (ISO8601 0) (ISO8601 0) None None in
  let a := Row.mk 0 5 fields in
  let b := Row.mk 1 5 fields in
  newest (fun _ _ => true) [a; b] = Some a
  /\ newest (fun _ _ => false) [a; b] = Some b.
Proof. vm_compute. split; reflexivity. Qed.

(** The following Cancelled event cancels sch_1, the first schedule
    whose paymentId is the row's next_schedule_id. *)
Example cancelled_example_calls :
  filter is_schedule_call
    (issued Scenario.paid
       (snd (POST Scenario.world (cancelled_event "pay_1") Scenario.paid)))
  = [QueryPaymentSchedules
       (ScheduleFilter.mk "bk_1" (ISO8601 1706698740000)
                          (ISO8601 1706871540000));
     CancelSchedules ["sch_1"%string]].
Proof. vm_compute. reflexivity. Qed.

(** A schedule response without `items` leads to no cancellation. *)
Example cancelled_example_no_items :
  filter is_cancel_schedules
    (issued Scenario.paid
       (snd (POST Scenario.no_items_world (cancelled_event "pay_1")
                  Scenario.paid)))
  = []
  /\ succeeded (fst (POST Scenario.no_items_world (cancelled_event "pay_1")
                          Scenario.paid)) = true.
Proof. vm_compute. split; reflexivity. Qed.

(** Precedence of the canonical key on details where the three
    candidates differ. *)
Example canonical_key_precedence :
  let detail paymentId id :=
    PortonePayment.mk id paymentId (Amount.mk 1) EmptyString None
                      (Some (Customer.mk EmptyString)) in
  actualPaymentId (detail (Some "gw"%string) "id"%string) "hook" = "gw"%string
  /\ actualPaymentId (detail None "id"%string) "hook" = "id"%string
  /\ actualPaymentId (detail (Some EmptyString) "id"%string) "hook" = "id"%string
  /\ actualPaymentId (detail None EmptyString) "hook" = "hook"%string.
Proof. vm_compute. repeat split. Qed.

(** In double precision the product can round up to the next integer:
    the draw (47 * 2^51 - 1) / 15 / 2^53 gives minute 47, where the exact
    product is below 47. *)
Example rounded_minute :
  let r := mkDyadic ((47 * 2 ^ 51 - 1) / 15) 53 in
  unit_double r = true
  /\ Math_floor (fmul r 60) = 47
  /\ (60 * num r) / 2 ^ 53 = 46.
Proof. vm_compute. repeat split. Qed.

(* ===================================================================== *)
(** ** Every outcome of one invocation *)
(* ===================================================================== *)

(** The detail of a run in which the lookup resolved, was ok and
    parsed. *)
Ltac detail :=
  unfold gateway_detail;
  repeat match goal with
         | H : GET_payments _ _ = _ |- _ => rewrite H; clear H
         | H : negb (Response.ok _) = false |- _ =>
             apply negb_false_iff in H; rewrite H; clear H
         | H : Response.json _ = _ |- _ => rewrite H; clear H
         end;
  reflexivity.

(** Every run of the Paid flow. *)
Lemma paid_outcomes (w : World) (pid : string) (st : State) :
  exists o st' new,
    handlePaidScenario w pid st = (o, st')
    /\ calls st' = calls st ++ new
    /\ ((exists row, o = Return (paid_response row)
                     /\ ledger st' = ledger st ++ [row])
        \/ (exists e, o = Throw e /\ ledger st' = ledger st
                      /\ filter is_schedule_call new = [])
        \/ (exists row d billingKey e,
              o = Throw e
              /\ ledger st' = ledger st ++ [row]
              /\ gateway_detail w pid = Some d
              /\ truthy_opt (PortonePayment.billingKey d) = Some billingKey
              /\ ((PortonePayment.customer d = None
                   /\ filter is_schedule_call new = [])
                  \/ (exists scheduleId body,
                        In (CreateSchedule scheduleId body) new
                        /\ ((exists reason,
                               POST_schedule w scheduleId body
                               = FetchRejected reason
                               /\ e = FetchError reason)
                            \/ (exists response,
                                  POST_schedule w scheduleId body
                                  = FetchResolved response
                                  /\ Response.ok response = false
                                  /\ Response.text response = None
                                  /\ e = BodyReadError)))))).
Proof.
  unfold handlePaidScenario. explore.
  all: eexists _, _, _; (split; [reflexivity|]);
    cbn [ledger calls]; rewrite <- ?app_assoc; (split; [reflexivity|]).
  all: try (left; eexists; split; reflexivity).
  all: try (right; left; eexists; repeat split; reflexivity).
  all: right; right; eexists _, _, _, _;
    (split; [reflexivity|]); (split; [reflexivity|]);
    (split; [detail|]); (split; [eassumption|]).
  all: first
    [ left; split; [assumption | reflexivity]
    | right; eexists _, _; (split; [cbn; eauto|]);
      first [ left; eexists; split; [eassumption | reflexivity]
            | right; eexists; split; [eassumption|];
              split; [apply negb_true_iff; assumption|];
              split; [assumption | reflexivity] ] ].
Qed.

Lemma cancelled_outcomes (w : World) (pid : string) (st : State) :
  exists o st' new,
    handleCancelledScenario w pid st = (o, st')
    /\ calls st' = calls st ++ new
    /\ ((exists row, o = Return (cancel_response row)
                     /\ ledger st' = ledger st ++ [row])
        \/ (exists e, o = Throw e /\ ledger st' = ledger st
                      /\ filter is_schedule_call new = [])).
Proof.
  unfold handleCancelledScenario. explore.
  all: eexists _, _, _; (split; [reflexivity|]);
    cbn [ledger calls]; rewrite <- ?app_assoc; (split; [reflexivity|]).
  all: try (left; eexists; split; reflexivity).
  all: right; eexists; repeat split; reflexivity.
Qed.

Lemma payload_eta (payload : WebhookPayload.t) :
  payload = WebhookPayload.mk (WebhookPayload.payment_id payload)
                              (WebhookPayload.status payload).
Proof. destruct payload; reflexivity. Qed.

(** Every run of the Cancelled flow, with the origin of the row it
    appends. *)
Lemma cancelled_outcomes_found (w : World) (pid : string) (st : State) :
  exists o st' new,
    handleCancelledScenario w pid st = (o, st')
    /\ calls st' = calls st ++ new
    /\ ((exists row found,
           o = Return (cancel_response row)
           /\ ledger st' = ledger st ++ [row]
           /\ In found (ledger st)
           /\ PaymentRecord.status (Row.fields found) = "Paid"%string
           /\ Row.fields row = reversal_of (Row.fields found))
        \/ (exists e, o = Throw e /\ ledger st' = ledger st
                      /\ filter is_schedule_call new = [])).
Proof.
  unfold handleCancelledScenario. explore.
  all: eexists _, _, _; (split; [reflexivity|]);
    cbn [ledger calls]; rewrite <- ?app_assoc; (split; [reflexivity|]).
  all: try (right; eexists; repeat split; reflexivity).
  all: left;
    match goal with
    | H : latestPaid _ _ ?l = Some ?r |- _ =>
        destruct (latestPaid_spec _ _ _ _ H) as (Hin & _ & Hpaid & _);
        exists (Row.mk (List.length l) (db_now w)
                       (reversal_of (Row.fields r))), r
    end;
    unfold cancel_response, reversal_of; cbn [Row.fields];
    repeat split; first [assumption | reflexivity | congruence].
Qed.

Ltac shape :=
  cbn [received ledger calls];
  repeat (split; [reflexivity|]);
  (split;
   [first [left; reflexivity | right; eexists; reflexivity]
   |first [left; repeat split; reflexivity
          |right; repeat split; try reflexivity; eexists; reflexivity]]).

(** What POST does with any payload. *)
Lemma POST_outcomes (w : World) (payload : WebhookPayload.t) (st : State) :
  exists r st' new extra,
    POST w payload st = (Return r, st')
    /\ calls st' = calls st ++ new
    /\ ledger st' = ledger st ++ extra
    /\ (extra = [] \/ exists row, extra = [row])
    /\ ((NextResponse.success r = true
         /\ NextResponse.http_status r = 200
         /\ NextResponse.error r = None)
        \/ (NextResponse.success r = false
            /\ NextResponse.http_status r = 500
            /\ NextResponse.message r = None
            /\ NextResponse.payment r = None
            /\ exists e, NextResponse.error r = Some e)).
Proof.
  destruct (String.eqb (WebhookPayload.status payload) "Paid") eqn:Ep.
  - apply String.eqb_eq in Ep. rewrite (payload_eta payload), Ep.
    fold (paid_event (WebhookPayload.payment_id payload)).
    destruct (paid_outcomes w (WebhookPayload.payment_id payload) (received st))
      as (o & st' & new & Hrun & Hc & Hcases).
    destruct (POST_Paid_obs _ _ _ _ _ Hrun) as (st'' & HP & Hl'' & Hc'').
    rewrite HP.
    destruct Hcases
      as [(row & -> & Hl)
         |[(e & -> & Hl & _)|(row & d & bk & e & -> & Hl & _)]];
      [exists (paid_response row), st'', new, [row]
      |exists (failure_response e), st'', new, []
      |exists (failure_response e), st'', new, [row]];
      rewrite Hl'', Hc'', Hl, Hc, ?app_nil_r; shape.
  - destruct (String.eqb (WebhookPayload.status payload) "Cancelled") eqn:Ec.
    + apply String.eqb_eq in Ec. rewrite (payload_eta payload), Ec.
      fold (cancelled_event (WebhookPayload.payment_id payload)).
      destruct (cancelled_outcomes w (WebhookPayload.payment_id payload)
                                   (received st))
        as (o & st' & new & Hrun & Hc & Hcases).
      destruct (POST_Cancelled_obs _ _ _ _ _ Hrun) as (st'' & HP & Hl'' & Hc'').
      rewrite HP.
      destruct Hcases as [(row & -> & Hl)|(e & -> & Hl & _)];
        [exists (cancel_response row), st'', new, [row]
        |exists (failure_response e), st'', new, []];
        rewrite Hl'', Hc'', Hl, Hc, ?app_nil_r; shape.
    + unfold POST. rewrite Ep, Ec. run.
      eexists _, _, [], []. cbn [ledger calls].
      rewrite !app_nil_r. repeat split; auto.
Qed.

(** X1: one invocation of POST, whatever the event and whatever the
    gateway and the store answer, keeps every row the ledger had, in
    order, and appends at most one row. *)
Theorem ledger_append_only (w : World) (payload : WebhookPayload.t) (st : State) :
  exists extra,
    ledger (snd (POST w payload st)) = ledger st ++ extra
    /\ (List.length extra <= 1)%nat.
Proof.
  destruct (POST_outcomes w payload st)
    as (r & st' & new & extra & HP & _ & Hl & Hextra & _).
  exists extra. rewrite HP. split; [exact Hl|].
  destruct Hextra as [->|(row & ->)]; cbn; lia.
Qed.

(** X2: POST always returns a response and never lets an exception
    escape: either a success response with status 200 and no error, or
    the failure response with status 500, an error and neither message
    nor payment. *)
Theorem POST_always_responds (w : World) (payload : WebhookPayload.t) (st : State) :
  exists r,
    fst (POST w payload st) = Return r
    /\ ((NextResponse.success r = true
         /\ NextResponse.http_status r = 200
         /\ NextResponse.error r = None)
        \/ (NextResponse.success r = false
            /\ NextResponse.http_status r = 500
            /\ NextResponse.message r = None
            /\ NextResponse.payment r = None
            /\ exists e, NextResponse.error r = Some e)).
Proof.
  destruct (POST_outcomes w payload st)
    as (r & st' & new & extra & HP & _ & _ & _ & Hshape).
  exists r. rewrite HP. split; [reflexivity | exact Hshape].
Qed.

(** X4: the Cancelled flow has two outcomes only.  Either it answers
    with the reversal row it appended, which reverses a Paid row that
    was already in the ledger; or it answers with a failure, the ledger
    is unchanged and no schedule endpoint was called. *)
Theorem cancelled_all_or_nothing (w : World) (paymentId : string) (st : State) :
  let result := POST w (cancelled_event paymentId) st in
  (exists row found,
     fst result = Return (cancel_response row)
     /\ ledger (snd result) = ledger st ++ [row]
     /\ In found (ledger st)
     /\ PaymentRecord.status (Row.fields found) = "Paid"%string
     /\ Row.fields row = reversal_of (Row.fields found))
  \/ (succeeded (fst result) = false
      /\ ledger (snd result) = ledger st
      /\ filter is_schedule_call (issued st (snd result)) = []).
Proof.
  intros result. subst result.
  destruct (cancelled_outcomes_found w paymentId (received st))
    as (o & st' & new & Hrun & Hc & Hcases).
  destruct (POST_Cancelled_obs _ _ _ _ _ Hrun) as (st'' & HP & Hl'' & Hc'').
  rewrite HP. cbn [fst snd].
  destruct Hcases as [(row & found & -> & Hl & Hin & Hp & Hf)
                     |(e & -> & Hl & Hn)].
  - left. exists row, found. rewrite Hl'', Hl. repeat split; assumption.
  - right. rewrite Hl'', Hl. repeat split.
    rewrite (issued_app st st'' new); [exact Hn|].
    rewrite Hc'', Hc. reflexivity.
Qed.

(** X3: the Paid flow has three outcomes only.  It answers with the row
    it appended; or it fails with the ledger unchanged and no schedule
    endpoint called; or it fails after appending the row, for a detail
    with a billing key, and then either the detail has no customer and
    no schedule endpoint was called, or the request that creates the
    next schedule was sent and was rejected, or was answered outside
    2xx with a body that cannot be read. *)
Theorem paid_three_outcomes (w : World) (paymentId : string) (st : State) :
  let result := POST w (paid_event paymentId) st in
  let sent := issued st (snd result) in
  (exists row, fst result = Return (paid_response row)
               /\ ledger (snd result) = ledger st ++ [row])
  \/ (succeeded (fst result) = false
      /\ ledger (snd result) = ledger st
      /\ filter is_schedule_call sent = [])
  \/ (exists row d billingKey e,
        fst result = Return (failure_response e)
        /\ ledger (snd result) = ledger st ++ [row]
        /\ gateway_detail w paymentId = Some d
        /\ truthy_opt (PortonePayment.billingKey d) = Some billingKey
        /\ ((PortonePayment.customer d = None
             /\ filter is_schedule_call sent = [])
            \/ (exists scheduleId body,
                  In (CreateSchedule scheduleId body) sent
                  /\ ((exists reason,
                         POST_schedule w scheduleId body = FetchRejected reason
                         /\ e = FetchError reason)
                      \/ (exists response,
                            POST_schedule w scheduleId body
                            = FetchResolved response
                            /\ Response.ok response = false
                            /\ Response.text response = None
                            /\ e = BodyReadError))))).
Proof.
  intros result sent. subst sent result.
  destruct (paid_outcomes w paymentId (received st))
    as (o & st' & new & Hrun & Hc & Hcases).
  destruct (POST_Paid_obs _ _ _ _ _ Hrun) as (st'' & HP & Hl'' & Hc'').
  rewrite HP. cbn [fst snd].
  rewrite (issued_app st st'' new) by (rewrite Hc'', Hc; reflexivity).
  rewrite Hl''.
  destruct Hcases
    as [(row & -> & Hl)
       |[(e & -> & Hl & Hn)
        |(row & d & bk & e & -> & Hl & Hd & Hbk & Hwhy)]].
  - left. exists row. split; [reflexivity | exact Hl].
  - right; left. repeat split; assumption.
  - right; right. exists row, d, bk, e. repeat split; assumption.
Qed.

(** Both flows start with the same lookup; when it yields no detail
    they throw right after it. *)
Lemma lookup_failure_runs (w : World) (pid : string) (st : State) :
  gateway_detail w pid = None ->
  (exists e st', handlePaidScenario w pid st = (Throw e, st')
                 /\ ledger st' = ledger st
                 /\ calls st' = calls st ++ [GetPayment pid])
  /\ (exists e st', handleCancelledScenario w pid st = (Throw e, st')
                    /\ ledger st' = ledger st
                    /\ calls st' = calls st ++ [GetPayment pid]).
Proof.
  unfold gateway_detail. intros Hd.
  destruct (GET_payments w pid) as [reason|r] eqn:Hr.
  - split; [unfold handlePaidScenario | unfold handleCancelledScenario];
      run; rewrite Hr; eexists _, _; repeat split.
  - destruct (Response.ok r) eqn:Hok.
    + assert (Hn : negb (Response.ok r) = false) by (rewrite Hok; reflexivity).
      split; [unfold handlePaidScenario | unfold handleCancelledScenario];
        run; rewrite Hr, Hn, Hd; eexists _, _; repeat split.
    + assert (Hn : negb (Response.ok r) = true) by (rewrite Hok; reflexivity).
      split; [unfold handlePaidScenario | unfold handleCancelledScenario];
        run; rewrite Hr, Hn; destruct (Response.text r);
        eexists _, _; repeat split.
Qed.

(** X5: when the gateway lookup yields no payment detail (the request is
    rejected, the status is not ok, or the body does not parse), both
    flows fail, leave the ledger unchanged and issue no call besides
    that lookup: the store is neither read nor written. *)
Theorem lookup_failure_stops_before_store
    (w : World) (paymentId : string) (st : State) :
  gateway_detail w paymentId = None ->
  let paid := POST w (paid_event paymentId) st in
  let cancelled := POST w (cancelled_event paymentId) st in
  succeeded (fst paid) = false
  /\ ledger (snd paid) = ledger st
  /\ issued st (snd paid) = [GetPayment paymentId]
  /\ succeeded (fst cancelled) = false
  /\ ledger (snd cancelled) = ledger st
  /\ issued st (snd cancelled) = [GetPayment paymentId].
Proof.
  intros Hd paid cancelled. subst paid cancelled.
  destruct (lookup_failure_runs w paymentId (received st) Hd)
    as [(e1 & s1 & H1 & Hl1 & Hc1) (e2 & s2 & H2 & Hl2 & Hc2)].
  destruct (POST_Paid_obs _ _ _ _ _ H1) as (s1' & HP1 & Hl1' & Hc1').
  destruct (POST_Cancelled_obs _ _ _ _ _ H2) as (s2' & HP2 & Hl2' & Hc2').
  rewrite HP1, HP2. cbn [fst snd respond succeeded failure_response
                         NextResponse.success].
  rewrite Hl1', Hl1, Hl2', Hl2.
  rewrite (issued_app st s1' [GetPayment paymentId])
    by (rewrite Hc1', Hc1; reflexivity).
  rewrite (issued_app st s2' [GetPayment paymentId])
    by (rewrite Hc2', Hc2; reflexivity).
  repeat split.
Qed.

(** When the store rejects inserts no run appends a row or reaches the
    schedule endpoints. *)
Lemma insert_rejected_runs (w : World) (pid : string) (st : State)
                           (message : string) :
  db_insert_error w = Some message ->
  (exists e st' new, handlePaidScenario w pid st = (Throw e, st')
                     /\ ledger st' = ledger st
                     /\ calls st' = calls st ++ new
                     /\ filter is_schedule_call new = [])
  /\ (exists e st' new, handleCancelledScenario w pid st = (Throw e, st')
                        /\ ledger st' = ledger st
                        /\ calls st' = calls st ++ new
                        /\ filter is_schedule_call new = []).
Proof.
  intros Hi. split.
  - unfold handlePaidScenario. explore.
    all: eexists _, _, _; (split; [reflexivity|]);
      cbn [ledger calls]; rewrite <- ?app_assoc; repeat split.
  - unfold handleCancelledScenario. explore.
    all: eexists _, _, _; (split; [reflexivity|]);
      cbn [ledger calls]; rewrite <- ?app_assoc; repeat split.
Qed.

(** X6: when the store rejects the insert, both flows fail, the ledger
    is unchanged, and no schedule is created, searched or cancelled. *)
Theorem insert_failure_leaves_no_row
    (w : World) (paymentId message : string) (st : State) :
  db_insert_error w = Some message ->
  let paid := POST w (paid_event paymentId) st in
  let cancelled := POST w (cancelled_event paymentId) st in
  succeeded (fst paid) = false
  /\ ledger (snd paid) = ledger st
  /\ filter is_schedule_call (issued st (snd paid)) = []
  /\ succeeded (fst cancelled) = false
  /\ ledger (snd cancelled) = ledger st
  /\ filter is_schedule_call (issued st (snd cancelled)) = [].
Proof.
  intros Hi paid cancelled. subst paid cancelled.
  destruct (insert_rejected_runs w paymentId (received st) message Hi)
    as [(e1 & s1 & n1 & H1 & Hl1 & Hc1 & Hn1)
        (e2 & s2 & n2 & H2 & Hl2 & Hc2 & Hn2)].
  destruct (POST_Paid_obs _ _ _ _ _ H1) as (s1' & HP1 & Hl1' & Hc1').
  destruct (POST_Cancelled_obs _ _ _ _ _ H2) as (s2' & HP2 & Hl2' & Hc2').
  rewrite HP1, HP2. cbn [fst snd respond succeeded failure_response
                         NextResponse.success].
  rewrite Hl1', Hl1, Hl2', Hl2.
  rewrite (issued_app st s1' n1) by (rewrite Hc1', Hc1; reflexivity).
  rewrite (issued_app st s2' n2) by (rewrite Hc2', Hc2; reflexivity).
  repeat split; assumption.
Qed.

Lemma TimeClip_value (t u : Z) : JSDate.TimeClip t = Some u -> u = t.
Proof.
  unfold JSDate.TimeClip. destruct (Z.abs t <=? JSDate.maxTime); congruence.
Qed.

(** Where the zone is steady around [t], the window of the Cancelled
    flow is the day before and the day after [t]. *)
Lemma schedule_window_Some (w : World) (t : Z) (from until : ISOString) :
  JSDate.steady (timeZone w)
                (t - 2 * JSDate.msPerDay) (t + 2 * JSDate.msPerDay) ->
  schedule_window w (ISO8601 t) = Some (from, until) ->
  from = ISO8601 (t - JSDate.msPerDay)
  /\ until = ISO8601 (t + JSDate.msPerDay).
Proof.
  intros Hsteady.
  unfold schedule_window, Date_of_string, setDate, getDate. cbv zeta.
  cbn [timeValue].
  destruct (JSDate.TimeClip t) as [t'|] eqn:Et; [|discriminate].
  apply TimeClip_value in Et. subst t'.
  rewrite !JSDateFacts.setDate_getDate_plus.
  rewrite !(JSDateFacts.steady_addLocalDays _ _ _ _ _ Hsteady)
    by date_range.
  destruct (JSDate.TimeClip (t + -1 * JSDate.msPerDay))
    as [a|] eqn:Ea; [|discriminate].
  destruct (JSDate.TimeClip (t + 1 * JSDate.msPerDay))
    as [b|] eqn:Eb; [|discriminate].
  apply TimeClip_value in Ea, Eb. intros H; inversion H; subst.
  split; f_equal; lia.
Qed.

Lemma schedule_window_in_range (w : World) (t : Z) :
  JSDate.steady (timeZone w)
                (t - 2 * JSDate.msPerDay) (t + 2 * JSDate.msPerDay) ->
  - JSDate.maxTime + JSDate.msPerDay <= t <= JSDate.maxTime - JSDate.msPerDay ->
  schedule_window w (ISO8601 t)
  = Some (ISO8601 (t - JSDate.msPerDay), ISO8601 (t + JSDate.msPerDay)).
Proof.
  intros Hsteady H.
  unfold schedule_window, Date_of_string, setDate, getDate. cbv zeta.
  cbn [timeValue].
  rewrite (JSDateFacts.TimeClip_in_range t) by date_range.
  rewrite !JSDateFacts.setDate_getDate_plus.
  rewrite !(JSDateFacts.steady_addLocalDays _ _ _ _ _ Hsteady)
    by date_range.
  rewrite !JSDateFacts.TimeClip_in_range by date_range.
  repeat f_equal; lia.
Qed.

(** X7: where the time zone keeps its offset from two days before to
    two days after the next_schedule_at of the Paid row found, every
    schedule search the Cancelled flow issues is for the billing key of
    the looked-up payment and for the window from one day before to one
    day after that time; and when that row has a next_schedule_at in
    range and a schedule id and the payment has a billing key, the
    search is issued. *)
Theorem cancelled_search_window
    (w : World) (paymentId : string) (d : PortonePayment.t)
    (found : Row.t) (st : State) :
  gateway_detail w paymentId = Some d ->
  db_select_error w = None ->
  latestPaid w (actualPaymentId d paymentId) (ledger st) = Some found ->
  db_insert_error w = None ->
  (forall t,
     PaymentRecord.next_schedule_at (Row.fields found) = Some (ISO8601 t) ->
     JSDate.steady (timeZone w)
                   (t - 2 * JSDate.msPerDay) (t + 2 * JSDate.msPerDay)) ->
  let sent := issued st (snd (POST w (cancelled_event paymentId) st)) in
  (forall query,
     In (QueryPaymentSchedules query) sent ->
     exists billingKey t,
       truthy_opt (PortonePayment.billingKey d) = Some billingKey
       /\ PaymentRecord.next_schedule_at (Row.fields found) = Some (ISO8601 t)
       /\ query = ScheduleFilter.mk billingKey
                    (ISO8601 (t - JSDate.msPerDay))
                    (ISO8601 (t + JSDate.msPerDay)))
  /\ (forall billingKey t next_schedule_id,
        truthy_opt (PortonePayment.billingKey d) = Some billingKey ->
        PaymentRecord.next_schedule_at (Row.fields found) = Some (ISO8601 t) ->
        truthy_opt (PaymentRecord.next_schedule_id (Row.fields found))
        = Some next_schedule_id ->
        - JSDate.maxTime + JSDate.msPerDay <= t
          <= JSDate.maxTime - JSDate.msPerDay ->
        In (QueryPaymentSchedules
              (ScheduleFilter.mk billingKey
                 (ISO8601 (t - JSDate.msPerDay))
                 (ISO8601 (t + JSDate.msPerDay))))
           sent).
Proof.
  intros Hd Hs Hf Hi Hsteady sent.
  destruct (POST_cancelled_run w paymentId d found st Hd Hs Hf Hi)
    as (_ & _ & Hc).
  subst sent. rewrite Hc. clear Hc. unfold cancel_schedule_calls. split.
  - intros query.
    destruct (truthy_opt (PortonePayment.billingKey d)) as [bk|];
      [|intros [H|[H|[H|[]]]]; discriminate H].
    destruct (PaymentRecord.next_schedule_at (Row.fields found)) as [[t]|];
      [|intros [H|[H|[H|[]]]]; discriminate H].
    destruct (truthy_opt (PaymentRecord.next_schedule_id (Row.fields found)))
      as [nsid|]; [|intros [H|[H|[H|[]]]]; discriminate H].
    destruct (schedule_window w (ISO8601 t)) as [[from until]|] eqn:Ew;
      [|intros [H|[H|[H|[]]]]; discriminate H].
    apply (schedule_window_Some w t _ _ (Hsteady t eq_refl)) in Ew.
    destruct Ew as [-> ->]. cbv zeta.
    intros [H|[H|[H|[H|Hrest]]]]; try discriminate H.
    + inversion H; subst. exists bk, t. repeat split.
    + exfalso.
      destruct (GET_payment_schedules w _) as [|data]; [destruct Hrest|].
      destruct (find _ _); [|destruct Hrest].
      destruct Hrest as [H|[]]; discriminate H.
  - intros bk t nsid Hbk Hnsa Hnsid Hrange.
    rewrite Hbk, Hnsa, Hnsid,
      (schedule_window_in_range w t (Hsteady t Hnsa) Hrange).
    cbv zeta. cbn. auto.
Qed.

Lemma newest_last (before : Row.t -> Row.t -> bool) (rows : list Row.t)
                  (r : Row.t) :
  (forall x, In x rows -> Row.created_at x < Row.created_at r) ->
  newest before (rows ++ [r]) = Some r.
Proof.
  induction rows as [|a rows IH]; intros H; [reflexivity|].
  cbn [app newest]. rewrite IH by (intros x Hx; apply H; right; exact Hx).
  specialize (H a (or_introl eq_refl)).
  destruct (Z.ltb_spec (Row.created_at r) (Row.created_at a)) as [Hlt|_];
    [lia|].
  destruct (Z.ltb_spec (Row.created_at a) (Row.created_at r)) as [_|Hge];
    [reflexivity | lia].
Qed.

(** Stores that choose alike among equal rows return the same row. *)
Lemma newest_ext (before before' : Row.t -> Row.t -> bool)
                 (rows : list Row.t) :
  (forall a b, before' a b = before a b) ->
  newest before' rows = newest before rows.
Proof.
  intros H. induction rows as [|a rows IH]; [reflexivity|].
  cbn. rewrite IH. destruct (newest before rows) as [r'|]; [|reflexivity].
  rewrite H. reflexivity.
Qed.

(** A Paid row appended with a created_at after those of the Paid rows
    of its key is the one the query returns, whatever the store's choice
    among equal rows. *)
Lemma latestPaid_after_insert (w : World) (key : string)
                              (rows : list Row.t) (r : Row.t) :
  is_paid_for key r = true ->
  (forall x, In x rows -> is_paid_for key x = true ->
             Row.created_at x < Row.created_at r) ->
  latestPaid w key (rows ++ [r]) = Some r.
Proof.
  intros Hp H. unfold latestPaid. rewrite filter_app. cbn [filter].
  rewrite Hp. apply newest_last.
  intros x Hx. apply filter_In in Hx. destruct Hx. auto.
Qed.

(** A row that is not a Paid row of the key does not change what the
    query returns. *)
Lemma latestPaid_ignores (w : World) (key : string) (rows : list Row.t)
                         (r : Row.t) :
  is_paid_for key r = false ->
  latestPaid w key (rows ++ [r]) = latestPaid w key rows.
Proof.
  intros Hp. unfold latestPaid. rewrite filter_app. cbn [filter].
  rewrite Hp, app_nil_r. reflexivity.
Qed.

Lemma reversal_is_not_paid (key : string) (n : nat) (c : Z)
                           (f : PaymentRecord.t) :
  is_paid_for key (Row.mk n c (reversal_of f)) = false.
Proof.
  unfold is_paid_for, reversal_of. cbn [Row.fields PaymentRecord.status].
  change (String.eqb "Cancel" "Paid") with false. apply andb_false_r.
Qed.

Lemma paid_record_is_paid (w : World) (pid : string) (d : PortonePayment.t)
                          (n : nat) (c : Z) :
  is_paid_for pid (Row.mk n c (paid_record w pid d)) = true.
Proof.
  unfold is_paid_for, paid_record. cbn [Row.fields PaymentRecord.transaction_key
                                       PaymentRecord.status].
  rewrite String.eqb_refl. reflexivity.
Qed.

(** X8: the row a successful Paid invocation appends is the one the
    Cancelled flow's ledger query returns for that payment id right
    afterwards, whatever row the store prefers among equal created_at,
    provided every earlier Paid row of the same id has an earlier
    created_at; its amount is the total reported by the gateway. *)
Theorem paid_row_is_found_by_lookup
    (w w' : World) (paymentId : string) (d : PortonePayment.t) (st : State) :
  gateway_detail w paymentId = Some d ->
  clock_in_range w = true ->
  unit_double (Math_random w) = true ->
  db_insert_error w = None ->
  (forall r, In r (ledger st) -> is_paid_for paymentId r = true ->
             Row.created_at r < db_now w) ->
  let st' := snd (POST w (paid_event paymentId) st) in
  exists row,
    ledger st' = ledger st ++ [row]
    /\ latestPaid w' paymentId (ledger st') = Some row
    /\ PaymentRecord.amount (Row.fields row)
       = Amount.total (PortonePayment.amount d).
Proof.
  intros Hd Hc Hu Hi Hclock st'.
  destruct (paid_run w paymentId d (received st) Hd Hc Hu Hi)
    as (o & st1 & Hrun & Hl & _).
  destruct (POST_Paid_obs _ _ _ _ _ Hrun) as (st2 & HP & Hl2 & _).
  subst st'. rewrite HP. cbn [snd]. rewrite Hl2, Hl. cbn [ledger received].
  eexists. split; [reflexivity|]. split; [|reflexivity].
  apply latestPaid_after_insert; [apply paid_record_is_paid|].
  exact Hclock.
Qed.

(** X10: handling the same Cancelled event twice succeeds twice and
    appends two rows with distinct ids.  The first reversal is not a
    Paid row, so the second lookup chooses among the same Paid rows as
    the first: the row it reverses is a newest Paid row of the key in
    the ledger as it was, of the same created_at as the row the first
    lookup found, and that same row when the store chooses among equal
    rows as it did the first time. *)
Theorem cancelled_replay_appends_two_reversals
    (w1 w2 : World) (paymentId : string) (d1 d2 : PortonePayment.t)
    (found : Row.t) (st : State) :
  gateway_detail w1 paymentId = Some d1 ->
  gateway_detail w2 paymentId = Some d2 ->
  actualPaymentId d2 paymentId = actualPaymentId d1 paymentId ->
  db_select_error w1 = None -> db_insert_error w1 = None ->
  db_select_error w2 = None -> db_insert_error w2 = None ->
  latestPaid w1 (actualPaymentId d1 paymentId) (ledger st) = Some found ->
  let first := POST w1 (cancelled_event paymentId) st in
  let second := POST w2 (cancelled_event paymentId) (snd first) in
  exists row1 row2 found',
    succeeded (fst first) = true
    /\ succeeded (fst second) = true
    /\ ledger (snd second) = ledger st ++ [row1; row2]
    /\ Row.id row1 <> Row.id row2
    /\ Row.fields row1 = reversal_of (Row.fields found)
    /\ latestPaid w2 (actualPaymentId d1 paymentId) (ledger st) = Some found'
    /\ Row.created_at found' = Row.created_at found
    /\ Row.fields row2 = reversal_of (Row.fields found')
    /\ ((forall a b, db_tie_break w2 a b = db_tie_break w1 a b) ->
        found' = found
        /\ Row.fields row2 = reversal_of (Row.fields found)).
Proof.
  intros Hd1 Hd2 Hkey Hs1 Hi1 Hs2 Hi2 Hf first second.
  destruct (POST_cancelled_run w1 paymentId d1 found st Hd1 Hs1 Hf Hi1)
    as (Ho1 & Hl1 & _).
  fold first in Ho1, Hl1.
  destruct (latestPaid_spec _ _ _ _ Hf) as (Hin & Hk & Hp & _).
  destruct (latestPaid_exists w2 (actualPaymentId d1 paymentId) (ledger st)
              found Hin) as (found' & Hf').
  { unfold is_paid_for. rewrite Hk, Hp, !String.eqb_refl. reflexivity. }
  assert (Hf2 : latestPaid w2 (actualPaymentId d2 paymentId)
                           (ledger (snd first))
                = Some found').
  { rewrite Hkey, Hl1, latestPaid_ignores; [exact Hf'|].
    apply reversal_is_not_paid. }
  destruct (POST_cancelled_run w2 paymentId d2 found' (snd first)
              Hd2 Hs2 Hf2 Hi2)
    as (Ho2 & Hl2 & _).
  fold second in Ho2, Hl2.
  eexists _, _, found'. rewrite Ho1, Ho2, Hl2, Hl1, <- app_assoc.
  split; [reflexivity|]. split; [reflexivity|]. split; [reflexivity|].
  split; [cbn [Row.id]; rewrite length_app; cbn; lia|].
  split; [reflexivity|]. split; [exact Hf'|].
  split; [exact (newest_created_at _ _ _ _ _ Hf Hf')|].
  split; [reflexivity|].
  intros Hsame. unfold latestPaid in Hf, Hf'.
  rewrite (newest_ext _ _ _ Hsame), Hf in Hf'. inversion Hf'.
  split; reflexivity.
Qed.


(* ===================================================================== *)
(** ** The status hook *)
(* ===================================================================== *)

(* ===================================================================== *)
(** ** Facts about the Map of the status hook *)
(* ===================================================================== *)

Lemma Map_set_absent {V} (m : JSMap V) (key : string) (v : V) :
  Map_get m key = None -> Map_set m key v = m ++ [(key, v)].
Proof.
  induction m as [|[k v'] m IH]; cbn; [reflexivity|].
  destruct (String.eqb k key); [discriminate|].
  intros H. rewrite IH by exact H. reflexivity.
Qed.

Lemma Map_get_app {V} (m m' : JSMap V) (key : string) :
  Map_get (m ++ m') key
  = match Map_get m key with
    | Some v => Some v
    | None => Map_get m' key
    end.
Proof.
  induction m as [|[k v] m IH]; cbn; [reflexivity|].
  destruct (String.eqb k key); [reflexivity | exact IH].
Qed.

Lemma Map_get_set {V} (m : JSMap V) (key key' : string) (v : V) :
  Map_get (Map_set m key v) key'
  = if String.eqb key key' then Some v else Map_get m key'.
Proof.
  induction m as [|[k v'] m IH]; cbn.
  - reflexivity.
  - destruct (String.eqb_spec k key) as [->|Hne]; cbn.
    + destruct (String.eqb key key'); reflexivity.
    + destruct (String.eqb_spec k key') as [->|Hne'].
      * destruct (String.eqb_spec key key') as [E|_]; [congruence|reflexivity].
      * exact IH.
Qed.

Lemma Map_get_In {V} (m : JSMap V) (key : string) (v : V) :
  Map_get m key = Some v -> In v (Map_values m).
Proof.
  induction m as [|[k v'] m IH]; cbn; [discriminate|].
  destruct (String.eqb k key).
  - intros H; inversion H; auto.
  - intros H; right; exact (IH H).
Qed.

Lemma has_key_inv (key : string) (p : Payment.t) :
  has_key key p = true ->
  Payment.transaction_key p = Some key /\ truthy key = true.
Proof.
  unfold has_key.
  destruct (truthy_opt (Payment.transaction_key p)) as [k|] eqn:E;
    [|discriminate].
  intros H. apply String.eqb_eq in H. subst k.
  apply truthy_opt_Some in E. exact E.
Qed.

Lemma has_key_of_truthy (key : string) (p : Payment.t) :
  truthy_opt (Payment.transaction_key p) = Some key -> has_key key p = true.
Proof.
  unfold has_key. intros ->. apply String.eqb_refl.
Qed.

Lemma has_key_other (key key' : string) (p : Payment.t) :
  truthy_opt (Payment.transaction_key p) = Some key ->
  key <> key' -> has_key key' p = false.
Proof.
  unfold has_key. intros -> H. apply String.eqb_neq. exact H.
Qed.

Lemma has_key_none (key : string) (p : Payment.t) :
  truthy_opt (Payment.transaction_key p) = None -> has_key key p = false.
Proof.
  unfold has_key. intros ->. reflexivity.
Qed.

(* ===================================================================== *)
(** ** The status hook as first written *)
(* ===================================================================== *)

(** After the loop a key holds what it held before, or else the first
    row of the key. *)
Lemma groupLoop_get (payments : list Payment.t) (m : JSMap Payment.t)
                    (key : string) :
  Map_get (StatusHook.groupLoop payments m) key
  = match Map_get m key with
    | Some v => Some v
    | None => first_with_key key payments
    end.
Proof.
  revert m. induction payments as [|p rest IH]; intros m; cbn.
  - destruct (Map_get m key); reflexivity.
  - destruct (truthy_opt (Payment.transaction_key p)) as [k|] eqn:Ek.
    + unfold Map_has. destruct (Map_get m k) as [e|] eqn:Em; cbn [negb].
      * rewrite IH.
        destruct (Map_get m key) as [v|] eqn:Ekey; [reflexivity|].
        rewrite (has_key_other k key p Ek); [reflexivity|].
        intros ->. congruence.
      * rewrite IH, Map_get_set.
        destruct (String.eqb_spec k key) as [->|Hne].
        -- rewrite Em, (has_key_of_truthy key p Ek). reflexivity.
        -- rewrite (has_key_other k key p Ek Hne). reflexivity.
    + rewrite IH, (has_key_none key p Ek). reflexivity.
Qed.

(** Every value of the Map after the loop was there before, or is the
    first row of a key the Map did not hold. *)
Lemma groupLoop_values (payments : list Payment.t) (m : JSMap Payment.t)
                       (p : Payment.t) :
  In p (Map_values (StatusHook.groupLoop payments m)) ->
  In p (Map_values m)
  \/ exists key, Map_get m key = None /\ first_with_key key payments = Some p.
Proof.
  revert m. induction payments as [|q rest IH]; intros m; cbn.
  - auto.
  - destruct (truthy_opt (Payment.transaction_key q)) as [k|] eqn:Ek.
    + unfold Map_has. destruct (Map_get m k) as [e|] eqn:Em; cbn [negb].
      * intros H. destruct (IH m H) as [Hin|(key & Hnone & Hfirst)]; [auto|].
        right. exists key. split; [exact Hnone|].
        rewrite (has_key_other k key q Ek); [exact Hfirst|].
        intros ->. congruence.
      * intros H. destruct (IH _ H) as [Hin|(key & Hnone & Hfirst)].
        -- rewrite (Map_set_absent m k q Em) in Hin.
           unfold Map_values in Hin. rewrite map_app in Hin.
           apply in_app_or in Hin. destruct Hin as [Hin|[<-|[]]]; [auto|].
           right. exists k. split; [exact Em|].
           rewrite (has_key_of_truthy k q Ek). reflexivity.
        -- rewrite Map_get_set in Hnone.
           destruct (String.eqb_spec k key) as [->|Hne]; [discriminate|].
           right. exists key. split; [exact Hnone|].
           rewrite (has_key_other k key q Ek Hne). exact Hfirst.
    + intros H. destruct (IH m H) as [Hin|(key & Hnone & Hfirst)]; [auto|].
      right. exists key. split; [exact Hnone|].
      rewrite (has_key_none key q Ek). exact Hfirst.
Qed.


Lemma isActive_inv (now : JSDate.Date) (p : Payment.t) :
  isActive now p = true ->
  Payment.status p = "Paid"%string
  /\ date_le (Date_of_string (Payment.start_at p)) now = true
  /\ date_le now (Date_of_string (Payment.end_grace_at p)) = true.
Proof.
  unfold isActive.
  destruct (String.eqb_spec (Payment.status p) "Paid") as [E|_]; cbn [negb];
    [|discriminate].
  intros H. apply andb_prop in H. destruct H. auto.
Qed.

Lemma fetch_status (query : QueryResult.t) (now : Z) (s : HookState.t) :
  HookState.paymentStatus (StatusHook.fetchPaymentStatus query now s)
  = match QueryResult.error query, QueryResult.data query with
    | None, Some payments => statusOf payments now
    | _, _ => Free
    end.
Proof.
  unfold StatusHook.fetchPaymentStatus, statusOf.
  destruct (QueryResult.error query) as [e|]; [reflexivity|].
  destruct (QueryResult.data query) as [[|p payments]|]; [reflexivity| |reflexivity].
  cbv zeta.
  destruct (filter _ _); reflexivity.
Qed.

Lemma statusOf_sound (payments : list Payment.t) (now : Z) :
  PaymentStatus.isSubscribed (statusOf payments now) = true ->
  exists p key,
    first_with_key key payments = Some p
    /\ statusOf payments now = PaymentStatus.mk true (Some key) "구독중"
    /\ truthy key = true
    /\ isActive (JSDate.TimeClip now) p = true.
Proof.
  unfold statusOf.
  destruct (filter _ _) as [|p l] eqn:E; [discriminate|]. intros _.
  assert (Hin : In p (filter (isActive (JSDate.TimeClip now))
                        (Map_values (StatusHook.groupLoop payments []))))
    by (rewrite E; left; reflexivity).
  apply filter_In in Hin. destruct Hin as [Hin Hact].
  destruct (groupLoop_values _ _ _ Hin) as [[]|(key & _ & Hfirst)].
  exists p, key. split; [exact Hfirst|].
  apply find_some in Hfirst. destruct Hfirst as [_ Hk].
  apply has_key_inv in Hk. destruct Hk as [Hk Ht].
  rewrite Hk. repeat split; assumption.
Qed.

Lemma statusOf_free (payments : list Payment.t) (now : Z) :
  PaymentStatus.isSubscribed (statusOf payments now) = false ->
  statusOf payments now = Free.
Proof.
  unfold statusOf. destruct (filter _ _); [reflexivity|discriminate].
Qed.

Lemma statusOf_complete (payments : list Payment.t) (now : Z)
                        (key : string) (p : Payment.t) :
  first_with_key key payments = Some p ->
  isActive (JSDate.TimeClip now) p = true ->
  PaymentStatus.isSubscribed (statusOf payments now) = true.
Proof.
  intros Hfirst Hact. unfold statusOf.
  assert (Hin : In p (filter (isActive (JSDate.TimeClip now))
                        (Map_values (StatusHook.groupLoop payments [])))).
  { apply filter_In. split; [|exact Hact].
    apply (Map_get_In _ key). rewrite groupLoop_get. exact Hfirst. }
  destruct (filter _ _); [destruct Hin | reflexivity].
Qed.

(** A key is not reported when its first row is not an active Paid
    row. *)
Lemma statusOf_superseded (payments : list Payment.t) (now : Z)
                          (key : string) (p : Payment.t) :
  first_with_key key payments = Some p ->
  isActive (JSDate.TimeClip now) p = false ->
  PaymentStatus.transactionKey (statusOf payments now) <> Some key.
Proof.
  intros Hfirst Hinactive Hkey.
  destruct (PaymentStatus.isSubscribed (statusOf payments now)) eqn:Es.
  - destruct (statusOf_sound _ _ Es) as (p' & key' & Hf' & Heq & _ & Hact).
    rewrite Heq in Hkey. cbn in Hkey. inversion Hkey; subst key'.
    congruence.
  - rewrite (statusOf_free _ _ Es) in Hkey. discriminate.
Qed.

(** X11: when usePaymentStatus reports a subscription, the query had no
    error, the reported transaction key is non-empty, and the first row
    of that key in the result is a "Paid" row whose period from start_at
    to end_grace_at contains the current time. *)
Theorem status_subscribed_is_sound
    (query : QueryResult.t) (now : Z) (s : HookState.t) :
  let s' := StatusHook.fetchPaymentStatus query now s in
  PaymentStatus.isSubscribed (HookState.paymentStatus s') = true ->
  exists payments p key,
    QueryResult.error query = None
    /\ QueryResult.data query = Some payments
    /\ PaymentStatus.transactionKey (HookState.paymentStatus s') = Some key
    /\ truthy key = true
    /\ first_with_key key payments = Some p
    /\ In p payments
    /\ Payment.transaction_key p = Some key
    /\ Payment.status p = "Paid"%string
    /\ date_le (Date_of_string (Payment.start_at p)) (JSDate.TimeClip now)
       = true
    /\ date_le (JSDate.TimeClip now) (Date_of_string (Payment.end_grace_at p))
       = true.
Proof.
  intros s'. subst s'. rewrite fetch_status.
  destruct (QueryResult.error query) as [e|]; [discriminate|].
  destruct (QueryResult.data query) as [payments|]; [|discriminate].
  intros Hs.
  destruct (statusOf_sound _ _ Hs) as (p & key & Hfirst & Heq & Ht & Hact).
  destruct (isActive_inv _ _ Hact) as (Hpaid & Hstart & Hend).
  pose proof (find_some _ _ Hfirst) as [Hin Hk].
  apply has_key_inv in Hk. destruct Hk as [Hk _].
  exists payments, p, key. rewrite Heq. cbn.
  repeat split; assumption.
Qed.

(** X12: a transaction key whose first row in the query result is not a
    "Paid" row is never reported, whatever older rows of that key
    follow. *)
Theorem status_latest_row_supersedes
    (query : QueryResult.t) (now : Z) (s : HookState.t)
    (payments : list Payment.t) (key : string) (p : Payment.t) :
  QueryResult.data query = Some payments ->
  first_with_key key payments = Some p ->
  Payment.status p <> "Paid"%string ->
  PaymentStatus.transactionKey
    (HookState.paymentStatus (StatusHook.fetchPaymentStatus query now s))
  <> Some key.
Proof.
  intros Hdata Hfirst Hstatus. rewrite fetch_status, Hdata.
  destruct (QueryResult.error query) as [e|]; [discriminate|].
  apply (statusOf_superseded _ _ _ p Hfirst).
  unfold isActive. apply String.eqb_neq in Hstatus. rewrite Hstatus.
  reflexivity.
Qed.

(** X13: when the query succeeds and the first row of some key is a
    "Paid" row whose period contains the current time, the hook reports
    a subscription, with message "구독중" and a non-empty key. *)
Theorem status_active_row_subscribes
    (query : QueryResult.t) (now : Z) (s : HookState.t)
    (payments : list Payment.t) (key : string) (p : Payment.t) :
  QueryResult.error query = None ->
  QueryResult.data query = Some payments ->
  first_with_key key payments = Some p ->
  Payment.status p = "Paid"%string ->
  date_le (Date_of_string (Payment.start_at p)) (JSDate.TimeClip now) = true ->
  date_le (JSDate.TimeClip now) (Date_of_string (Payment.end_grace_at p))
  = true ->
  let status :=
    HookState.paymentStatus (StatusHook.fetchPaymentStatus query now s) in
  PaymentStatus.isSubscribed status = true
  /\ PaymentStatus.statusMessage status = "구독중"%string
  /\ exists reported, PaymentStatus.transactionKey status = Some reported
                      /\ truthy reported = true.
Proof.
  intros Herr Hdata Hfirst Hpaid Hstart Hend status. subst status.
  rewrite fetch_status, Herr, Hdata.
  assert (Hact : isActive (JSDate.TimeClip now) p = true).
  { unfold isActive. rewrite Hpaid. cbn. rewrite Hstart, Hend. reflexivity. }
  pose proof (statusOf_complete _ _ _ _ Hfirst Hact) as Hs.
  destruct (statusOf_sound _ _ Hs) as (p' & key' & _ & Heq & Ht & _).
  rewrite Heq. cbn. eauto.
Qed.

(** X14: after fetchPaymentStatus the loading flag is off; the error
    cell holds the query's error message, prefixed, or is empty; the
    status is the Free status on an error, on a missing or empty result
    and whenever no subscription is reported; a reported subscription
    carries the message "구독중" and a non-empty key. *)
Theorem status_state_after_fetch
    (query : QueryResult.t) (now : Z) (s : HookState.t) :
  let s' := StatusHook.fetchPaymentStatus query now s in
  let status := HookState.paymentStatus s' in
  HookState.isLoading s' = false
  /\ HookState.error s'
     = match QueryResult.error query with
       | Some message =>
           Some (String.append "결제 정보 조회 실패: " message)
       | None => None
       end
  /\ (HookState.error s' <> None -> status = Free)
  /\ (QueryResult.data query = None -> status = Free)
  /\ (QueryResult.data query = Some [] -> status = Free)
  /\ (PaymentStatus.isSubscribed status = false -> status = Free)
  /\ (PaymentStatus.isSubscribed status = true ->
      PaymentStatus.statusMessage status = "구독중"%string
      /\ exists key, PaymentStatus.transactionKey status = Some key
                     /\ truthy key = true).
Proof.
  intros s' status.
  assert (Hst : status
                = match QueryResult.error query, QueryResult.data query with
                  | None, Some payments => statusOf payments now
                  | _, _ => Free
                  end) by (subst status s'; apply fetch_status).
  assert (Hflags : HookState.isLoading s' = false
                   /\ HookState.error s'
                      = match QueryResult.error query with
                        | Some message =>
                            Some (String.append "결제 정보 조회 실패: " message)
                        | None => None
                        end).
  { subst s'. unfold StatusHook.fetchPaymentStatus.
    destruct (QueryResult.error query) as [e|]; [split; reflexivity|].
    destruct (QueryResult.data query) as [[|p l]|]; try (split; reflexivity).
    cbv zeta. destruct (filter _ _); split; reflexivity. }
  destruct Hflags as [Hload Herr].
  split; [exact Hload|]. split; [exact Herr|].
  rewrite Herr, Hst. clear Hst Herr Hload.
  destruct (QueryResult.error query) as [e|].
  - repeat split; try reflexivity; discriminate.
  - destruct (QueryResult.data query) as [payments|].
    + split; [congruence|]. split; [discriminate|].
      split; [intros H; inversion H; reflexivity|].
      split; [apply statusOf_free|].
      intros Hs.
      destruct (statusOf_sound _ _ Hs) as (p & key & _ & Heq & Ht & _).
      rewrite Heq. cbn. eauto.
    + repeat split; try reflexivity; discriminate.
Qed.

(* ===================================================================== *)
(** ** The status hook as rewritten *)
(* ===================================================================== *)

(** On rows that arrive newest first the dated loop never replaces an
    entry: it builds the Map of the first loop. *)
Lemma dated_groupLoop_agrees (payments : list Payment.t)
                             (m : JSMap Payment.t) :
  newest_first payments ->
  Forall (fun e =>
            Forall (fun r => date_gt (createdDate r) (createdDate e) = false)
                   payments)
         (Map_values m) ->
  StatusHookDated.groupLoop payments m = StatusHook.groupLoop payments m.
Proof.
  unfold newest_first. revert m.
  induction payments as [|p rest IH]; intros m Hsorted Hinv; [reflexivity|].
  apply StronglySorted_inv in Hsorted. destruct Hsorted as [Hrest Hp].
  assert (Hinv' : Forall (fun e =>
                   Forall (fun r => date_gt (createdDate r) (createdDate e)
                                    = false) rest)
                   (Map_values m)).
  { eapply Forall_impl; [|exact Hinv]. intros e He.
    apply Forall_inv_tail in He. exact He. }
  cbn [StatusHookDated.groupLoop StatusHook.groupLoop].
  destruct (truthy_opt (Payment.transaction_key p)) as [k|]; [|auto].
  unfold Map_has. destruct (Map_get m k) as [e|] eqn:Em; cbn [negb].
  - assert (He : date_gt (createdDate p) (createdDate e) = false).
    { apply Map_get_In in Em.
      rewrite Forall_forall in Hinv. specialize (Hinv e Em).
      apply Forall_inv in Hinv. exact Hinv. }
    unfold createdDate in He. cbv zeta. rewrite He. auto.
  - apply IH; [exact Hrest|].
    rewrite (Map_set_absent m k p Em). unfold Map_values. rewrite map_app.
    apply Forall_app. split; [exact Hinv'|].
    constructor; [exact Hp | constructor].
Qed.

Lemma hooks_agree_on_newest_first_lemma
    (query : QueryResult.t) (now : Z) (s : HookState.t) :
  (forall payments, QueryResult.data query = Some payments ->
                    newest_first payments) ->
  StatusHookDated.fetchPaymentStatus query now s
  = StatusHook.fetchPaymentStatus query now s.
Proof.
  intros Hsorted.
  unfold StatusHookDated.fetchPaymentStatus, StatusHook.fetchPaymentStatus.
  destruct (QueryResult.error query) as [e|]; [reflexivity|].
  destruct (QueryResult.data query) as [[|p l]|]; try reflexivity.
  rewrite dated_groupLoop_agrees; [reflexivity | auto | constructor].
Qed.

(** X15: the two versions of fetchPaymentStatus, the one keeping the
    first row of each key and the one comparing created_at, produce the
    same state whenever the rows arrive newest first, which is the
    order the query asks for. *)
Theorem hooks_agree_on_newest_first
    (query : QueryResult.t) (now : Z) (s : HookState.t) :
  (forall payments, QueryResult.data query = Some payments ->
                    newest_first payments) ->
  StatusHookDated.fetchPaymentStatus query now s
  = StatusHook.fetchPaymentStatus query now s.
Proof.
  exact (hooks_agree_on_newest_first_lemma query now s).
Qed.

Lemma Map_set_keys {V} (m : JSMap V) (key : string) (v : V) :
  map fst (Map_set m key v)
  = if Map_has m key then map fst m else map fst m ++ [key].
Proof.
  unfold Map_has. induction m as [|[k v'] m IH]; cbn; [reflexivity|].
  destruct (String.eqb_spec k key) as [->|Hne]; cbn; [reflexivity|].
  rewrite IH. destruct (Map_get m key); reflexivity.
Qed.

Lemma Map_get_not_In {V} (m : JSMap V) (key : string) :
  Map_get m key = None -> ~ In key (map fst m).
Proof.
  induction m as [|[k v] m IH]; cbn; [auto|].
  destruct (String.eqb_spec k key) as [->|Hne]; [discriminate|].
  intros H [E|Hin]; [congruence | exact (IH H Hin)].
Qed.

Lemma Map_In_get {V} (m : JSMap V) (key : string) (v : V) :
  NoDup (map fst m) -> In (key, v) m -> Map_get m key = Some v.
Proof.
  induction m as [|[k v'] m IH]; cbn; [intros _ []|].
  intros Hnd [E|Hin].
  - inversion E; subst. rewrite String.eqb_refl. reflexivity.
  - inversion Hnd as [|? ? Hk Hnd']; subst.
    destruct (String.eqb_spec k key) as [->|Hne].
    + exfalso. apply Hk. apply (in_map fst) in Hin. exact Hin.
    + exact (IH Hnd' Hin).
Qed.

Lemma date_gt_false_refl (d : JSDate.Date) : date_gt d d = false.
Proof. destruct d; cbn; [apply Z.ltb_irrefl | reflexivity]. Qed.

Lemma date_gt_trans (a b c : JSDate.Date) :
  b <> None ->
  date_gt a b = false -> date_gt c b = true -> date_gt a c = false.
Proof.
  destruct a as [x|], b as [y|], c as [z|]; cbn; try congruence.
  intros _ H1 H2. apply Z.ltb_ge in H1. apply Z.ltb_lt in H2.
  apply Z.ltb_ge. lia.
Qed.

Lemma dated_groupLoop_invariant (payments : list Payment.t)
                                (m : JSMap Payment.t)
                                (seen : list Payment.t) :
  (forall q, In q (seen ++ payments) -> createdDate q <> None) ->
  dated_invariant m seen ->
  dated_invariant (StatusHookDated.groupLoop payments m) (seen ++ payments).
Proof.
  revert m seen. induction payments as [|p rest IH]; intros m seen Hvalid Hinv.
  - rewrite app_nil_r. exact Hinv.
  - replace (seen ++ p :: rest) with ((seen ++ [p]) ++ rest) in *
      by (rewrite <- app_assoc; reflexivity).
    cbn [StatusHookDated.groupLoop].
    destruct Hinv as (Hnd & Hentry & Hseen).
    destruct (truthy_opt (Payment.transaction_key p)) as [k|] eqn:Ek.
    + unfold Map_has. destruct (Map_get m k) as [e|] eqn:Em; cbn [negb].
      * cbv zeta. fold (createdDate e) (createdDate p).
        destruct (date_gt (createdDate p) (createdDate e)) eqn:Egt.
        -- (* the entry is replaced by [p] *)
           apply IH; [exact Hvalid|]. split; [|split].
           ++ rewrite Map_set_keys. unfold Map_has. rewrite Em. exact Hnd.
           ++ intros key e'. rewrite Map_get_set.
              destruct (String.eqb_spec k key) as [->|Hne].
              ** intros H; inversion H; subst e'.
                 split; [exact (has_key_of_truthy key p Ek)|].
                 split; [apply in_or_app; right; left; reflexivity|].
                 intros q Hq Hkq. apply in_app_or in Hq.
                 destruct Hq as [Hq|[<-|[]]]; [|apply date_gt_false_refl].
                 destruct (Hentry key e Em) as (_ & Hine & Hmax).
                 apply (date_gt_trans _ (createdDate e));
                   [|exact (Hmax q Hq Hkq) | exact Egt].
                 apply Hvalid. apply in_or_app; left.
                 apply in_or_app; left. exact Hine.
              ** intros H. destruct (Hentry key e' H) as (Hk' & Hin' & Hmax).
                 split; [exact Hk'|].
                 split; [apply in_or_app; left; exact Hin'|].
                 intros q Hq Hkq. apply in_app_or in Hq.
                 destruct Hq as [Hq|[<-|[]]]; [exact (Hmax q Hq Hkq)|].
                 rewrite (has_key_other k key p Ek Hne) in Hkq. discriminate.
           ++ intros key q Hq Hkq. rewrite Map_get_set.
              destruct (String.eqb_spec k key) as [->|Hne]; [discriminate|].
              apply in_app_or in Hq. destruct Hq as [Hq|[<-|[]]].
              ** exact (Hseen key q Hq Hkq).
              ** rewrite (has_key_other k key p Ek Hne) in Hkq. discriminate.
        -- (* the entry is kept *)
           apply IH; [exact Hvalid|]. split; [exact Hnd|]. split.
           ++ intros key e' H.
              destruct (Hentry key e' H) as (Hk' & Hin' & Hmax).
              split; [exact Hk'|].
              split; [apply in_or_app; left; exact Hin'|].
              intros q Hq Hkq. apply in_app_or in Hq.
              destruct Hq as [Hq|[<-|[]]]; [exact (Hmax q Hq Hkq)|].
              destruct (String.eqb_spec k key) as [->|Hne].
              ** rewrite Em in H. inversion H; subst e'. exact Egt.
              ** rewrite (has_key_other k key p Ek Hne) in Hkq. discriminate.
           ++ intros key q Hq Hkq. apply in_app_or in Hq.
              destruct Hq as [Hq|[<-|[]]]; [exact (Hseen key q Hq Hkq)|].
              destruct (String.eqb_spec k key) as [->|Hne]; [congruence|].
              rewrite (has_key_other k key p Ek Hne) in Hkq. discriminate.
      * (* a new key *)
        apply IH; [exact Hvalid|]. split; [|split].
        -- rewrite Map_set_keys. unfold Map_has. rewrite Em.
           apply NoDup_app; [exact Hnd | repeat constructor; intros [] | ].
           intros x Hx [<-|[]]. exact (Map_get_not_In m k Em Hx).
        -- intros key e'. rewrite Map_get_set.
           destruct (String.eqb_spec k key) as [->|Hne].
           ++ intros H; inversion H; subst e'.
              split; [exact (has_key_of_truthy key p Ek)|].
              split; [apply in_or_app; right; left; reflexivity|].
              intros q Hq Hkq. apply in_app_or in Hq.
              destruct Hq as [Hq|[<-|[]]]; [|apply date_gt_false_refl].
              exfalso. exact (Hseen key q Hq Hkq Em).
           ++ intros H. destruct (Hentry key e' H) as (Hk' & Hin' & Hmax).
              split; [exact Hk'|].
              split; [apply in_or_app; left; exact Hin'|].
              intros q Hq Hkq. apply in_app_or in Hq.
              destruct Hq as [Hq|[<-|[]]]; [exact (Hmax q Hq Hkq)|].
              rewrite (has_key_other k key p Ek Hne) in Hkq. discriminate.
        -- intros key q Hq Hkq. rewrite Map_get_set.
           destruct (String.eqb_spec k key) as [->|Hne]; [discriminate|].
           apply in_app_or in Hq. destruct Hq as [Hq|[<-|[]]].
           ++ exact (Hseen key q Hq Hkq).
           ++ rewrite (has_key_other k key p Ek Hne) in Hkq. discriminate.
    + (* a row without key is skipped *)
      apply IH; [exact Hvalid|]. split; [exact Hnd|]. split.
      * intros key e' H. destruct (Hentry key e' H) as (Hk' & Hin' & Hmax).
        split; [exact Hk'|]. split; [apply in_or_app; left; exact Hin'|].
        intros q Hq Hkq. apply in_app_or in Hq.
        destruct Hq as [Hq|[<-|[]]]; [exact (Hmax q Hq Hkq)|].
        rewrite (has_key_none key p Ek) in Hkq. discriminate.
      * intros key q Hq Hkq. apply in_app_or in Hq.
        destruct Hq as [Hq|[<-|[]]]; [exact (Hseen key q Hq Hkq)|].
        rewrite (has_key_none key p Ek) in Hkq. discriminate.
Qed.

Lemma Map_values_In {V} (m : JSMap V) (v : V) :
  In v (Map_values m) -> exists key, In (key, v) m.
Proof.
  unfold Map_values. intros H. apply in_map_iff in H.
  destruct H as ([k v'] & E & Hin). cbn in E. subst v'. eauto.
Qed.

(** X16: the version comparing created_at does not depend on the order
    of the rows: when every created_at is a valid date and it reports a
    subscription, the reported key has an active "Paid" row in the
    result that no row of the same key is strictly newer than. *)
Theorem dated_status_reports_newest_row
    (query : QueryResult.t) (now : Z) (s : HookState.t)
    (payments : list Payment.t) :
  QueryResult.data query = Some payments ->
  (forall q, In q payments -> createdDate q <> None) ->
  let status :=
    HookState.paymentStatus (StatusHookDated.fetchPaymentStatus query now s) in
  PaymentStatus.isSubscribed status = true ->
  exists p key,
    PaymentStatus.transactionKey status = Some key
    /\ truthy key = true
    /\ In p payments
    /\ Payment.transaction_key p = Some key
    /\ Payment.status p = "Paid"%string
    /\ date_le (Date_of_string (Payment.start_at p)) (JSDate.TimeClip now)
       = true
    /\ date_le (JSDate.TimeClip now) (Date_of_string (Payment.end_grace_at p))
       = true
    /\ forall q, In q payments ->
                 Payment.transaction_key q = Some key ->
                 date_gt (createdDate q) (createdDate p) = false.
Proof.
  intros Hdata Hvalid status. subst status.
  unfold StatusHookDated.fetchPaymentStatus. rewrite Hdata.
  destruct (QueryResult.error query) as [e|]; [discriminate|].
  destruct payments as [|p0 rest]; [discriminate|].
  set (payments := p0 :: rest) in *. cbv zeta.
  destruct (filter _ _) as [|p l] eqn:E; [discriminate|]. intros _.
  cbn [HookState.paymentStatus setIsLoading setPaymentStatus
       PaymentStatus.transactionKey].
  assert (Hin : In p (filter (isActive (JSDate.TimeClip now))
                        (Map_values (StatusHookDated.groupLoop payments []))))
    by (rewrite E; left; reflexivity).
  apply filter_In in Hin. destruct Hin as [Hin Hact].
  destruct (dated_groupLoop_invariant payments [] [] Hvalid)
    as (Hnd & Hentry & _).
  { split; [constructor|]. split; [intros key e' H; discriminate H|].
    intros key q []. }
  cbn [app] in Hentry.
  apply Map_values_In in Hin. destruct Hin as (key & Hin).
  apply (Map_In_get _ _ _ Hnd) in Hin.
  destruct (Hentry key p Hin) as (Hk & Hinp & Hmax).
  apply has_key_inv in Hk. destruct Hk as [Hk Ht].
  destruct (isActive_inv _ _ Hact) as (Hpaid & Hstart & Hend).
  exists p, key. repeat split; try assumption.
  intros q Hq Hkq. apply (Hmax q Hq).
  unfold has_key. rewrite Hkq. cbn. rewrite Ht. apply String.eqb_refl.
Qed.

(* ===================================================================== *)
(** ** The webhook's rows as the status hook reads them *)
(* ===================================================================== *)

Lemma StronglySorted_middle {A} (R : A -> A -> Prop)
                            (before after : list A) (x : A) :
  StronglySorted R (before ++ x :: after) -> Forall (R x) after.
Proof.
  induction before as [|a before IH]; cbn; intros H;
    apply StronglySorted_inv in H; destruct H as [H1 H2]; auto.
Qed.

(** In rows that arrive newest first, a row of a key that is strictly
    newer than every other row of the key is the first row of the
    key. *)
Lemma newest_first_first_with_key (data : list Payment.t) (c : Payment.t)
                                  (key : string) :
  newest_first data ->
  In c data ->
  has_key key c = true ->
  (forall q, In q data -> has_key key q = true ->
             q = c \/ date_gt (createdDate c) (createdDate q) = true) ->
  first_with_key key data = Some c.
Proof.
  intros Hsorted Hin Hkey Hnewer. unfold first_with_key.
  destruct (find (has_key key) data) as [x|] eqn:Ef.
  - destruct (find_first _ _ _ Ef) as (before & after & Hd & Hx & Hb).
    assert (Hxin : In x data) by (rewrite Hd; apply in_elt).
    destruct (Hnewer x Hxin Hx) as [->|Hgt]; [reflexivity|].
    exfalso. rewrite Hd in Hin. apply in_app_or in Hin.
    destruct Hin as [Hin|[->|Hin]].
    + rewrite (Hb c Hin) in Hkey. discriminate.
    + rewrite date_gt_false_refl in Hgt. discriminate.
    + unfold newest_first in Hsorted. rewrite Hd in Hsorted.
      apply StronglySorted_middle in Hsorted.
      rewrite Forall_forall in Hsorted. specialize (Hsorted c Hin).
      cbv beta in Hsorted. congruence.
  - exfalso. pose proof (find_none _ _ Ef c Hin) as H. congruence.
Qed.

Lemma has_key_payment_of_row (key : string) (r : Row.t) :
  has_key key (payment_of_row r) = true ->
  PaymentRecord.transaction_key (Row.fields r) = key.
Proof.
  intros H. apply has_key_inv in H. destruct H as [H _].
  cbn in H. congruence.
Qed.

(** The row the webhook appended last, strictly newer than the rows of
    its key, is the first row of its key in every read. *)
Lemma appended_row_is_first (rows : list Row.t) (c : Row.t)
                            (data : list Payment.t) :
  truthy (PaymentRecord.transaction_key (Row.fields c)) = true ->
  (forall r, In r rows ->
             PaymentRecord.transaction_key (Row.fields r)
             = PaymentRecord.transaction_key (Row.fields c) ->
             - JSDate.maxTime <= Row.created_at r < Row.created_at c) ->
  Row.created_at c <= JSDate.maxTime ->
  reads (rows ++ [c]) data ->
  first_with_key (PaymentRecord.transaction_key (Row.fields c)) data
  = Some (payment_of_row c).
Proof.
  intros Ht Holder Hmax [Hperm Hsorted].
  assert (Hin : forall q, In q data <->
                          In q (map payment_of_row (rows ++ [c])))
    by (intros q; split; apply Permutation_in;
        [exact Hperm | symmetry; exact Hperm]).
  apply newest_first_first_with_key; [exact Hsorted| | |].
  - apply Hin. apply in_map. apply in_or_app. right. left. reflexivity.
  - unfold has_key, payment_of_row. cbn. rewrite Ht. apply String.eqb_refl.
  - intros q Hq Hkq. apply Hin in Hq. apply in_map_iff in Hq.
    destruct Hq as (r & <- & Hr). apply in_app_or in Hr.
    destruct Hr as [Hr|[->|[]]]; [right | left; reflexivity].
    apply has_key_payment_of_row in Hkq.
    specialize (Holder r Hr Hkq).
    unfold createdDate, payment_of_row, Date_of_created_at, Date_of_string.
    cbn [Payment.created_at timeValue].
    rewrite !JSDateFacts.TimeClip_in_range by lia.
    cbn. apply Z.ltb_lt. lia.
Qed.

(** X18: after the webhook has handled a Cancelled event successfully,
    neither version of the status hook reports the cancelled payment's
    key when it reads the ledger, provided the reversal row is strictly
    newer than the other rows of that key. *)
Theorem cancelled_subscription_is_not_reported
    (w : World) (paymentId : string) (d : PortonePayment.t)
    (found : Row.t) (st : State)
    (data : list Payment.t) (now : Z) (s : HookState.t) :
  gateway_detail w paymentId = Some d ->
  db_select_error w = None ->
  latestPaid w (actualPaymentId d paymentId) (ledger st) = Some found ->
  db_insert_error w = None ->
  (forall r, In r (ledger st) ->
             PaymentRecord.transaction_key (Row.fields r)
             = actualPaymentId d paymentId ->
             - JSDate.maxTime <= Row.created_at r < db_now w) ->
  db_now w <= JSDate.maxTime ->
  reads (ledger (snd (POST w (cancelled_event paymentId) st))) data ->
  let query := QueryResult.mk (Some data) None in
  PaymentStatus.transactionKey
    (HookState.paymentStatus (StatusHook.fetchPaymentStatus query now s))
  <> Some (actualPaymentId d paymentId)
  /\ PaymentStatus.transactionKey
       (HookState.paymentStatus
          (StatusHookDated.fetchPaymentStatus query now s))
     <> Some (actualPaymentId d paymentId).
Proof.
  intros Hd Hs Hf Hi Holder Hmax Hreads query.
  assert (Hagree : StatusHookDated.fetchPaymentStatus query now s
                   = StatusHook.fetchPaymentStatus query now s).
  { apply hooks_agree_on_newest_first_lemma. intros payments Hp.
    inversion Hp; subst. exact (proj2 Hreads). }
  rewrite Hagree.
  assert (Hgoal : PaymentStatus.transactionKey
                    (HookState.paymentStatus
                       (StatusHook.fetchPaymentStatus query now s))
                  <> Some (actualPaymentId d paymentId)); [|auto].
  destruct (POST_cancelled_run w paymentId d found st Hd Hs Hf Hi)
    as (_ & Hl & _).
  rewrite Hl in Hreads.
  destruct (latestPaid_spec _ _ _ _ Hf) as (_ & Hkey & _).
  set (c := Row.mk (List.length (ledger st)) (db_now w)
                   (reversal_of (Row.fields found))) in *.
  assert (Hck : PaymentRecord.transaction_key (Row.fields c)
                = actualPaymentId d paymentId) by exact Hkey.
  rewrite fetch_status. cbn [query QueryResult.error QueryResult.data].
  intros Heq.
  assert (Hsub : PaymentStatus.isSubscribed (statusOf data now) = true).
  { destruct (PaymentStatus.isSubscribed (statusOf data now)) eqn:E;
      [reflexivity|].
    rewrite (statusOf_free _ _ E) in Heq. discriminate. }
  destruct (statusOf_sound _ _ Hsub) as (p & key & Hfirst & Hst & Ht & Hact).
  rewrite Hst in Heq. cbn in Heq. inversion Heq; subst key.
  rewrite <- Hck in Hfirst, Ht.
  rewrite (appended_row_is_first (ledger st) c data Ht) in Hfirst;
    [| rewrite Hck; exact Holder | exact Hmax | exact Hreads].
  inversion Hfirst; subst p.
  apply isActive_inv in Hact. destruct Hact as [Hpaid _].
  cbn in Hpaid. discriminate.
Qed.


(* ===================================================================== *)
(** ** The cancel hook and the my-page *)
(* ===================================================================== *)

(** X19: usePaymentCancel's handler returns true exactly when it
    navigates to /magazines, and exactly when the user confirmed and the
    cancel API answered with a body whose success is truthy.  Declining
    the dialog sends nothing; after confirming, exactly one request is
    sent, for the given key, and exactly one alert is shown. *)
Theorem cancel_navigates_only_after_success
    (b : Browser) (transactionKey : string) :
  let question := "구독을 취소하시겠습니까?"%string in
  let result := PaymentCancelHook.handleCancelSubscription b transactionKey in
  let events := snd result in
  (fst result = true
   <-> In (RouterPush "/magazines") events)
  /\ (fst result = true
      <-> confirm b question = true
          /\ exists response cancelResult,
               POST_payments_cancel b transactionKey = FetchResolved response
               /\ Response.json response = Some cancelResult
               /\ CancelResult.success cancelResult = true)
  /\ (confirm b question = false -> events = [ConfirmDialog question])
  /\ (confirm b question = true ->
      filter (fun e => match e with CancelRequest _ => true | _ => false end)
             events
      = [CancelRequest transactionKey]
      /\ List.length
           (filter (fun e => match e with AlertDialog _ => true | _ => false end)
                   events) = 1%nat).
Proof.
  cbv zeta. unfold PaymentCancelHook.handleCancelSubscription.
  destruct (confirm b _) eqn:Hc; cbn [negb];
    [destruct (POST_payments_cancel b transactionKey) as [reason|response];
     [|destruct (Response.json response) as [cancelResult|] eqn:Hj;
       [destruct (CancelResult.success cancelResult) eqn:Hs|]]|];
    cbn; repeat split; intros;
    repeat match goal with
           | H : _ /\ _ |- _ => destruct H
           | H : exists _, _ |- _ => destruct H
           | H : _ \/ _ |- _ => destruct H
           | H : False |- _ => destruct H
           | H : FetchResolved _ = FetchResolved _ |- _ =>
               inversion H; clear H; subst
           end;
    try discriminate; try congruence; auto 10.
  exists response, cancelResult. auto.
Qed.

(** X20: on the my-page, the cancel button sends a request only for a
    key whose first row in the status query is an active "Paid" row;
    when no subscription is reported the handler only shows the
    "구독 정보를 찾을 수 없습니다." alert. *)
Theorem mypage_cancel_uses_reported_key
    (b : Browser) (query : QueryResult.t) (now : Z) (s : HookState.t) :
  let status :=
    HookState.paymentStatus (StatusHook.fetchPaymentStatus query now s) in
  let events := Mypage.handleCancelSubscription b status in
  (PaymentStatus.isSubscribed status = false ->
   events = [AlertDialog "구독 정보를 찾을 수 없습니다."])
  /\ (forall transactionKey,
        In (CancelRequest transactionKey) events ->
        exists payments p,
          QueryResult.data query = Some payments
          /\ first_with_key transactionKey payments = Some p
          /\ Payment.status p = "Paid"%string
          /\ isActive (JSDate.TimeClip now) p = true).
Proof.
  cbv zeta. rewrite fetch_status. unfold Mypage.handleCancelSubscription.
  split.
  - intros Hs.
    assert (E : match QueryResult.error query, QueryResult.data query with
                | None, Some payments => statusOf payments now
                | _, _ => Free
                end = Free).
    { destruct (QueryResult.error query); [reflexivity|].
      destruct (QueryResult.data query); [|reflexivity].
      apply statusOf_free. exact Hs. }
    rewrite E. reflexivity.
  - intros key.
    destruct (QueryResult.error query) as [e|];
      [cbn; intros [H|[]]; discriminate H|].
    destruct (QueryResult.data query) as [payments|];
      [|cbn; intros [H|[]]; discriminate H].
    destruct (PaymentStatus.isSubscribed (statusOf payments now)) eqn:Es.
    + destruct (statusOf_sound _ _ Es) as (p & k & Hfirst & Heq & Ht & Hact).
      rewrite Heq. cbn [PaymentStatus.transactionKey truthy_opt]. rewrite Ht.
      intros Hin.
      assert (key = k).
      { unfold PaymentCancelHook.handleCancelSubscription in Hin.
        destruct (confirm b _); cbn [negb] in Hin;
          [|cbn in Hin; destruct Hin as [H|[]]; discriminate H].
        destruct (POST_payments_cancel b k) as [|r];
          [|destruct (Response.json r) as [c|];
            [destruct (CancelResult.success c)|]];
          cbn in Hin;
          repeat match goal with
                 | H : _ \/ _ |- _ => destruct H as [H|H]
                 | H : False |- _ => destruct H
                 end; congruence. }
      subst k. exists payments, p.
      destruct (isActive_inv _ _ Hact) as (Hpaid & _).
      repeat split; assumption.
    + rewrite (statusOf_free _ _ Es). cbn. intros [H|[]]; discriminate H.
Qed.

(* ===================================================================== *)
(** ** The concrete invocations, checked against the theorems *)
(* ===================================================================== *)

Lemma Some_eq {A} (a b : A) : Some a = Some b -> a = b.
Proof. intros H. injection H as H. exact H. Qed.


Lemma cancelled_read_reads :
  reads (ledger (snd (POST Cases.later_world (cancelled_event "pay_1")
                           Scenario.paid)))
        Cases.cancelled_read.
Proof.
  let rows := eval vm_compute in
                (ledger (snd (POST Cases.later_world (cancelled_event "pay_1")
                                   Scenario.paid))) in
  assert (Hrows : ledger (snd (POST Cases.later_world (cancelled_event "pay_1")
                                    Scenario.paid)) = rows)
    by (vm_compute; reflexivity).
  let data := eval vm_compute in Cases.cancelled_read in
  assert (Hdata : Cases.cancelled_read = data) by (vm_compute; reflexivity).
  rewrite Hrows, Hdata. split.
  - apply perm_swap.
  - repeat constructor.
Qed.

Lemma lookup_failure_stops_before_store_witness :
  issued Scenario.empty
         (snd (POST Cases.lookup_404_world (paid_event "pay_1") Scenario.empty))
  = [GetPayment "pay_1"]
  /\ ledger (snd (POST Cases.lookup_404_world (cancelled_event "pay_1")
                       Scenario.empty)) = [].
Proof.
  destruct (lookup_failure_stops_before_store
              Cases.lookup_404_world "pay_1" Scenario.empty eq_refl)
    as (_ & _ & Hsent & _ & Hledger & _).
  split; [exact Hsent | exact Hledger].
Defined.

Lemma insert_failure_leaves_no_row_witness :
  ledger (snd (POST Cases.store_rejects_world (paid_event "pay_1")
                    Scenario.empty)) = []
  /\ filter is_schedule_call
            (issued Scenario.empty
                    (snd (POST Cases.store_rejects_world (paid_event "pay_1")
                               Scenario.empty))) = [].
Proof.
  destruct (insert_failure_leaves_no_row
              Cases.store_rejects_world "pay_1" "permission denied"
              Scenario.empty eq_refl)
    as (_ & Hledger & Hsent & _).
  split; [exact Hledger | exact Hsent].
Defined.

Lemma cancelled_search_window_witness :
  In (QueryPaymentSchedules
        (ScheduleFilter.mk "bk_1"
           (ISO8601 (1706785140000 - JSDate.msPerDay))
           (ISO8601 (1706785140000 + JSDate.msPerDay))))
     (issued Scenario.paid
             (snd (POST Cases.later_world (cancelled_event "pay_1")
                        Scenario.paid))).
Proof.
  apply (proj2 (cancelled_search_window
                  Cases.later_world "pay_1" Scenario.detail Cases.paid_row
                  Scenario.paid eq_refl eq_refl eq_refl eq_refl
                  (fun t _ => JSDateFacts.fixedOffset_steady
                                0 _ _ (conj eq_refl eq_refl)))
               "bk_1"%string 1706785140000 "uuid-1"%string
               eq_refl eq_refl eq_refl).
  vm_compute. split; discriminate.
Defined.

Lemma paid_row_is_found_by_lookup_witness :
  exists row,
    ledger (snd (POST Cases.later_world (paid_event "pay_1") Scenario.paid))
    = ledger Scenario.paid ++ [row]
    /\ latestPaid Cases.later_world "pay_1"
         (ledger (snd (POST Cases.later_world (paid_event "pay_1")
                            Scenario.paid)))
       = Some row
    /\ PaymentRecord.amount (Row.fields row) = 9900.
Proof.
  apply (paid_row_is_found_by_lookup
           Cases.later_world Cases.later_world "pay_1" Scenario.detail
           Scenario.paid eq_refl eq_refl eq_refl eq_refl).
  intros r Hin _. vm_compute in Hin. destruct Hin as [<- | []].
  reflexivity.
Defined.

Lemma cancelled_replay_appends_two_reversals_witness :
  exists row1 row2,
    ledger (snd (POST Cases.later_world (cancelled_event "pay_1")
                      Cases.cancelled))
    = ledger Scenario.paid ++ [row1; row2]
    /\ Row.id row1 <> Row.id row2
    /\ Row.fields row1 = reversal_of (Row.fields Cases.paid_row)
    /\ Row.fields row2 = reversal_of (Row.fields Cases.paid_row).
Proof.
  destruct (cancelled_replay_appends_two_reversals
              Cases.later_world Cases.later_world "pay_1"
              Scenario.detail Scenario.detail Cases.paid_row Scenario.paid
              eq_refl eq_refl eq_refl eq_refl eq_refl eq_refl eq_refl eq_refl)
    as (row1 & row2 & found' & _ & _ & Hledger & Hids & Hfields1 & _ & _ & _
        & Hsame).
  exists row1, row2.
  split; [exact Hledger|]. split; [exact Hids|].
  split; [exact Hfields1 | exact (proj2 (Hsame (fun _ _ => eq_refl)))].
Defined.


Lemma status_subscribed_is_sound_witness :
  exists key,
    PaymentStatus.transactionKey
      (HookState.paymentStatus
         (StatusHook.fetchPaymentStatus
            (QueryResult.mk (Some Cases.paid_read) None)
            Cases.reading_time initialHookState))
    = Some key
    /\ truthy key = true.
Proof.
  destruct (status_subscribed_is_sound
              (QueryResult.mk (Some Cases.paid_read) None)
              Cases.reading_time initialHookState eq_refl)
    as (_ & _ & key & _ & _ & Hkey & Htruthy & _).
  exists key. split; [exact Hkey | exact Htruthy].
Defined.

Lemma status_latest_row_supersedes_witness :
  PaymentStatus.transactionKey
    (HookState.paymentStatus
       (StatusHook.fetchPaymentStatus
          (QueryResult.mk (Some Cases.cancelled_read) None)
          Cases.reading_time initialHookState))
  <> Some "pay_1"%string.
Proof.
  apply (status_latest_row_supersedes
           (QueryResult.mk (Some Cases.cancelled_read) None)
           Cases.reading_time initialHookState Cases.cancelled_read "pay_1"
           (Payment.mk (Some "pay_1"%string) (Some (ISO8601 1704070800456))
                       "Cancel" (ISO8601 1704067200000)
                       (ISO8601 1706745600000))
           eq_refl eq_refl).
  discriminate.
Defined.

Lemma status_active_row_subscribes_witness :
  PaymentStatus.isSubscribed
    (HookState.paymentStatus
       (StatusHook.fetchPaymentStatus
          (QueryResult.mk (Some Cases.paid_read) None)
          Cases.reading_time initialHookState))
  = true.
Proof.
  apply (status_active_row_subscribes
           (QueryResult.mk (Some Cases.paid_read) None)
           Cases.reading_time initialHookState Cases.paid_read "pay_1"
           (payment_of_row Cases.paid_row)
           eq_refl eq_refl eq_refl eq_refl eq_refl eq_refl).
Defined.

Lemma hooks_agree_on_newest_first_witness :
  StatusHookDated.fetchPaymentStatus
    (QueryResult.mk (Some Cases.cancelled_read) None)
    Cases.reading_time initialHookState
  = StatusHook.fetchPaymentStatus
      (QueryResult.mk (Some Cases.cancelled_read) None)
      Cases.reading_time initialHookState.
Proof.
  apply hooks_agree_on_newest_first.
  intros payments Hdata. 
  apply Some_eq in Hdata. 
  subst payments.
  exact (proj2 cancelled_read_reads).
Defined.

Lemma dated_status_reports_newest_row_witness :
  exists key,
    PaymentStatus.transactionKey
      (HookState.paymentStatus
         (StatusHookDated.fetchPaymentStatus
            (QueryResult.mk (Some Cases.unordered_read) None)
            Cases.reading_time initialHookState))
    = Some key
    /\ truthy key = true.
Proof.
  assert (Hdates : forall q, In q Cases.unordered_read ->
                             createdDate q <> None).
  { intros q Hin. vm_compute in Hin.
    destruct Hin as [<- | [<- | [<- | []]]]; vm_compute; discriminate. }
  destruct (dated_status_reports_newest_row
              (QueryResult.mk (Some Cases.unordered_read) None)
              Cases.reading_time initialHookState Cases.unordered_read
              eq_refl Hdates eq_refl)
    as (_ & key & Hkey & Htruthy & _).
  exists key. split; [exact Hkey | exact Htruthy].
Defined.


Lemma cancelled_subscription_is_not_reported_witness :
  PaymentStatus.transactionKey
    (HookState.paymentStatus
       (StatusHook.fetchPaymentStatus
          (QueryResult.mk (Some Cases.cancelled_read) None)
          Cases.reading_time initialHookState))
  <> Some "pay_1"%string.
Proof.
  assert (Hfresh : forall r, In r (ledger Scenario.paid) ->
                             PaymentRecord.transaction_key (Row.fields r)
                             = actualPaymentId Scenario.detail "pay_1" ->
                             - JSDate.maxTime <= Row.created_at r
                               < db_now Cases.later_world).
  { intros r Hin _. vm_compute in Hin. destruct Hin as [<- | []].
    vm_compute. split; [discriminate | reflexivity]. }
  assert (Hnow : db_now Cases.later_world <= JSDate.maxTime)
    by (vm_compute; discriminate).
  exact (proj1 (cancelled_subscription_is_not_reported
                  Cases.later_world "pay_1" Scenario.detail Cases.paid_row
                  Scenario.paid Cases.cancelled_read Cases.reading_time
                  initialHookState
                  eq_refl eq_refl eq_refl eq_refl Hfresh Hnow
                  cancelled_read_reads)).
Defined.
